(** * sbc-auth: membership state machine and affiliation reconciliation

    A shallow embedding of
      - [auth_api/services/membership.py] (class [Membership]) and
      - [auth_api/services/affiliation.py] (class [Affiliation]),
    followed by the properties of the specification that concern them.

    Conventions.  Python exceptions are values of [exn]; a method that
    mutates [self._model] is a computation in the state-and-exception monad
    [M], whose final state is the state reached when the exception was
    raised.  Python dictionaries that are only looked up are [gmap]s;
    dictionaries whose iteration order reaches the result are association
    lists with the insertion-order discipline of [dict]. *)

From stdpp Require Import base option list gmap strings.
From Stdlib Require Import ZArith NArith Lia Sorted.

(** ** Python values and exceptions shared by both services *)

Module Py.

(** The [Error] members raised by the two services. *)
Inductive Error : Set :=
| BCEID_USERS_CANT_BE_OWNERS
| CHANGE_ROLE_FAILED_ONLY_OWNER
| MAX_NUMBER_OF_STAFF_ORGS_LIMIT.

(** Exceptions.  [Forbidden] is the [abort(403)] of [check_auth];
    [AttributeError], [KeyError] and [ValueError] are the interpreter's;
    [Exception] is any other one, as a publisher may raise. *)
Inductive exn : Set :=
| BusinessException (e : Error)
| Forbidden
| AttributeError
| KeyError
| ValueError
| Exception.

Inductive result (A : Type) : Type :=
| Ok (a : A)
| Raise (e : exn).
Arguments Ok {A} a.
Arguments Raise {A} e.

Definition is_ok {A} (r : result A) : bool :=
  match r with Ok _ => true | Raise _ => false end.

(** [x in s] for two strings: [x] occurs in [s] as a substring. *)
Fixpoint str_contains (s x : string) : bool :=
  String.prefix x s ||
  match s with
  | EmptyString => false
  | String _ s' => str_contains s' x
  end.

#[global] Instance result_ret : MRet result := @Ok.
#[global] Instance result_bind : MBind result :=
  fun _ _ k r => match r with Ok a => k a | Raise e => Raise e end.

(** [d[k]] on an optional key: [KeyError] when the key is absent. *)
Definition subscript {A} (o : option A) : result A :=
  match o with Some a => Ok a | None => Raise KeyError end.

(** *** State and exceptions

    A computation over a mutable state [S] that returns or raises; the
    state it leaves is the one reached at the [raise]. *)
Definition M (S A : Type) : Type := S -> result A * S.

Section monad.
Context {S : Type}.

Definition ret {A} (a : A) : M S A := fun s => (Ok a, s).
Definition raise {A} (e : exn) : M S A := fun s => (Raise e, s).
Definition bind {A B} (c : M S A) (k : A -> M S B) : M S B :=
  fun s => match c s with
           | (Ok a, s') => k a s'
           | (Raise e, s') => (Raise e, s')
           end.
Definition lift {A} (r : result A) : M S A := fun s => (r, s).
Definition gets {A} (f : S -> A) : M S A := fun s => (Ok (f s), s).
Definition modify (f : S -> S) : M S unit := fun s => (Ok tt, f s).
Definition when (b : bool) (c : M S unit) : M S unit := if b then c else ret tt.

(** [for x in xs: body(x)]. *)
Fixpoint for_each {A} (xs : list A) (body : A -> M S unit) : M S unit :=
  match xs with
  | [] => ret tt
  | x :: xs' => bind (body x) (fun _ => for_each xs' body)
  end.
End monad.

#[global] Instance M_ret {S} : MRet (M S) := @ret S.
#[global] Instance M_bind {S} : MBind (M S) := fun _ _ k c => bind c k.

End Py.

(** ** The membership service *)

Module Membership.
Import Py.

(** [auth_api.utils.roles]: the role names. *)
Definition ADMIN : string := "ADMIN".
Definition COORDINATOR : string := "COORDINATOR".
Definition USER : string := "USER".
Definition STAFF : string := "STAFF".

(** [auth_api.utils.enums.Status].  The integer behind each member is
    declared outside the service; the service only compares them. *)
Inductive Status : Set :=
| ACTIVE | INACTIVE | REJECTED | PENDING_APPROVAL | PENDING_STAFF_REVIEW.

Inductive LoginSource : Set :=
| BCEID | BCROS | BCSC | IDIR.

(** [auth_api.utils.enums.OrgType]; the three staff-tier types are the
    keys of [org_type_to_group_mapping]. *)
Inductive OrgType : Set :=
| MAXIMUS_STAFF | CC_STAFF | SBC_STAFF | STAFF_ORG | PREMIUM | BASIC.

Inductive Group : Set :=
| GROUP_MAXIMUS_STAFF | GROUP_CONTACT_CENTRE_STAFF | GROUP_SBC_STAFF
| GROUP_ACCOUNT_HOLDERS.

Inductive ActivityAction : Set :=
| APPROVE_TEAM_MEMBER | REMOVE_TEAM_MEMBER.

#[global] Instance Status_eq_dec : EqDecision Status.
Proof. solve_decision. Defined.
#[global] Instance LoginSource_eq_dec : EqDecision LoginSource.
Proof. solve_decision. Defined.
#[global] Instance OrgType_eq_dec : EqDecision OrgType.
Proof. solve_decision. Defined.
#[global] Instance Group_eq_dec : EqDecision Group.
Proof. solve_decision. Defined.

(** [org_type_to_group_mapping], in source order. *)
Definition org_type_to_group_mapping : list (OrgType * Group) :=
  [ (MAXIMUS_STAFF, GROUP_MAXIMUS_STAFF);
    (CC_STAFF, GROUP_CONTACT_CENTRE_STAFF);
    (SBC_STAFF, GROUP_SBC_STAFF) ].

Definition mapping_get (t : OrgType) : option Group :=
  snd <$> List.find (fun kv => bool_decide (fst kv = t)) org_type_to_group_mapping.

(** The values a caller puts in [updated_fields] and that [setattr]
    stores on the model: [None], a plain string, a [MembershipType] row
    (an object with a [code]) or a [MembershipStatusCode] row (an object
    with an [id]). *)
Inductive pyval : Set :=
| PNone
| PStr (s : string)
| PType (code : string)
| PStatus (id : Status).

#[global] Instance pyval_eq_dec : EqDecision pyval.
Proof. solve_decision. Defined.

(** Truth value of an object: [None] and the empty string are false,
    model rows are true. *)
Definition truthy (v : pyval) : bool :=
  match v with
  | PNone => false
  | PStr s => negb (String.eqb s "")
  | PType _ | PStatus _ => true
  end.

(** [v == s] for a string constant [s]: a model row compares by identity
    and is never equal to a string. *)
Definition eq_str (v : pyval) (s : string) : bool :=
  match v with
  | PStr s' => String.eqb s' s
  | _ => false
  end.

(** [getattr(v, "code", None)]. *)
Definition getattr_code (v : pyval) : pyval :=
  match v with
  | PType c => PStr c
  | _ => PNone
  end.

(** [v.id]. *)
Definition attr_id (v : pyval) : result Status :=
  match v with
  | PStatus i => Ok i
  | _ => Raise AttributeError
  end.

(** [v.code]. *)
Definition attr_code (v : pyval) : result string :=
  match v with
  | PType c => Ok c
  | _ => Raise AttributeError
  end.

(** [d.get(k)] and [d.get(k, None)]. *)
Definition dict_get (d : gmap string pyval) (k : string) : pyval :=
  default PNone (d !! k).

Record User : Set := {
  user_id : Z;
  username : string;
  login_source : LoginSource;
  keycloak_guid : string;
}.

(** A row reached through [org.members]. *)
Record MemberRow : Set := {
  membership_type_code : string;
  status : Status;
}.

Record Org : Set := {
  org_id : Z;
  type_code : OrgType;
  members : list MemberRow;
}.

(** [MembershipModel]: the user and org it links, and the attributes
    [update_membership] assigns through [setattr] ("membership_type",
    "membership_status", ...). *)
Record MembershipModel : Type := {
  user : User;
  org : Org;
  attrs : gmap string pyval;
}.

Definition setattr (m : MembershipModel) (k : string) (v : pyval) : MembershipModel :=
  {| user := user m; org := org m; attrs := <[k := v]> (attrs m) |}.

Definition getattr (m : MembershipModel) (k : string) : result pyval :=
  match attrs m !! k with
  | Some v => Ok v
  | None => Raise AttributeError
  end.

(** The request's [UserContext] together with what the authorization
    view knows about the caller on the target org. *)
Record UserContext : Set := {
  user_name : string;
  is_staff : bool;
  org_membership : option string;
}.

(** Rows of the tables the staff-org guard queries. *)
Record MembershipRec : Set := {
  rec_user_id : Z;
  rec_org_id : Z;
  rec_status : Status;
}.

Record OrgRec : Set := {
  rec_id : Z;
  rec_type_code : OrgType;
}.

Record Database : Set := {
  membership_table : list MembershipRec;
  org_table : list OrgRec;
}.

(** The [QueueMessageTypes] of the mails [update_membership] publishes. *)
Inductive Notification : Set := TEAM_MODIFIED | ADMIN_REMOVED.

(** What the collaborators answer during one request.  [mailer] is what
    [publish_to_mailer] does with a notification of a type: the exception
    it raises, or [None] when it returns. *)
Record Env : Set := {
  user_context : UserContext;
  database : Database;
  orgs_for_user : nat;             (* len(MembershipModel.find_orgs_for_user(user.id)) *)
  user_groups : list Group;        (* KeycloakService.get_user_groups *)
  contact_email : option string;   (* ContactLinkModel.find_by_user_id(..).contact.email *)
  mailer : Notification -> option exn;
}.

(** Calls made to the collaborators, in the order they are issued. *)
Inductive Effect : Type :=
| Save
| PublishActivity (org : Z) (action : ActivityAction) (user : Z) (value : pyval)
| PublishTeamMemberRemoved (org : Z) (user : Z)
| JoinAccountHoldersGroup (guid : string)
| RemoveFromAccountHoldersGroup (guid : string)
| AddUserToGroup (guid : string) (g : Group)
| RemoveUserFromGroup (guid : string) (g : Group)
| UpdateUsersProductsKeycloakGroups (user : Z)
| MailTeamModified (org : Z)
| MailAdminRemoved (org : Z) (recipient : string).

(** *** The state of a service call: the model and the calls issued *)

Record St : Type := {
  model : MembershipModel;
  trace : list Effect;
}.

Abbreviation M := (Py.M St).

Definition get_model : M MembershipModel := gets model.
Definition put_model (m : MembershipModel) : M unit :=
  modify (fun s => {| model := m; trace := trace s |}).
Definition emit (e : Effect) : M unit :=
  modify (fun s => {| model := model s; trace := trace s ++ [e] |}).

(** [publish_to_mailer(notification_type, data)]: the mail goes out, or
    the publisher raises (lines 211-216 catch that around the call of
    [send_notification_to_member]; [update_membership] does not). *)
Definition publish_to_mailer (env : Env) (notification_type : Notification)
    (mail : Effect) : M unit :=
  match mailer env notification_type with
  | Some x => raise x
  | None => emit mail
  end.

(** *** Collaborators *)

(** [one_of_roles]: a tuple of role names, or, when the source writes
    [(ADMIN)], a bare string. *)
Inductive roles : Set :=
| RoleTuple (rs : list string)
| RoleStr (s : string).

Definition role_in (r : string) (rs : roles) : bool :=
  match rs with
  | RoleTuple l => bool_decide (r ∈ l)
  | RoleStr s => str_contains s r
  end.

(** The role [check_auth] resolves for the caller. *)
Definition caller_role (ctx : UserContext) : option string :=
  if is_staff ctx then Some STAFF else org_membership ctx.

Definition authorized (env : Env) (one_of_roles : roles) : bool :=
  match caller_role (user_context env) with
  | Some r => negb (String.eqb r "") && role_in r one_of_roles
  | None => false
  end.

(** Modelled from the spec: [check_auth] of [services/authorization.py],
    which is not among the sources.  The caller's role on the org is
    STAFF for a staff login and the caller's org membership otherwise;
    the call aborts with 403 unless that role is one of [one_of_roles]. *)
Definition check_auth (env : Env) (one_of_roles : roles) : M unit :=
  if authorized env one_of_roles then ret tt else raise Forbidden.

(** Modelled from the spec: the query
    [MembershipModel.find_memberships_by_user_id_and_status]. *)
Definition find_memberships_by_user_id_and_status
    (db : Database) (uid : Z) (st : Status) : list MembershipRec :=
  List.filter (fun r => bool_decide (rec_user_id r = uid) && bool_decide (rec_status r = st))
              (membership_table db).

(** Modelled from the spec: the query
    [OrgModel.find_by_org_ids_and_org_types]. *)
Definition find_by_org_ids_and_org_types
    (db : Database) (org_ids : list Z) (org_types : list OrgType) : list OrgRec :=
  List.filter (fun o => bool_decide (rec_id o ∈ org_ids) && bool_decide (rec_type_code o ∈ org_types))
              (org_table db).

(** *** The service methods *)

Definition get_owner_count (o : Org) : nat :=
  length (List.filter (fun x => String.eqb (membership_type_code x) ADMIN) (members o)).

(** [v and v.id == st]. *)
Definition status_is (v : pyval) (st : Status) : result bool :=
  if truthy v then
    match attr_id v with
    | Ok i => Ok (bool_decide (i = st))
    | Raise e => Raise e
    end
  else Ok false.

Definition _check_if_add_user_has_active_staff_org
    (env : Env) (updated_membership_status : pyval) (uid : Z) : M unit :=
  let staff_org_types := fst <$> org_type_to_group_mapping in
  let memberships := find_memberships_by_user_id_and_status (database env) uid ACTIVE in
  let staff_orgs :=
    find_by_org_ids_and_org_types (database env) (rec_org_id <$> memberships) staff_org_types in
  b ← lift (status_is updated_membership_status ACTIVE);
  when (b && bool_decide (0 < length staff_orgs))
       (raise (BusinessException MAX_NUMBER_OF_STAFF_ORGS_LIMIT)).

Definition add_or_remove_group_for_staff (env : Env) (m : MembershipModel) : M unit :=
  match mapping_get (type_code (org m)) with
  | None => ret tt
  | Some mapping_group =>
      let is_in_group := bool_decide (mapping_group ∈ user_groups env) in
      st ← lift (getattr m "membership_status");
      i ← lift (attr_id st);
      if bool_decide (i = ACTIVE) && negb is_in_group then
        emit (AddUserToGroup (keycloak_guid (user m)) mapping_group)
      else if bool_decide (i = INACTIVE) && is_in_group then
        emit (RemoveUserFromGroup (keycloak_guid (user m)) mapping_group)
      else ret tt
  end.

Definition _add_or_remove_group (env : Env) (m : MembershipModel) : M unit :=
  st ← lift (getattr m "membership_status");
  i ← lift (attr_id st);
  (if bool_decide (i = ACTIVE) then
     emit (JoinAccountHoldersGroup (keycloak_guid (user m)))
   else if bool_decide (i = INACTIVE) then
     when (Nat.eqb (orgs_for_user env) 0)
          (emit (RemoveFromAccountHoldersGroup (keycloak_guid (user m))))
   else ret tt);;
  add_or_remove_group_for_staff env m;;
  emit (UpdateUsersProductsKeycloakGroups (user_id (user m))).

(** [self._model.membership_type.code]. *)
Definition model_type_code (m : MembershipModel) : result string :=
  match getattr m "membership_type" with
  | Ok t => attr_code t
  | Raise e => Raise e
  end.

(** The loop [for key, value in updated_fields.items(): if value is not
    None: setattr(self._model, key, value)]. *)
Definition apply_fields (updated_fields : gmap string pyval) (m : MembershipModel)
  : MembershipModel :=
  map_fold (fun key value acc =>
              if bool_decide (value = PNone) then acc else setattr acc key value)
           m updated_fields.

Definition update_membership (env : Env) (updated_fields : gmap string pyval) : M unit :=
  let user_from_context := user_context env in
  self ← get_model;
  check_auth env (RoleTuple [COORDINATOR; ADMIN; STAFF]);;
  let updated_membership_status := dict_get updated_fields "membership_status" in
  _check_if_add_user_has_active_staff_org env updated_membership_status (user_id (user self));;
  let is_bceid_user := bool_decide (login_source (user self) = BCEID) in
  when (is_bceid_user
        && eq_str (getattr_code (dict_get updated_fields "membership_type")) ADMIN)
       (raise (BusinessException BCEID_USERS_CANT_BE_OWNERS));;
  code ← lift (model_type_code self);
  when (String.eqb code COORDINATOR && eq_str (dict_get updated_fields "membership_type") ADMIN)
       (check_auth env (RoleTuple [ADMIN; STAFF]));;
  inactive ← lift (status_is updated_membership_status INACTIVE);
  let admin_getting_removed := inactive && String.eqb code ADMIN in
  when (admin_getting_removed && Nat.eqb (get_owner_count (org self)) 1)
       (raise (BusinessException CHANGE_ROLE_FAILED_ONLY_OWNER));;
  when (String.eqb code ADMIN
        && negb (eq_str (dict_get updated_fields "membership_type") ADMIN)
        && Nat.eqb (get_owner_count (org self)) 1)
       (raise (BusinessException CHANGE_ROLE_FAILED_ONLY_OWNER));;
  put_model (apply_fields updated_fields self);;
  emit Save;;
  self ← get_model;
  membership_type ←
    (if truthy (dict_get updated_fields "membership_type")
     then ret (dict_get updated_fields "membership_type")
     else (c ← lift (model_type_code self); ret (PStr c)));
  (if truthy updated_membership_status then
     i ← lift (attr_id updated_membership_status);
     if bool_decide (i ∈ [INACTIVE; ACTIVE]) then
       let action := if bool_decide (i = ACTIVE) then APPROVE_TEAM_MEMBER
                     else REMOVE_TEAM_MEMBER in
       emit (PublishActivity (org_id (org self)) action (user_id (user self)) membership_type);;
       match action with
       | REMOVE_TEAM_MEMBER =>
           emit (PublishTeamMemberRemoved (org_id (org self)) (user_id (user self)))
       | APPROVE_TEAM_MEMBER => ret tt
       end
     else ret tt
   else ret tt);;
  _add_or_remove_group env self;;
  let is_bcros_user := bool_decide (login_source (user self) = BCROS) in
  when (is_staff user_from_context && negb is_bcros_user
        && negb (Nat.eqb (size updated_fields) 0))
       (publish_to_mailer env TEAM_MODIFIED (MailTeamModified (org_id (org self))));;
  when (is_staff user_from_context && negb is_bcros_user && admin_getting_removed)
       (match contact_email env with
        | Some email =>
            when (negb (String.eqb email ""))
                 (publish_to_mailer env ADMIN_REMOVED
                    (MailAdminRemoved (org_id (org self)) email))
        | None => ret tt
        end).

Definition deactivate_membership (env : Env) : M unit :=
  let user_from_context := user_context env in
  self ← get_model;
  when (negb (String.eqb (username (user self)) (user_name user_from_context)))
       (check_auth env (RoleTuple [COORDINATOR; ADMIN]));;
  code ← lift (model_type_code self);
  when (String.eqb code ADMIN) (check_auth env (RoleStr ADMIN));;
  put_model (setattr self "membership_status" (PStatus INACTIVE));;
  emit Save;;
  self ← get_model;
  _add_or_remove_group env self;;
  emit (PublishActivity (org_id (org self)) REMOVE_TEAM_MEMBER (user_id (user self)) PNone);;
  emit (PublishTeamMemberRemoved (org_id (org self)) (user_id (user self))).

(** *** Listing the members of an org *)

(** A membership as the listing returns it: the user and the row. *)
Record Member : Set := {
  member_user_id : Z;
  member_row : MemberRow;
}.

(** What the collaborators answer during one listing:
    [OrgModel.find_by_org_id] (found or not), the two staff tests of the
    [UserContext], [UserService.find_by_jwt_token] (the user's id, or the
    exception it raises), [MembershipModel.find_membership_by_user_and_org]
    and [MembershipModel.find_members_by_org_id_by_status_by_roles]. *)
Record Listing : Type := {
  org_found : bool;
  caller_is_staff : bool;
  caller_is_external_staff : bool;
  jwt_user : result Z;
  find_membership_by_user_and_org : Z -> Z -> option Member;
  find_members_by_org_id_by_status_by_roles : Z -> list string -> Status -> list Member;
}.

Section get_members_for_org.
(** [ALLOWED_READ_ROLES] of [auth_api.utils.roles] and the lookup
    [Status[name]] of the enum. *)
Variable ALLOWED_READ_ROLES : list string.
Variable Status_named : string -> option Status.

Definition get_members_for_org (env : Listing) (org_id : Z) (status_ : option string)
    (membership_roles : option (list string)) : result (option (list Member)) :=
  if negb (org_found env) then Ok None
  else
    status_ ← match status_ with
              | None => Ok ACTIVE
              | Some name => subscript (Status_named name)
              end;
    let membership_roles := default ALLOWED_READ_ROLES membership_roles in
    if caller_is_staff env || caller_is_external_staff env then
      Ok (Some (find_members_by_org_id_by_status_by_roles env org_id membership_roles status_))
    else
      current_user ← jwt_user env;
      match find_membership_by_user_and_org env current_user org_id with
      | None => Ok (Some [])
      | Some current_user_membership =>
          let own := member_row current_user_membership in
          if bool_decide (status own = INACTIVE) || bool_decide (status own = REJECTED) then
            Ok (Some [])
          else if bool_decide (status own = PENDING_APPROVAL) then
            Ok (Some (if bool_decide (status_ = PENDING_APPROVAL)
                      then [current_user_membership] else []))
          else if bool_decide (status own = ACTIVE) then
            if bool_decide (membership_type_code own ∈ [ADMIN; COORDINATOR]) then
              Ok (Some (find_members_by_org_id_by_status_by_roles env org_id
                          membership_roles status_))
            else
              Ok (Some (if bool_decide (status_ = ACTIVE)
                        then find_members_by_org_id_by_status_by_roles env org_id
                               membership_roles status_
                        else []))
          else Ok (Some [])
      end.
End get_members_for_org.

End Membership.

(** ** The affiliation service *)

Module Affiliation.
Import Py.

(** [CorpType.NR], [CorpType.ATMP], [NRActionCodes.AMALGAMATE] and
    [NRStatus.CONSUMED] of [auth_api.utils.enums]. *)
Definition NR : string := "NR".
Definition ATMP : string := "ATMP".
Definition AMALGAMATE : string := "AML".
Definition CONSUMED : string := "CONSUMED".

(** *** Registry payloads *)

(** An identifier-valued JSON field: [null] or a string. *)
Inductive jval : Set :=
| JNull
| JStr (s : string).

#[global] Instance jval_eq_dec : EqDecision jval.
Proof. solve_decision. Defined.

Definition truthy (v : jval) : bool :=
  match v with
  | JNull => false
  | JStr s => negb (String.eqb s "")
  end.

(** A name-request payload.  A field is [None] when the key is absent;
    [nr_other] stands for the keys the service never reads. *)
Record NameRequest : Set := {
  nrNum : option jval;
  stateCd : option jval;
  request_action_cd : option jval;
  nr_other : string;
}.

(** A business, a draft or a standalone name-request record: the
    dictionaries of the combined list. *)
Record Entity : Set := {
  identifier : option jval;
  nrNumber : option jval;
  draftType : option jval;
  legalType : option jval;
  nameRequest : option NameRequest;
  other : string;
}.

#[global] Instance NameRequest_eq_dec : EqDecision NameRequest.
Proof. solve_decision. Defined.
#[global] Instance Entity_eq_dec : EqDecision Entity.
Proof. solve_decision. Defined.

#[global] Instance Entity_inhabited : Inhabited Entity :=
  populate {| identifier := None; nrNumber := None; draftType := None;
              legalType := None; nameRequest := None; other := "" |}.

Definition set_nameRequest (e : Entity) (nr : NameRequest) : Entity :=
  {| identifier := identifier e; nrNumber := nrNumber e; draftType := draftType e;
     legalType := legalType e; nameRequest := Some nr; other := other e |}.

Definition set_draftType (e : Entity) (v : jval) : Entity :=
  {| identifier := identifier e; nrNumber := nrNumber e; draftType := Some v;
     legalType := legalType e; nameRequest := nameRequest e; other := other e |}.

(** One response of the registry: a bare array of name requests, or an
    object with optional "requests", "hasMore", "businessEntities" and
    "draftEntities". *)
Inductive Response : Set :=
| RespList (requests : list NameRequest)
| RespDict (requests : option (list NameRequest)) (hasMore : bool)
           (businessEntities : option (list Entity))
           (draftEntities : option (list Entity)).

Record AffiliationBase : Set := {
  base_identifier : string;
  created : N;
}.

(** [datetime.datetime.min]; timestamps count from it. *)
Definition datetime_min : N := 0%N.

(** *** Insertion-ordered dictionaries *)

Section dict.
Context {K V : Type} `{EqDecision K}.

Fixpoint dict_lookup (k : K) (d : list (K * V)) : option V :=
  match d with
  | [] => None
  | (k', v) :: d' => if decide (k' = k) then Some v else dict_lookup k d'
  end.

(** [d[k] = v]: an existing key keeps its position. *)
Fixpoint dict_set (k : K) (v : V) (d : list (K * V)) : list (K * V) :=
  match d with
  | [] => [(k, v)]
  | (k', v') :: d' =>
      if decide (k' = k) then (k', v) :: d' else (k', v') :: dict_set k v d'
  end.

(** [del d[k]]. *)
Fixpoint dict_del (k : K) (d : list (K * V)) : list (K * V) :=
  match d with
  | [] => []
  | (k', v') :: d' => if decide (k' = k) then d' else (k', v') :: dict_del k d'
  end.

Definition dict_values (d : list (K * V)) : list V := snd <$> d.
Definition dict_keys (d : list (K * V)) : list K := fst <$> d.
End dict.

(** *** Objects shared between the lists

    [_combine_nrs] walks a copy of [drafts + businesses] while it
    assigns to the dictionaries in it and removes from [drafts]: the
    lists hold references into [heap]. *)
Record Store : Set := {
  heap : list Entity;
  name_requests : list (jval * Entity);
  drafts : list nat;
}.

Abbreviation M := (Py.M Store).

Definition deref (h : list Entity) (r : nat) : Entity := h !!! r.

Definition load (r : nat) : M Entity := gets (fun s => deref (heap s) r).

Definition store (r : nat) (e : Entity) : M unit :=
  modify (fun s => {| heap := <[r := e]> (heap s);
                      name_requests := name_requests s; drafts := drafts s |}).

(** [x in l], on the objects the references of [l] point to. *)
Definition list_contains (h : list Entity) (x : Entity) (l : list nat) : bool :=
  existsb (fun r => bool_decide (deref h r = x)) l.

(** [l.remove(x)]: drops the first reference whose object equals [x];
    [None] when there is none. *)
Fixpoint list_remove (h : list Entity) (x : Entity) (l : list nat) : option (list nat) :=
  match l with
  | [] => None
  | r :: l' =>
      if bool_decide (deref h r = x) then Some l'
      else cons r <$> list_remove h x l'
  end.

(** [drafts.remove(business)]. *)
Definition drafts_remove (business : nat) : M unit :=
  fun s =>
    match list_remove (heap s) (deref (heap s) business) (drafts s) with
    | Some l => (Ok tt, {| heap := heap s; name_requests := name_requests s; drafts := l |})
    | None => (Raise ValueError, s)
    end.

Definition del_name_request (nr_num : jval) : M unit :=
  modify (fun s => {| heap := heap s;
                      name_requests := dict_del nr_num (name_requests s);
                      drafts := drafts s |}).

(** *** Grouping *)

Definition _extract_name_requests (data : Response) : bool * list NameRequest :=
  match data with
  | RespList l => (false, l)
  | RespDict (Some l) more _ _ => (more, l)
  | RespDict None _ _ _ => (false, [])
  end.

Definition standalone (name_request : NameRequest) : Entity :=
  {| identifier := None; nrNumber := None; draftType := None;
     legalType := Some (JStr NR); nameRequest := Some name_request; other := "" |}.

Definition add_name_requests (acc : list (jval * Entity)) (l : list NameRequest)
  : list (jval * Entity) :=
  foldl (fun acc name_request =>
           match nrNum name_request with
           | Some k => dict_set k (standalone name_request) acc
           | None => acc
           end) acc l.

Definition _group_details (details : list Response)
  : list (jval * Entity) * list Entity * list Entity :=
  foldl (fun '(name_requests, businesses, drafts) data =>
           let name_requests := add_name_requests name_requests (snd (_extract_name_requests data)) in
           match data with
           | RespList _ => (name_requests, businesses, drafts)
           | RespDict _ _ bs ds =>
               (name_requests, businesses ++ default [] bs, drafts ++ default [] ds)
           end)
        ([], [], []) details.

(** *** Linking *)

Definition _update_draft_type_for_amalgamation_nr (business : nat) : M unit :=
  b ← load business;
  if truthy (default JNull (draftType b)) then
    nr ← lift (subscript (nameRequest b));
    cd ← lift (subscript (request_action_cd nr));
    when (bool_decide (cd = JStr AMALGAMATE)) (store business (set_draftType b (JStr ATMP)))
  else ret tt.

Definition _process_nr_for_business (business : nat) : M bool :=
  b ← load business;
  nr_num ← lift (subscript (nrNumber b));
  nrs ← gets name_requests;
  match dict_lookup nr_num nrs with
  | Some record =>
      nr ← lift (subscript (nameRequest record));
      store business (set_nameRequest b nr);;
      _update_draft_type_for_amalgamation_nr business;;
      b ← load business;
      nr ← lift (subscript (nameRequest b));
      st ← lift (subscript (stateCd nr));
      when (bool_decide (st = JStr CONSUMED)) (drafts_remove business);;
      del_name_request nr_num;;
      ret true
  | None => ret false
  end.

Definition _combine_nrs (businesses : list nat) (remove_stale_drafts : bool)
  : M (list Entity) :=
  ds ← gets drafts;
  for_each (ds ++ businesses) (fun business =>
    b ← load business;
    if truthy (default JNull (nrNumber b)) then
      processed ← _process_nr_for_business business;
      s ← gets id;
      when (negb processed && remove_stale_drafts
            && list_contains (heap s) (deref (heap s) business) (drafts s))
           (drafts_remove business)
    else ret tt);;
  s ← gets id;
  ret (dict_values (name_requests s)
       ++ (deref (heap s) <$> drafts s)
       ++ (deref (heap s) <$> businesses)).

(** The objects of a parsed response are all distinct: drafts take the
    references [0 .. length drafts - 1], businesses the following ones. *)
Definition fresh_store (name_requests : list (jval * Entity))
    (businesses drafts : list Entity) : Store :=
  {| heap := drafts ++ businesses;
     name_requests := name_requests;
     drafts := seq 0 (length drafts) |}.

Definition business_refs (businesses drafts : list Entity) : list nat :=
  seq (length drafts) (length businesses).

(** [_combine_nrs] on freshly parsed lists, with the store it ends on. *)
Definition combine_grouped (name_requests : list (jval * Entity))
    (businesses drafts : list Entity) (remove_stale_drafts : bool)
  : result (list Entity) * Store :=
  _combine_nrs (business_refs businesses drafts) remove_stale_drafts
               (fresh_store name_requests businesses drafts).

Definition _combine_affiliation_details (details : list Response) (remove_stale_drafts : bool)
  : result (list Entity) :=
  let '(name_requests, businesses, drafts) := _group_details details in
  (combine_grouped name_requests businesses drafts remove_stale_drafts).1.

(** *** Ordering *)

(** [sorted(l, key=key, reverse=True)] and [l.sort(key=key, reverse=True)]:
    descending, equal keys keep their order. *)
Section sort.
Context {A : Type} (key : A -> N).

Fixpoint insert_desc (x : A) (l : list A) : list A :=
  match l with
  | [] => [x]
  | y :: l' => if (key x <? key y)%N then y :: insert_desc x l' else x :: y :: l'
  end.

Definition sort_desc (l : list A) : list A := foldr insert_desc [] l.
End sort.

Definition ordered_of (affiliation_bases : list AffiliationBase) : list (jval * N) :=
  foldl (fun d affiliation => dict_set (JStr (base_identifier affiliation)) (created affiliation) d)
        [] (sort_desc created affiliation_bases).

(** [item.get("identifier", item.get("nameRequest", {}).get("nrNum", ""))]. *)
Definition item_key (item : Entity) : jval :=
  match identifier item with
  | Some v => v
  | None =>
      match nameRequest item with
      | Some nr => default (JStr "") (nrNum nr)
      | None => JStr ""
      end
  end.

Definition sort_key (ordered : list (jval * N)) (item : Entity) : N :=
  default datetime_min (dict_lookup (item_key item) ordered).

Definition _sort_affiliations_by_created
    (combined : list Entity) (affiliation_bases : list AffiliationBase) : list Entity :=
  sort_desc (sort_key (ordered_of affiliation_bases)) combined.

(** The part of [get_affiliation_details] that follows the registry
    calls. *)
Definition get_affiliation_details
    (affiliation_bases : list AffiliationBase) (responses : list Response)
    (remove_stale_drafts : bool) : result (list Entity * bool) :=
  let has_more_apis :=
    existsb (fun r => match r with RespDict _ more _ _ => more | RespList _ => false end)
            responses in
  combined ← _combine_affiliation_details responses remove_stale_drafts;
  mret (_sort_affiliations_by_created combined affiliation_bases, has_more_apis).

(** *** Authorization *)

Record EntityModel : Set := {
  corp_type : string;
  business_identifier : string;
  pass_code : option string;
}.

Record AuthContext : Set := {
  has_skip_affiliation_auth_role : bool;   (* has_role(Role.SKIP_AFFILIATION_AUTH.value) *)
  is_staff : bool;
  current_user : option Z;                 (* UserService.find_by_jwt_token(silent_mode=True) *)
  sbc_staff : list Z;                      (* users for which check_if_sbc_staff holds *)
}.

Definition has_role_to_skip_auth (ctx : AuthContext) : bool :=
  has_skip_affiliation_auth_role ctx
  || is_staff ctx
  || match current_user ctx with
     | Some u => bool_decide (u ∈ sbc_staff ctx)
     | None => false
     end.

(** Truth value of an optional string: [None] and [""] are false. *)
Definition supplied (p : option string) : bool :=
  match p with
  | Some s => negb (String.eqb s "")
  | None => false
  end.

Section is_authorized.
(** [validate_passcode] of [auth_api.utils.passcode] and the registry
    lookup behind [_validate_firms_party] are collaborators. *)
Variable validate_passcode : option string -> option string -> bool.
Variable _validate_firms_party : string -> option string -> result bool.

Definition is_authorized (ctx : AuthContext) (entity : EntityModel)
    (pass_code_ : option string) : result bool :=
  if has_role_to_skip_auth ctx then Ok true
  else if bool_decide (corp_type entity ∈ ["SP"; "GP"]) then
    if negb (supplied pass_code_) then Ok false
    else _validate_firms_party (business_identifier entity) pass_code_
  else if supplied pass_code_ then Ok (validate_passcode pass_code_ (pass_code entity))
  else if supplied (pass_code entity) then Ok false
  else Ok true.
End is_authorized.

(** Modelled from the spec: [validate_passcode] of
    [auth_api/utils/passcode.py], which is not among the sources.  The
    supplied passcode is compared with the stored one; an absent or empty
    stored passcode, or an absent or empty supplied one, matches nothing. *)
Definition validate_passcode (passcode hashed_passcode : option string) : bool :=
  match passcode, hashed_passcode with
  | Some p, Some h => negb (String.eqb p "") && negb (String.eqb h "") && String.eqb p h
  | _, _ => false
  end.

(** *** Outcomes of the calls below

    The [Error] members these calls raise, and a call's outcome: what it
    returns, a [BusinessException], or an exception of the interpreter. *)
Inductive AffiliationError : Set :=
| DATA_NOT_FOUND
| DATA_ALREADY_EXISTS
| INVALID_USER_CREDENTIALS
| NR_NOT_FOUND
| NR_INVALID_STATUS
| NR_INVALID_APPLICANTS
| NR_NOT_PAID
| NR_INVALID_CONTACT.

Inductive failure : Set :=
| Business (e : AffiliationError)
| Python (x : exn)
| TypeError.

Inductive outcome (A : Type) : Type :=
| Returns (a : A)
| Fails (e : failure).
Arguments Returns {A} a.
Arguments Fails {A} e.

#[global] Instance outcome_ret : MRet outcome := @Returns.
#[global] Instance outcome_bind : MBind outcome :=
  fun _ _ k r => match r with Returns a => k a | Fails e => Fails e end.

(** A computation that raises only the interpreter's exceptions. *)
Definition python {A} (r : result A) : outcome A :=
  match r with Ok a => Returns a | Raise x => Fails (Python x) end.

(** *** Affiliations shown for an org *)

(** [CorpType.TMP], [CorpType.CTMP] and [CorpType.RTMP] of
    [auth_api.utils.enums]. *)
Definition TMP : string := "TMP".
Definition CTMP : string := "CTMP".
Definition RTMP : string := "RTMP".

(** An affiliated entity as [EntityService.as_dict] gives it.  A field is
    [None] when the key is absent; [aff_corp_type_code] is
    [entity["corp_type"]["code"]], and [aff_other] stands for the keys the
    service never reads. *)
Record AffiliatedEntity : Set := {
  aff_name : option string;
  aff_business_identifier : option string;
  aff_corp_type_code : option string;
  aff_nr_number : option string;
  aff_other : string;
}.

#[global] Instance AffiliatedEntity_eq_dec : EqDecision AffiliatedEntity.
Proof. solve_decision. Defined.

Definition temp_types : list string := [TMP; ATMP; CTMP; RTMP].

(** [entity.update({"nr_number": name, "name": full_name})]. *)
Definition aff_update (entity : AffiliatedEntity) (name full_name : string)
  : AffiliatedEntity :=
  {| aff_name := Some full_name;
     aff_business_identifier := aff_business_identifier entity;
     aff_corp_type_code := aff_corp_type_code entity;
     aff_nr_number := Some name;
     aff_other := aff_other entity |}.

(** [{d["name"] for d in data if d["corp_type"]["code"] in temp_types}]. *)
Fixpoint tmp_business_names (data : list AffiliatedEntity) : result (list string) :=
  match data with
  | [] => Ok []
  | d :: data' =>
      code ← subscript (aff_corp_type_code d);
      if bool_decide (code ∈ temp_types) then
        name ← subscript (aff_name d);
        rest ← tmp_business_names data';
        Ok (name :: rest)
      else tmp_business_names data'
  end.

(** The loop of [filter_affiliations]. *)
Fixpoint filter_loop (tmp_business_list nr_numbers : list string)
    (nr_number_name_dict : list (string * string)) (data : list AffiliatedEntity)
  : result (list AffiliatedEntity) :=
  match data with
  | [] => Ok []
  | entity :: data' =>
      code ← subscript (aff_corp_type_code entity);
      name ← subscript (aff_name entity);
      identifier ← subscript (aff_business_identifier entity);
      if String.eqb code NR && bool_decide (identifier ∈ tmp_business_list) then
        filter_loop tmp_business_list nr_numbers nr_number_name_dict data'
      else if bool_decide (code ∈ temp_types) then
        if negb (bool_decide (name ∈ nr_numbers)) && negb (String.eqb name identifier) then
          filter_loop tmp_business_list nr_numbers nr_number_name_dict data'
        else if bool_decide (name ∈ nr_numbers) then
          full_name ← subscript (dict_lookup name nr_number_name_dict);
          rest ← filter_loop tmp_business_list nr_numbers nr_number_name_dict data';
          Ok (aff_update entity name full_name :: rest)
        else
          rest ← filter_loop tmp_business_list nr_numbers nr_number_name_dict data';
          Ok (entity :: rest)
      else
        rest ← filter_loop tmp_business_list nr_numbers nr_number_name_dict data';
        Ok (entity :: rest)
  end.

Definition filter_affiliations (data : list AffiliatedEntity) (nr_numbers : list string)
    (nr_number_name_dict : list (string * string)) : result (list AffiliatedEntity) :=
  tmp_business_list ← tmp_business_names data;
  filter_loop tmp_business_list nr_numbers nr_number_name_dict data.

(** [{d["business_identifier"]: d["name"] for d in data
      if d["corp_type"]["code"] == CorpType.NR.value}]. *)
Fixpoint nr_names (acc : list (string * string)) (data : list AffiliatedEntity)
  : result (list (string * string)) :=
  match data with
  | [] => Ok acc
  | d :: data' =>
      code ← subscript (aff_corp_type_code d);
      if String.eqb code NR then
        identifier ← subscript (aff_business_identifier d);
        name ← subscript (aff_name d);
        nr_names (dict_set identifier name acc) data'
      else nr_names acc data'
  end.

(** [find_visible_affiliations_by_org_id]: [org] is what
    [OrgService.find_by_org_id] finds for the caller and [data] what
    [find_affiliations_by_org_id] returns. *)
Definition find_visible_affiliations_by_org_id {Org : Type} (org : option Org)
    (data : list AffiliatedEntity) : outcome (list AffiliatedEntity) :=
  match org with
  | None => Fails (Business DATA_NOT_FOUND)
  | Some _ =>
      nr_number_name_dict ← python (nr_names [] data);
      python (filter_affiliations data (dict_keys nr_number_name_dict) nr_number_name_dict)
  end.

(** *** The registry calls of [get_affiliation_details] *)

(** The two entries of [current_app.config] the service reads; [None]
    when the entry is not set. *)
Record Config : Set := {
  NAMEX_AFFILIATION_DETAILS_URL : option string;
  LEAR_AFFILIATION_DETAILS_URL : option string;
}.

(** [AffiliationSearchDetails]: the four filters, the page, and the
    fields the service passes on unread. *)
Record AffiliationSearchDetails : Set := {
  search_status : option string;
  search_name : option string;
  search_type : option string;
  search_identifier : option string;
  search_page : Z;
  search_other : string;
}.

Definition _affiliation_details_url (config : Config) (identifier : string) : option string :=
  if String.prefix "NR" identifier then NAMEX_AFFILIATION_DETAILS_URL config
  else LEAR_AFFILIATION_DETAILS_URL config.

(** [if not any([status, name, type, identifier]): search_details.page = 1]. *)
Definition first_page_unless_searching (search_details : AffiliationSearchDetails)
  : AffiliationSearchDetails :=
  if supplied (search_status search_details) || supplied (search_name search_details)
     || supplied (search_type search_details) || supplied (search_identifier search_details)
  then search_details
  else {| search_status := search_status search_details;
          search_name := search_name search_details;
          search_type := search_type search_details;
          search_identifier := search_identifier search_details;
          search_page := 1;
          search_other := search_other search_details |}.

(** [url_identifiers.setdefault(url, []).append(identifier)] for every
    base. *)
Definition url_identifiers (config : Config) (affiliation_bases : list AffiliationBase)
  : list (option string * list string) :=
  foldl (fun d affiliation_base =>
           let url := _affiliation_details_url config (base_identifier affiliation_base) in
           dict_set url (default [] (dict_lookup url d) ++ [base_identifier affiliation_base]) d)
        [] affiliation_bases.

(** One entry of [call_info]: the url and the payload, which is the
    identifiers and the search details. *)
Record CallInfo : Set := {
  call_url : option string;
  call_identifiers : list string;
  call_search : AffiliationSearchDetails;
}.

Definition call_info (config : Config) (affiliation_bases : list AffiliationBase)
    (search_details : AffiliationSearchDetails) : list CallInfo :=
  (fun '(url, identifiers) =>
     {| call_url := url; call_identifiers := identifiers;
        call_search := first_page_unless_searching search_details |})
  <$> url_identifiers config affiliation_bases.

(** *** Validating a new business affiliation *)

(** [NRStatus] of [auth_api.utils.enums]; the value of a member is its
    name. *)
Definition APPROVED : string := "APPROVED".
Definition CONDITIONAL : string := "CONDITIONAL".
Definition DRAFT : string := "DRAFT".
Definition INPROGRESS : string := "INPROGRESS".

(** The applicants object of a name request: [None] for a key that is
    absent or [null]. *)
Record Applicants : Set := {
  phoneNumber : option string;
  emailAddress : option string;
}.

(** A name of a name request, and what the service reads of the name
    request NAMEX returns.  [nr_applicants] is [None] when
    [nr_json.get("applicants")] is falsy, [nr_json_names] when the answer
    has no ["names"]. *)
Record NrName : Set := {
  name_state : option string;
  name_name : option string;
}.

Record NrJson : Set := {
  nr_state : option string;
  nr_applicants : option Applicants;
  nr_json_names : option (list NrName);
}.

Record AffiliationData : Set := {
  data_org_id : Z;
  data_business_identifier : string;
  data_email : option string;
  data_phone : option string;
  data_certified_by_name : option string;
}.

(** An entity as [EntityService] gives it: the model, its id, name and
    status. *)
Record EntityRow : Set := {
  ent_model : EntityModel;
  ent_id : Z;
  ent_name : string;
  ent_status : option string;
}.

(** What the collaborators answer during one validation:
    [has_role_to_skip_auth], [OrgService.find_by_org_id],
    [EntityService.find_by_business_identifier], [_get_nr_details]
    ([None] for an empty answer) and [get_nr_payment_details] (the
    [statusCode] of each invoice, none when the answer has no invoices). *)
Record Registry {Org : Type} : Type := {
  reg_skip_auth : bool;
  reg_org : option Org;
  reg_entity : option EntityRow;
  reg_nr_details : outcome (option NrJson);
  reg_nr_payment : outcome (list (option string));
}.
Arguments Registry Org : clear implicits.

Section validation.
(** [re.sub(r"\D", "", s)] and [s.casefold()]. *)
Variable digits : string -> string.
Variable casefold : string -> string.
Context {Org : Type}.

Definition _validate_org_exists (reg : Registry Org) : outcome unit :=
  match reg_org reg with
  | None => Fails (Business DATA_NOT_FOUND)
  | Some _ => Returns tt
  end.

Definition valid_statuses : list string := [APPROVED; CONDITIONAL; DRAFT; INPROGRESS].

Definition _get_and_validate_nr_details (reg : Registry Org) : outcome NrJson :=
  nr_json ← reg_nr_details reg;
  match nr_json with
  | None => Fails (Business NR_NOT_FOUND)
  | Some nr_json =>
      if negb (bool_decide (nr_state nr_json ∈ (Some <$> valid_statuses))) then
        Fails (Business NR_INVALID_STATUS)
      else if negb (bool_decide (is_Some (nr_applicants nr_json))) then
        Fails (Business NR_INVALID_APPLICANTS)
      else Returns nr_json
  end.

Definition _validate_nr_payment (reg : Registry Org) : outcome unit :=
  invoices ← reg_nr_payment reg;
  match invoices with
  | status_code :: _ =>
      if bool_decide (status_code = Some "COMPLETED") then Returns tt
      else Fails (Business NR_NOT_PAID)
  | [] => Fails (Business NR_NOT_PAID)
  end.

Definition _contacts_match (phone email : option string) (nr_json : NrJson) : bool :=
  let nr_phone :=
    match nr_applicants nr_json with
    | Some applicants =>
        if supplied (phoneNumber applicants) then default "" (phoneNumber applicants) else ""
    | None => ""
    end in
  let nr_email :=
    match nr_applicants nr_json with
    | Some applicants =>
        if supplied (emailAddress applicants) then default "" (emailAddress applicants) else ""
    | None => ""
    end in
  let phone_match :=
    negb (supplied phone) || String.eqb (digits (default "" phone)) (digits nr_phone) in
  let email_match :=
    negb (supplied email) || String.eqb (casefold (default "" email)) (casefold nr_email) in
  phone_match && email_match.

Definition validate_new_business_affiliation (reg : Registry Org)
    (affiliation_data : AffiliationData) : outcome (option EntityRow * NrJson) :=
  let email := data_email affiliation_data in
  let phone := data_phone affiliation_data in
  let user_is_staff := reg_skip_auth reg in
  if negb user_is_staff && negb (supplied email || supplied phone) then
    Fails (Business NR_INVALID_CONTACT)
  else
    _validate_org_exists reg;;
    let entity := reg_entity reg in
    nr_json ← _get_and_validate_nr_details reg;
    (if bool_decide (nr_state nr_json = Some DRAFT) then _validate_nr_payment reg
     else Returns tt);;
    if negb user_is_staff && negb (_contacts_match phone email nr_json) then
      Fails (Business NR_INVALID_CONTACT)
    else Returns (entity, nr_json).
End validation.

(** *** Creating and deleting an affiliation *)

(** [ActivityAction.CREATE_AFFILIATION], [ActivityAction.REMOVE_AFFILIATION]
    and the two [QueueMessageTypes] the service publishes. *)
Inductive AffiliationAction : Set := CREATE_AFFILIATION | REMOVE_AFFILIATION.
Inductive AffiliationMessage : Set := BUSINESS_AFFILIATED | BUSINESS_UNAFFILIATED.

(** Calls made to the models and publishers, in the order they are
    issued. *)
Inductive AffiliationCall : Set :=
| SaveAffiliation (org_id entity_id : Z) (certified_by_name : option string)
| DeleteAffiliation (affiliation_id : Z)
| DeleteInvitation (invitation_id : Z)
| SetPassCodeClaimed (entity_id : Z) (claimed : bool)
| ResetPasscode (business_identifier : string) (email_addresses : option string)
| UpdateAffiliation (affiliation_id : Z) (certified_by_name : option string)
| SaveEntity (business_identifier name corp_type_code : string) (pass_code_claimed : bool)
| PublishAffiliationActivity (org_id : Z) (action : AffiliationAction) (name id : string)
| PublishAffiliationEvent (message : AffiliationMessage) (org_id : Z)
                          (business_identifier : string).

(** A call of the service: it issues calls and returns or raises. *)
Definition Act (A : Type) : Type := list AffiliationCall -> outcome A * list AffiliationCall.

#[global] Instance Act_ret : MRet Act := fun _ a t => (Returns a, t).
#[global] Instance Act_bind : MBind Act :=
  fun _ _ k c t => match c t with
                   | (Returns a, t') => k a t'
                   | (Fails e, t') => (Fails e, t')
                   end.

Definition fail {A} (e : failure) : Act A := fun t => (Fails e, t).
Definition call (c : AffiliationCall) : Act unit := fun t => (Returns tt, t ++ [c]).
Definition act {A} (r : outcome A) : Act A := fun t => (r, t).
Definition unless (b : bool) (c : Act unit) : Act unit := if b then mret tt else c.

(** What the lookups of one request answer: [OrgService.find_by_org_id]
    for the caller, [EntityService.find_by_business_identifier],
    [AffiliationModel.find_affiliation_by_org_and_entity_ids] (the id of
    the affiliation) and
    [AffiliationInvitationModel.find_invitations_by_affiliation]. *)
Record Directory {Org : Type} : Type := {
  dir_org : option Org;
  dir_entity : option EntityRow;
  dir_affiliation : option Z;
  dir_invitations : list Z;
}.
Arguments Directory Org : clear implicits.

Definition temp_corp_types : list string := [RTMP; TMP; ATMP; CTMP].

(** [entity.name if len(entity.name) > 0 else entity.business_identifier]. *)
Definition display_name (entity : EntityRow) : string :=
  if negb (String.eqb (ent_name entity) "") then ent_name entity
  else business_identifier (ent_model entity).

Section affiliations.
Variable validate_passcode : option string -> option string -> bool.
Variable _validate_firms_party : string -> option string -> result bool.
Context {Org : Type}.

Definition create_affiliation (ctx : AuthContext) (dir : Directory Org)
    (org_id : Z) (pass_code_ certified_by_name : option string)
    (skip_membership_check : bool) : Act (Z * Z) :=
  unless skip_membership_check
    (match dir_org dir with
     | None => fail (Business DATA_NOT_FOUND)
     | Some _ => mret tt
     end);;
  match dir_entity dir with
  | None => fail (Business DATA_NOT_FOUND)
  | Some entity =>
      let entity_id := ent_id entity in
      let entity_type := corp_type (ent_model entity) in
      authorized ← act (python (is_authorized validate_passcode _validate_firms_party
                                               ctx (ent_model entity) pass_code_));
      if negb authorized then fail (Business INVALID_USER_CREDENTIALS)
      else
        match dir_affiliation dir with
        | Some _ => fail (Business DATA_ALREADY_EXISTS)
        | None =>
            call (SaveAffiliation org_id entity_id certified_by_name);;
            unless (bool_decide (entity_type ∈ ["SP"; "GP"]))
                   (call (SetPassCodeClaimed entity_id true));;
            unless (bool_decide (entity_type ∈ temp_corp_types))
                   (call (PublishAffiliationActivity org_id CREATE_AFFILIATION
                            (display_name entity) (business_identifier (ent_model entity))));;
            call (PublishAffiliationEvent BUSINESS_AFFILIATED org_id
                    (business_identifier (ent_model entity)));;
            mret (org_id, entity_id)
        end
  end.

(** [DeleteAffiliationRequest]. *)
Record DeleteAffiliationRequest : Set := {
  da_org_id : Z;
  da_business_identifier : string;
  da_email_addresses : option string;
  da_reset_passcode : bool;
  da_log_delete_draft : bool;
}.

Definition delete_affiliation (dir : Directory Org) (da : DeleteAffiliationRequest)
  : Act unit :=
  match dir_org dir with
  | None => fail (Business DATA_NOT_FOUND)
  | Some _ =>
      match dir_entity dir with
      | None => fail (Business DATA_NOT_FOUND)
      | Some entity =>
          let entity_id := ent_id entity in
          match dir_affiliation dir with
          | None => fail (Business DATA_NOT_FOUND)
          | Some affiliation_id =>
              foldr (fun invitation rest => call (DeleteInvitation invitation);; rest)
                    (mret tt) (dir_invitations dir);;
              (if da_reset_passcode da then
                 call (ResetPasscode (business_identifier (ent_model entity))
                                     (da_email_addresses da))
               else mret tt);;
              call (DeleteAffiliation affiliation_id);;
              call (SetPassCodeClaimed entity_id false);;
              if bool_decide (corp_type (ent_model entity) ∈ temp_corp_types) then mret tt
              else
                let name_request :=
                  bool_decide (ent_status entity ∈ [Some DRAFT; Some CONSUMED])
                  && String.eqb (corp_type (ent_model entity)) NR
                  || str_contains (business_identifier (ent_model entity)) "NR " in
                let publish := da_log_delete_draft da || negb name_request in
                (if publish then
                   call (PublishAffiliationActivity (da_org_id da) REMOVE_AFFILIATION
                           (display_name entity) (business_identifier (ent_model entity)))
                 else mret tt);;
                call (PublishAffiliationEvent BUSINESS_UNAFFILIATED (da_org_id da)
                        (business_identifier (ent_model entity)))
          end
      end
  end.
End affiliations.

(** *** Matching a party of a firm *)

(** The officer of a party of the registry's answer; a field is [None]
    when its key is absent or [null]. *)
Record Officer : Set := {
  partyType : option string;
  organizationName : option string;
  lastName : option string;
  firstName : option string;
  middleInitial : option string;
}.

Record Party : Set := { officer : option Officer }.

Section firms_party.
(** [str.isspace] of a character and [str.upper]. *)
Variable is_space : Ascii.ascii -> bool.
Variable upper : string -> string.

(** [s.split()]: the maximal runs of characters that are not whitespace. *)
Fixpoint split (s : string) : list string :=
  match s with
  | EmptyString => []
  | String c s' =>
      if is_space c then split s'
      else
        match s' with
        | EmptyString => [String c EmptyString]
        | String c' _ =>
            if is_space c' then String c EmptyString :: split s'
            else
              match split s' with
              | w :: ws => String c w :: ws
              | [] => [String c EmptyString]
              end
        end
  end.

(** [sep.join(words)]. *)
Fixpoint join (sep : string) (words : list string) : string :=
  match words with
  | [] => EmptyString
  | [w] => w
  | w :: ws => (w ++ sep ++ join sep ws)%string
  end.

(** [" ".join(s.split())]. *)
Definition single_spaced (s : string) : string := join " " (split s).

(** The name of a party: [organizationName] for an organization (a
    missing one fails at [party_name.split()]), else
    [lastName + ", " + firstName], followed by the middle initial when it
    is truthy. *)
Definition party_name (o : Officer) : outcome string :=
  if bool_decide (partyType o = Some "organization") then
    match organizationName o with
    | Some n => Returns n
    | None => Fails (Python AttributeError)
    end
  else
    match lastName o, firstName o with
    | Some l, Some f =>
        let n := (l ++ ", " ++ f)%string in
        Returns (if supplied (middleInitial o)
                 then (n ++ " " ++ default "" (middleInitial o))%string
                 else n)
    | _, _ => Fails TypeError
    end.

(** The loop over the parties. *)
Fixpoint match_parties (party_name_str : string) (parties : list Party) : outcome bool :=
  match parties with
  | [] => Returns false
  | party :: rest =>
      match officer party with
      | None => Fails (Python AttributeError)
      | Some o =>
          name ← party_name o;
          let party_name_str := single_spaced party_name_str in
          let name := single_spaced name in
          if String.eqb (upper party_name_str) (upper name) then Returns true
          else match_parties party_name_str rest
      end
  end.

(** [lear_response] is [None] when [RestService.get] raises [HTTPError]
    or [ServiceUnavailableException]; the answer holds the parties, or
    has no ["parties"] key. *)
Definition _validate_firms_party (lear_response : option (option (list Party)))
    (party_name_str : string) : outcome bool :=
  match lear_response with
  | None => Fails (Business DATA_NOT_FOUND)
  | Some None => Fails (Python KeyError)
  | Some (Some parties) => match_parties party_name_str parties
  end.
End firms_party.

(** *** A new business affiliation *)

(** [NRNameStatus] of [auth_api.utils.enums]; the value of a member is
    its name. *)
Definition NRNameStatus_APPROVED : string := "APPROVED".
Definition NRNameStatus_CONDITION : string := "CONDITION".

(** What the collaborators answer while the affiliation is made: the
    entity [EntityService.save_entity] returns for an identifier and a
    name, and [AffiliationModel.find_affiliation_by_org_and_entity_ids]
    (the id of the affiliation). *)
Record EntityStore : Type := {
  save_entity : string -> string -> EntityRow;
  find_affiliation_by_org_and_entity_ids : Z -> Z -> option Z;
}.

(** [next((name.get("name") for name in nr_json.get("names")
          if name.get("state", None) == nr_name_state), None)]. *)
Definition next_name (nr_json : NrJson) (nr_name_state : string)
  : outcome (option string) :=
  match nr_json_names nr_json with
  | None => Fails TypeError
  | Some names =>
      Returns (List.find (fun name => bool_decide (name_state name = Some nr_name_state))
                         names ≫= name_name)
  end.

(** The name under which the entity is created: [name or
    business_identifier]. *)
Definition new_entity_name (nr_json : NrJson) (business_identifier : string)
  : outcome string :=
  let nr_name_state :=
    if bool_decide (nr_state nr_json = Some APPROVED) then NRNameStatus_APPROVED
    else NRNameStatus_CONDITION in
  name ← next_name nr_json nr_name_state;
  Returns (if supplied name then default "" name else business_identifier).

Section new_business.
Variable digits : string -> string.
Variable casefold : string -> string.
Context {Org : Type}.

Definition create_new_business_affiliation (reg : Registry Org) (store : EntityStore)
    (affiliation_data : AffiliationData) : Act (Z * Z) :=
  let org_id := data_org_id affiliation_data in
  let business_identifier_ := data_business_identifier affiliation_data in
  let certified_by_name := data_certified_by_name affiliation_data in
  '(entity, nr_json) ←
    act (validate_new_business_affiliation digits casefold reg affiliation_data);
  entity ← match entity with
           | Some entity => mret entity
           | None =>
               name ← act (new_entity_name nr_json business_identifier_);
               call (SaveEntity business_identifier_ name NR true);;
               mret (save_entity store business_identifier_ name)
           end;
  match find_affiliation_by_org_and_entity_ids store org_id (ent_id entity) with
  | Some affiliation_id => call (UpdateAffiliation affiliation_id certified_by_name)
  | None =>
      unless (bool_decide (corp_type (ent_model entity) ∈ temp_corp_types))
             (call (PublishAffiliationActivity org_id CREATE_AFFILIATION
                      (ent_name entity) (business_identifier (ent_model entity))));;
      call (SaveAffiliation org_id (ent_id entity) certified_by_name)
  end;;
  call (SetPassCodeClaimed (ent_id entity) true);;
  mret (org_id, ent_id entity).
End new_business.

End Affiliation.

(** * Notions used in the statements *)

(** ** Memberships *)

Section membership_notions.
Import Py Membership.
Implicit Types (env : Env) (s : St) (m : MembershipModel) (fields : gmap string pyval)
  (db : Database) (v : pyval) (uid : Z).

(** The staff-tier orgs in which [uid] holds an ACTIVE membership: the two
    queries of [_check_if_add_user_has_active_staff_org]. *)
Definition active_staff_orgs (db : Database) (uid : Z) : list OrgRec :=
  find_by_org_ids_and_org_types db
    (rec_org_id <$> find_memberships_by_user_id_and_status db uid ACTIVE)
    (fst <$> org_type_to_group_mapping).

(** A computation that leaves the membership row [m] as it is. *)
Definition keeps {A} (m : MembershipModel) (c : M A) : Prop :=
  forall s, model s = m -> model (c s).2 = m.

(** A computation that returns and leaves the membership row [m] as it is. *)
Definition safe {A} (m : MembershipModel) (c : M A) : Prop :=
  forall s, model s = m -> exists a s', c s = (Ok a, s') /\ model s' = m.

(** A call of [update_membership] either raises in its guards, on the
    state it started from, or reaches the assignment loop. *)
Definition guarded fields s (c : M unit) : Prop :=
  (exists e, c s = (Raise e, s))
  \/ model (c s).2 = apply_fields fields (model s).

(** The ACTIVE owners among the rows of [org.members]. *)
Definition active_owners (o : Org) : list MemberRow :=
  List.filter (fun x => String.eqb (membership_type_code x) ADMIN
                        && bool_decide (status x = ACTIVE))
              (members o).



(** The status of the request, when there is one, is a status row. *)
Definition status_request_typed fields : Prop :=
  dict_get fields "membership_status" = PNone
  \/ exists i, dict_get fields "membership_status" = PStatus i.

(** Users, callers and rows of the examples. *)
Definition alice : User :=
  {| user_id := 7; username := "alice"; login_source := BCSC; keycloak_guid := "guid-7" |}.

Definition no_tables : Database := {| membership_table := []; org_table := [] |}.

Definition env_of (ctx : UserContext) (db : Database) : Env :=
  {| user_context := ctx; database := db; orgs_for_user := 0;
     user_groups := []; contact_email := None; mailer := fun _ => None |}.

(** An owner, a coordinator and a staff member acting on org 1. *)
Definition owner_ctx : UserContext :=
  {| user_name := "alice"; is_staff := false; org_membership := Some ADMIN |}.

Definition coordinator_ctx : UserContext :=
  {| user_name := "carol"; is_staff := false; org_membership := Some COORDINATOR |}.

Definition staff_ctx : UserContext :=
  {| user_name := "sam"; is_staff := true; org_membership := None |}.

(** A request handled while the mail publisher is down. *)
Definition env_mailer_down (ctx : UserContext) (db : Database) : Env :=
  {| user_context := ctx; database := db; orgs_for_user := 0;
     user_groups := []; contact_email := None; mailer := fun _ => Some Exception |}.

Definition row (code : string) : MemberRow :=
  {| membership_type_code := code; status := ACTIVE |}.

Definition membership_of (u : User) (rows : list MemberRow) (code : string) : St :=
  {| model := {| user := u;
                 org := {| org_id := 1; type_code := PREMIUM; members := rows |};
                 attrs := {[ "membership_type" := PType code;
                             "membership_status" := PStatus ACTIVE ]} |};
     trace := [] |}.

(** alice is the only ACTIVE owner of org 1. *)
Definition sole_owner : St := membership_of alice [row ADMIN; row USER] ADMIN.


(** alice is one of two ACTIVE owners of org 1. *)
Definition one_of_two_owners : St := membership_of alice [row ADMIN; row ADMIN] ADMIN.

(** bob is a coordinator of org 1, whose owner is alice. *)
Definition bob : User :=
  {| user_id := 8; username := "bob"; login_source := BCSC; keycloak_guid := "guid-8" |}.

Definition a_coordinator : St := membership_of bob [row ADMIN; row COORDINATOR; row COORDINATOR] COORDINATOR.

(** A request that names the type with [None] and deactivates. *)
Definition none_type_inactive : gmap string pyval :=
  {[ "membership_type" := PNone; "membership_status" := PStatus INACTIVE ]}.

(** The org types of [org_type_to_group_mapping]. *)
Definition staff_tier (t : OrgType) : bool :=
  bool_decide (t ∈ (fst <$> org_type_to_group_mapping)).

(** The staff-tier orgs in which [uid] is ACTIVE once the request has
    made [uid] ACTIVE in [target]. *)
Definition staff_org_ids_after db uid (target : Org) : list Z :=
  remove_dups ((if staff_tier (type_code target) then [org_id target] else [])
               ++ (rec_id <$> active_staff_orgs db uid)).

(** The request asks for status ACTIVE and leaves [uid] ACTIVE in more
    than one staff-tier org. *)
Definition second_staff_org db uid (target : Org) v : Prop :=
  v = PStatus ACTIVE /\ 1 < length (staff_org_ids_after db uid target).

(** The staff guard raises its error. *)
Definition staff_guard_rejects env v uid s : Prop :=
  (_check_if_add_user_has_active_staff_org env v uid s).1
  = Raise (BusinessException MAX_NUMBER_OF_STAFF_ORGS_LIMIT).

(** [uid] holds an ACTIVE membership in some staff-tier org. *)
Definition in_active_staff_org db uid : Prop :=
  exists o r,
    o ∈ org_table db /\ r ∈ membership_table db
    /\ rec_user_id r = uid /\ rec_status r = ACTIVE
    /\ rec_org_id r = rec_id o /\ staff_tier (rec_type_code o) = true.

(** bob is ACTIVE in the staff-tier org 10 and has a membership in the
    ordinary org 1. *)
Definition staff_tables : Database :=
  {| membership_table :=
       [ {| rec_user_id := 8; rec_org_id := 10; rec_status := ACTIVE |};
         {| rec_user_id := 8; rec_org_id := 1; rec_status := PENDING_APPROVAL |} ];
     org_table :=
       [ {| rec_id := 10; rec_type_code := SBC_STAFF |};
         {| rec_id := 1; rec_type_code := PREMIUM |} ] |}.

Definition ordinary_org : Org := {| org_id := 1; type_code := PREMIUM; members := [] |}.

(** The calls [_add_or_remove_group] issues for a membership of status
    [i]. *)
Definition group_effects env m (i : Status) : list Effect :=
  (if bool_decide (i = ACTIVE) then [JoinAccountHoldersGroup (keycloak_guid (user m))]
   else if bool_decide (i = INACTIVE) then
     if Nat.eqb (orgs_for_user env) 0
     then [RemoveFromAccountHoldersGroup (keycloak_guid (user m))] else []
   else [])
  ++ match mapping_get (type_code (org m)) with
     | None => []
     | Some g =>
         if bool_decide (i = ACTIVE) && negb (bool_decide (g ∈ user_groups env))
         then [AddUserToGroup (keycloak_guid (user m)) g]
         else if bool_decide (i = INACTIVE) && bool_decide (g ∈ user_groups env)
         then [RemoveUserFromGroup (keycloak_guid (user m)) g]
         else []
     end
  ++ [UpdateUsersProductsKeycloakGroups (user_id (user m))].

(** The guards of [update_membership], up to the assignment loop: the
    exception they raise, or the type code of the membership and whether
    the request sets the status INACTIVE. *)
Definition update_guards env fields m : result (string * bool) :=
  let status := dict_get fields "membership_status" in
  let type := dict_get fields "membership_type" in
  if negb (authorized env (RoleTuple [COORDINATOR; ADMIN; STAFF])) then Raise Forbidden
  else
    match status_is status ACTIVE with
    | Raise e => Raise e
    | Ok active =>
        if active && bool_decide (0 < length (active_staff_orgs (database env) (user_id (user m))))
        then Raise (BusinessException MAX_NUMBER_OF_STAFF_ORGS_LIMIT)
        else if bool_decide (login_source (user m) = BCEID) && eq_str (getattr_code type) ADMIN
        then Raise (BusinessException BCEID_USERS_CANT_BE_OWNERS)
        else
          match model_type_code m with
          | Raise e => Raise e
          | Ok code =>
              if String.eqb code COORDINATOR && eq_str type ADMIN
                 && negb (authorized env (RoleTuple [ADMIN; STAFF]))
              then Raise Forbidden
              else
                match status_is status INACTIVE with
                | Raise e => Raise e
                | Ok inactive =>
                    if inactive && String.eqb code ADMIN && Nat.eqb (get_owner_count (org m)) 1
                    then Raise (BusinessException CHANGE_ROLE_FAILED_ONLY_OWNER)
                    else if String.eqb code ADMIN && negb (eq_str type ADMIN)
                            && Nat.eqb (get_owner_count (org m)) 1
                    then Raise (BusinessException CHANGE_ROLE_FAILED_ONLY_OWNER)
                    else Ok (code, inactive)
                end
          end
    end.

(** The calls of an [update_membership] that returns, for the updated
    membership [m] of type code [code]. *)
Definition update_effects env fields m (code : string) (inactive : bool) : list Effect :=
  let status := dict_get fields "membership_status" in
  let type := dict_get fields "membership_type" in
  let membership_type := if truthy type then type else PStr code in
  let by_staff := is_staff (user_context env)
                  && negb (bool_decide (login_source (user m) = BCROS)) in
  [Save]
  ++ match status with
     | PStatus ACTIVE =>
         [PublishActivity (org_id (org m)) APPROVE_TEAM_MEMBER (user_id (user m)) membership_type]
     | PStatus INACTIVE =>
         [PublishActivity (org_id (org m)) REMOVE_TEAM_MEMBER (user_id (user m)) membership_type;
          PublishTeamMemberRemoved (org_id (org m)) (user_id (user m))]
     | _ => []
     end
  ++ match attrs m !! "membership_status" with
     | Some (PStatus i) => group_effects env m i
     | _ => []
     end
  ++ (if by_staff && negb (Nat.eqb (size fields) 0) then [MailTeamModified (org_id (org m))]
      else [])
  ++ (if by_staff && inactive
      then match contact_email env with
           | Some email =>
               if negb (String.eqb email "") then [MailAdminRemoved (org_id (org m)) email]
               else []
           | None => []
           end
      else []).

(** The calls of [update_effects] that precede the mails. *)
Definition update_calls env fields m (code : string) : list Effect :=
  let status := dict_get fields "membership_status" in
  let type := dict_get fields "membership_type" in
  let membership_type := if truthy type then type else PStr code in
  [Save]
  ++ match status with
     | PStatus ACTIVE =>
         [PublishActivity (org_id (org m)) APPROVE_TEAM_MEMBER (user_id (user m)) membership_type]
     | PStatus INACTIVE =>
         [PublishActivity (org_id (org m)) REMOVE_TEAM_MEMBER (user_id (user m)) membership_type;
          PublishTeamMemberRemoved (org_id (org m)) (user_id (user m))]
     | _ => []
     end
  ++ match attrs m !! "membership_status" with
     | Some (PStatus i) => group_effects env m i
     | _ => []
     end.

(** The mails [update_membership] hands to the publisher, in order, each
    with its notification type. *)
Definition update_mails env fields m (inactive : bool) : list (Notification * Effect) :=
  let by_staff := is_staff (user_context env)
                  && negb (bool_decide (login_source (user m) = BCROS)) in
  (if by_staff && negb (Nat.eqb (size fields) 0)
   then [(TEAM_MODIFIED, MailTeamModified (org_id (org m)))]
   else [])
  ++ (if by_staff && inactive
      then match contact_email env with
           | Some email =>
               if negb (String.eqb email "")
               then [(ADMIN_REMOVED, MailAdminRemoved (org_id (org m)) email)]
               else []
           | None => []
           end
      else []).

(** Publishing mails in order: the mails that went out, and the exception
    of the first one the publisher refuses. *)
Fixpoint published env (mails : list (Notification * Effect)) : list Effect * option exn :=
  match mails with
  | [] => ([], None)
  | (n, mail) :: rest =>
      match mailer env n with
      | Some x => ([], Some x)
      | None => (mail :: (published env rest).1, (published env rest).2)
      end
  end.

(** The result of a call whose mails were handed to the publisher. *)
Definition mailed (x : option exn) : result unit :=
  match x with
  | Some x => Raise x
  | None => Ok tt
  end.

(** The type of the request, when there is one, is a type row. *)
Definition type_request_typed fields : Prop :=
  dict_get fields "membership_type" = PNone
  \/ exists c, dict_get fields "membership_type" = PType c.

(** [update_membership] from its assignment loop on. *)
Definition update_commit env fields (self : MembershipModel) (admin_getting_removed : bool)
  : M unit :=
  let user_from_context := user_context env in
  let updated_membership_status := dict_get fields "membership_status" in
  put_model (apply_fields fields self);;
  emit Save;;
  self ← get_model;
  membership_type ←
    (if truthy (dict_get fields "membership_type")
     then ret (dict_get fields "membership_type")
     else (c ← lift (model_type_code self); ret (PStr c)));
  (if truthy updated_membership_status then
     i ← lift (attr_id updated_membership_status);
     if bool_decide (i ∈ [INACTIVE; ACTIVE]) then
       let action := if bool_decide (i = ACTIVE) then APPROVE_TEAM_MEMBER
                     else REMOVE_TEAM_MEMBER in
       emit (PublishActivity (org_id (org self)) action (user_id (user self)) membership_type);;
       match action with
       | REMOVE_TEAM_MEMBER =>
           emit (PublishTeamMemberRemoved (org_id (org self)) (user_id (user self)))
       | APPROVE_TEAM_MEMBER => ret tt
       end
     else ret tt
   else ret tt);;
  _add_or_remove_group env self;;
  let is_bcros_user := bool_decide (login_source (user self) = BCROS) in
  when (is_staff user_from_context && negb is_bcros_user
        && negb (Nat.eqb (size fields) 0))
       (publish_to_mailer env TEAM_MODIFIED (MailTeamModified (org_id (org self))));;
  when (is_staff user_from_context && negb is_bcros_user && admin_getting_removed)
       (match contact_email env with
        | Some email =>
            when (negb (String.eqb email ""))
                 (publish_to_mailer env ADMIN_REMOVED
                    (MailAdminRemoved (org_id (org self)) email))
        | None => ret tt
        end).

(** The kinds of calls. *)
Definition is_activity (e : Effect) : bool :=
  match e with PublishActivity _ _ _ _ => true | _ => false end.

Definition is_mail (e : Effect) : bool :=
  match e with MailTeamModified _ | MailAdminRemoved _ _ => true | _ => false end.

Definition is_group_call (e : Effect) : bool :=
  match e with
  | JoinAccountHoldersGroup _ | RemoveFromAccountHoldersGroup _
  | AddUserToGroup _ _ | RemoveUserFromGroup _ _
  | UpdateUsersProductsKeycloakGroups _ => true
  | _ => false
  end.

(** dave signs in through BCeID and is a plain member of org 1; erin is a
    plain member who acts on her own membership. *)
Definition dave : User :=
  {| user_id := 9; username := "dave@bceid"; login_source := BCEID;
     keycloak_guid := "guid-9" |}.

Definition a_bceid_member : St := membership_of dave [row ADMIN; row USER] USER.

Definition erin : User :=
  {| user_id := 11; username := "erin"; login_source := BCSC; keycloak_guid := "guid-11" |}.

Definition erin_ctx : UserContext :=
  {| user_name := "erin"; is_staff := false; org_membership := None |}.

Definition a_plain_member : St := membership_of erin [row ADMIN; row USER] USER.

(** The status asked for, once the name is resolved. *)
Definition status_asked (Status_named : string -> option Status)
    (status_ : option string) : option Status :=
  match status_ with
  | None => Some ACTIVE
  | Some name => Status_named name
  end.

(** The names of the members of [Status] that the service uses. *)
Definition status_names (name : string) : option Status :=
  if String.eqb name "ACTIVE" then Some ACTIVE
  else if String.eqb name "INACTIVE" then Some INACTIVE
  else if String.eqb name "REJECTED" then Some REJECTED
  else if String.eqb name "PENDING_APPROVAL" then Some PENDING_APPROVAL
  else if String.eqb name "PENDING_STAFF_REVIEW" then Some PENDING_STAFF_REVIEW
  else None.

(** An org with an owner, a pending member and a rejected one, listed on
    behalf of the pending member (user 2). *)
Definition the_owner : Member :=
  {| member_user_id := 1; member_row := {| membership_type_code := ADMIN; status := ACTIVE |} |}.
Definition the_applicant : Member :=
  {| member_user_id := 2;
     member_row := {| membership_type_code := USER; status := PENDING_APPROVAL |} |}.

Definition applicant_listing : Listing :=
  {| org_found := true; caller_is_staff := false; caller_is_external_staff := false;
     jwt_user := Ok 2%Z;
     find_membership_by_user_and_org := fun u _ =>
       if bool_decide (u = 2%Z) then Some the_applicant
       else if bool_decide (u = 1%Z) then Some the_owner else None;
     find_members_by_org_id_by_status_by_roles := fun _ _ st =>
       List.filter (fun member : Member => bool_decide (status (member_row member) = st))
                   [the_owner; the_applicant] |}.

End membership_notions.

(** ** Affiliations *)

Section affiliation_notions.
Import Py Affiliation.
Implicit Types (s : Store) (h : list Entity) (e v x : Entity) (b r : nat) (flag : bool)
  (ids l : list nat) (d : list (jval * Entity)).

(** A caller with no role that skips the check, and an entity whose
    stored passcode is empty. *)
Definition plain_caller : AuthContext :=
  {| has_skip_affiliation_auth_role := false; is_staff := false;
     current_user := Some 7%Z; sbc_staff := [] |}.

Definition no_stored_passcode : EntityModel :=
  {| corp_type := "BC"; business_identifier := "BC1234567"; pass_code := Some "" |}.

(** What linking makes of a record: the payload is attached, then the
    draft type is recoded for an amalgamation. *)
Definition linked (e : Entity) (nr : NameRequest) : result Entity :=
  let e1 := set_nameRequest e nr in
  if truthy (default JNull (draftType e1)) then
    match request_action_cd nr with
    | Some cd =>
        Ok (if bool_decide (cd = JStr AMALGAMATE) then set_draftType e1 (JStr ATMP) else e1)
    | None => Raise KeyError
    end
  else Ok e1.

(** [s] with [l] for its drafts. *)
Definition with_drafts (s : Store) (l : list nat) : Store :=
  {| heap := heap s; name_requests := name_requests s; drafts := l |}.

(** The store after the loop body has run on reference [b], or the
    exception it raises. *)
Definition visit (flag : bool) (b : nat) (s : Store) : result Store :=
  let e := deref (heap s) b in
  match nrNumber e with
  | None => Ok s
  | Some n =>
      if truthy n then
        match dict_lookup n (name_requests s) with
        | Some record =>
            match nameRequest record with
            | None => Raise KeyError
            | Some nr =>
                match linked e nr with
                | Raise x => Raise x
                | Ok e2 =>
                    match stateCd nr with
                    | None => Raise KeyError
                    | Some st =>
                        let h' := <[b := e2]> (heap s) in
                        let nrs' := dict_del n (name_requests s) in
                        if bool_decide (st = JStr CONSUMED) then
                          match list_remove h' e2 (drafts s) with
                          | Some l => Ok {| heap := h'; name_requests := nrs'; drafts := l |}
                          | None => Raise ValueError
                          end
                        else Ok {| heap := h'; name_requests := nrs'; drafts := drafts s |}
                    end
                end
            end
        | None =>
            if flag && list_contains (heap s) e (drafts s) then
              match list_remove (heap s) e (drafts s) with
              | Some l => Ok (with_drafts s l)
              | None => Raise ValueError
              end
            else Ok s
        end
      else Ok s
  end.

(** The body of the loop of [_combine_nrs]. *)
Definition body (flag : bool) (business : nat) : M unit :=
  b ← load business;
  if truthy (default JNull (nrNumber b)) then
    processed ← _process_nr_for_business business;
    s ← gets id;
    when (negb processed && flag
          && list_contains (heap s) (deref (heap s) business) (drafts s))
         (drafts_remove business)
  else ret tt.

(** The store after the loop has run over [ids]. *)
Fixpoint visits (flag : bool) (ids : list nat) (s : Store) : result Store :=
  match ids with
  | [] => Ok s
  | b :: ids' =>
      match visit flag b s with
      | Ok s' => visits flag ids' s'
      | Raise x => Raise x
      end
  end.

(** The list [_combine_nrs] returns from its final store. *)
Definition assemble (businesses : list nat) (s : Store) : list Entity :=
  dict_values (name_requests s)
  ++ (deref (heap s) <$> drafts s)
  ++ (deref (heap s) <$> businesses).

(** The record carries a name-request number. *)
Definition has_reference (e : Entity) : bool := truthy (default JNull (nrNumber e)).

(** The record has no name-request number, or one that is not a key of
    the mapping. *)
Definition unresolved d v : Prop :=
  forall n, nrNumber v = Some n -> truthy n = true -> dict_lookup n d = None.

(** The references of [l] whose object is [v]. *)
Definition refs_to h v l : list nat :=
  List.filter (fun r => bool_decide (deref h r = v)) l.

(** Objects equal to [v] in one heap are those equal to [v] in the other. *)
Definition same_objects h h' v : Prop := forall r, deref h' r = v <-> deref h r = v.

(** The references of [ids] point into the heap. *)
Definition valid_refs s ids : Prop := Forall (fun b => b < length (heap s)) ids.

(** The drafts of the combined list. *)
Definition kept_drafts s : list Entity := deref (heap s) <$> drafts s.

(** Every value of the mapping is the standalone record of a payload
    whose number is its key. *)
Definition well_keyed d : Prop :=
  Forall (fun p => exists nr, p.2 = standalone nr /\ nrNum nr = Some p.1) d.

(** The final store of [combine_grouped]. *)
Definition final_store (nrs : list (jval * Entity)) (bs ds : list Entity) flag : Store :=
  (combine_grouped nrs bs ds flag).2.

(** The three parts of the combined list. *)
Definition standalone_records s : list Entity := dict_values (name_requests s).

Definition business_records (bs ds : list Entity) s : list Entity :=
  deref (heap s) <$> business_refs bs ds.

(** Records as the registry returns them. *)
Definition payload (number state : string) : NameRequest :=
  {| nrNum := Some (JStr number); stateCd := Some (JStr state);
     request_action_cd := Some (JStr "NEW"); nr_other := "" |}.

Definition business (ident : string) (number : option string) : Entity :=
  {| identifier := Some (JStr ident); nrNumber := JStr <$> number; draftType := None;
     legalType := Some (JStr "BC"); nameRequest := None; other := "" |}.

Definition draft (ident : string) (number : option string) : Entity :=
  {| identifier := Some (JStr ident); nrNumber := JStr <$> number;
     draftType := Some (JStr "TMP"); legalType := Some (JStr "BC");
     nameRequest := None; other := "" |}.

(** A response of the registry that lists business BC1 twice. *)
Definition repeated_business : list Response :=
  [RespDict None false (Some [business "BC1" None; business "BC1" None]) None].

(** A draft with no name-request number. *)
Definition unnumbered_draft : list Response :=
  [RespDict None false None (Some [draft "T1" None])].

(** A draft whose name request NR9 the registry does not return. *)
Definition stale_draft : list Response :=
  [RespDict (Some [payload "NR1" "APPROVED"]) false None (Some [draft "T9" (Some "NR9")])].

(** Name requests NR1 and NR2, a draft for NR1 and a business. *)
Definition linked_draft : list Response :=
  [RespDict (Some [payload "NR1" "APPROVED"; payload "NR2" "APPROVED"]) false
            (Some [business "BC1" None]) (Some [draft "T1" (Some "NR1")])].

(** A business whose name request NR1 is consumed, and no draft. *)
Definition consumed_business : list Response :=
  [RespDict (Some [payload "NR1" CONSUMED]) false (Some [business "BC1" (Some "NR1")]) None].

(** The same with the draft the business came from. *)
Definition consumed_draft_and_business : list Response :=
  [RespDict (Some [payload "NR1" CONSUMED]) false
            (Some [business "BC1" (Some "NR1")]) (Some [draft "T1" (Some "NR1")])].

(** Bases created at times 30 > 20 > 10, and their records in another
    order. *)
Definition three_bases : list AffiliationBase :=
  [{| base_identifier := "NR2"; created := 20 |};
   {| base_identifier := "T3"; created := 10 |};
   {| base_identifier := "BC1"; created := 30 |}].

Definition three_records : list Entity :=
  [draft "T3" None; standalone (payload "NR2" "APPROVED"); business "BC1" None].

(** The name requests, businesses and drafts a response carries. *)
Definition response_requests (data : Response) : list NameRequest :=
  (_extract_name_requests data).2.

Definition response_businesses (data : Response) : list Entity :=
  match data with
  | RespDict _ _ (Some l) _ => l
  | _ => []
  end.

Definition response_drafts (data : Response) : list Entity :=
  match data with
  | RespDict _ _ _ (Some l) => l
  | _ => []
  end.

(** The payloads of [l] whose number is [k], in the order of [l]. *)
Definition numbered (k : jval) (l : list NameRequest) : list NameRequest :=
  List.filter (fun nr => bool_decide (nrNum nr = Some k)) l.

(** [b'] is the record [b], or [b] linked to the payload that the mapping
    holds for its name-request number. *)
Definition linked_to (nrs : list (jval * Entity)) (b b' : Entity) : Prop :=
  b' = b
  \/ exists n nr,
       nrNumber b = Some n /\ truthy n = true
       /\ dict_lookup n nrs = Some (standalone nr)
       /\ linked b nr = Ok b'.

(** A payload that has a state other than CONSUMED and an action code. *)
Definition unconsumed (nr : NameRequest) : Prop :=
  (exists st, stateCd nr = Some st /\ st <> JStr CONSUMED)
  /\ request_action_cd nr <> None.

(** The store [s] as reached from the heap [h0], the mapping [nrs0] and
    the drafts [drafts0]: the mapping and the drafts have only lost
    entries, and a record is as it was or linked once, its number no
    longer a key. *)
Definition reached (h0 : list Entity) (nrs0 : list (jval * Entity)) (drafts0 : list nat)
    (s : Store) : Prop :=
  length (heap s) = length h0
  /\ sublist (name_requests s) nrs0
  /\ sublist (drafts s) drafts0
  /\ forall r, r < length h0 ->
       deref (heap s) r = deref h0 r
       \/ exists n nr,
            nrNumber (deref h0 r) = Some n /\ truthy n = true
            /\ dict_lookup n nrs0 = Some (standalone nr)
            /\ linked (deref h0 r) nr = Ok (deref (heap s) r)
            /\ dict_lookup n (name_requests s) = None.

(** The affiliation is a temporary business. *)
Definition temp_code (e : AffiliatedEntity) : bool :=
  match aff_corp_type_code e with
  | Some code => bool_decide (code ∈ temp_types)
  | None => false
  end.

(** Some temporary business of [data] has the name [identifier]. *)
Definition named_by_temp (data : list AffiliatedEntity) (identifier : string) : bool :=
  existsb (fun t => temp_code t && bool_decide (aff_name t = Some identifier)) data.

(** The affiliations [filter_affiliations] lists: a name request unless a
    temporary business of [data] is named by its identifier; a temporary
    business when its name is a name-request number or its own
    identifier; every other affiliation. *)
Definition listed (data : list AffiliatedEntity) (nr_numbers : list string)
    (e : AffiliatedEntity) : bool :=
  match aff_corp_type_code e, aff_name e, aff_business_identifier e with
  | Some code, Some name, Some identifier =>
      if String.eqb code NR then negb (named_by_temp data identifier)
      else if bool_decide (code ∈ temp_types) then
        bool_decide (name ∈ nr_numbers) || String.eqb name identifier
      else true
  | _, _, _ => false
  end.

(** How a listed affiliation is shown: a temporary business whose name is
    a name-request number gets that number as [nr_number] and the name
    the dictionary holds for it; every other affiliation is unchanged. *)
Definition shown_as (nr_numbers : list string) (nr_number_name_dict : list (string * string))
    (e e' : AffiliatedEntity) : Prop :=
  match aff_name e with
  | Some name =>
      if temp_code e && bool_decide (name ∈ nr_numbers) then
        exists full_name,
          dict_lookup name nr_number_name_dict = Some full_name
          /\ e' = aff_update e name full_name
      else e' = e
  | None => e' = e
  end.

(** The name requests of [data] whose identifier is [number], in the
    order of [data]. *)
Definition requests_numbered (number : string) (data : list AffiliatedEntity)
  : list AffiliatedEntity :=
  List.filter (fun a => bool_decide (aff_corp_type_code a = Some NR)
                        && bool_decide (aff_business_identifier a = Some number)) data.

(** An affiliation with the given name, identifier, type code and
    name-request number. *)
Definition affiliated (name identifier code : string) (number : option string)
  : AffiliatedEntity :=
  {| aff_name := Some name; aff_business_identifier := Some identifier;
     aff_corp_type_code := Some code; aff_nr_number := number; aff_other := "" |}.

(** The dictionary of the lists of [g a] for the [a] of [l] that share the
    key [f a], as [d.setdefault(f a, []).append(g a)] builds it. *)
Definition grouped {K B C : Type} `{EqDecision K} (f : B -> K) (g : B -> C) (l : list B)
  : list (K * list C) :=
  foldl (fun acc a => dict_set (f a) (default [] (dict_lookup (f a) acc) ++ [g a]) acc) [] l.

(** The calls of a successful [create_affiliation], in order. *)
Definition create_calls (org_id : Z) (certified_by_name : option string)
    (entity : EntityRow) : list AffiliationCall :=
  let em := ent_model entity in
  [SaveAffiliation org_id (ent_id entity) certified_by_name]
  ++ (if bool_decide (corp_type em ∈ ["SP"; "GP"]) then []
      else [SetPassCodeClaimed (ent_id entity) true])
  ++ (if bool_decide (corp_type em ∈ temp_corp_types) then []
      else [PublishAffiliationActivity org_id CREATE_AFFILIATION
              (display_name entity) (business_identifier em)])
  ++ [PublishAffiliationEvent BUSINESS_AFFILIATED org_id (business_identifier em)].

(** The entity is a name request as [delete_affiliation] decides it. *)
Definition is_name_request (entity : EntityRow) : bool :=
  bool_decide (ent_status entity ∈ [Some DRAFT; Some CONSUMED])
  && String.eqb (corp_type (ent_model entity)) NR
  || str_contains (business_identifier (ent_model entity)) "NR ".

(** What [delete_affiliation] publishes once the rows are gone. *)
Definition unaffiliated_calls (da : DeleteAffiliationRequest)
    (entity : EntityRow) : list AffiliationCall :=
  let em := ent_model entity in
  if bool_decide (corp_type em ∈ temp_corp_types) then []
  else
    (if da_log_delete_draft da || negb (is_name_request entity)
     then [PublishAffiliationActivity (da_org_id da) REMOVE_AFFILIATION
             (display_name entity) (business_identifier em)]
     else [])
    ++ [PublishAffiliationEvent BUSINESS_UNAFFILIATED (da_org_id da) (business_identifier em)].

(** The calls of a successful [delete_affiliation], in order. *)
Definition delete_calls (da : DeleteAffiliationRequest) (entity : EntityRow)
    (affiliation_id : Z) (invitations : list Z) : list AffiliationCall :=
  (DeleteInvitation <$> invitations)
  ++ (if da_reset_passcode da
      then [ResetPasscode (business_identifier (ent_model entity)) (da_email_addresses da)]
      else [])
  ++ [DeleteAffiliation affiliation_id; SetPassCodeClaimed (ent_id entity) false]
  ++ unaffiliated_calls da entity.

(** The call publishes an affiliation event, or logs an activity. *)
Definition is_event (c : AffiliationCall) : bool :=
  match c with PublishAffiliationEvent _ _ _ => true | _ => false end.

Definition is_logged (c : AffiliationCall) : bool :=
  match c with PublishAffiliationActivity _ _ _ _ => true | _ => false end.

(** A registration in progress, its affiliation and a pending invitation,
    looked up by a staff user. *)
Definition a_registration : EntityRow :=
  {| ent_model := {| corp_type := TMP; business_identifier := "Tb31yQIuBw";
                     pass_code := None |};
     ent_id := 12%Z; ent_name := "Tb31yQIuBw"; ent_status := None |}.

Definition a_directory (affiliation : option Z) : Directory unit :=
  {| dir_org := Some tt; dir_entity := Some a_registration;
     dir_affiliation := affiliation; dir_invitations := [5%Z] |}.

Definition a_delete_request : DeleteAffiliationRequest :=
  {| da_org_id := 3%Z; da_business_identifier := "Tb31yQIuBw";
     da_email_addresses := None; da_reset_passcode := false;
     da_log_delete_draft := true |}.

Definition a_staff_caller : AuthContext :=
  {| has_skip_affiliation_auth_role := false; is_staff := true;
     current_user := None; sbc_staff := [] |}.

(** One party compared with the supplied name. *)
Definition party_matches (is_space : Ascii.ascii -> bool) (upper : string -> string)
    (party_name_str : string) (party : Party) : outcome bool :=
  match officer party with
  | None => Fails (Python AttributeError)
  | Some o =>
      name ← party_name o;
      Returns (String.eqb (upper (single_spaced is_space party_name_str))
                          (upper (single_spaced is_space name)))
  end.

(** A string with no whitespace, and one that is empty or starts with
    whitespace. *)
Fixpoint no_space (is_space : Ascii.ascii -> bool) (w : string) : bool :=
  match w with
  | EmptyString => true
  | String c w' => negb (is_space c) && no_space is_space w'
  end.

Definition is_word (is_space : Ascii.ascii -> bool) (w : string) : Prop :=
  w <> EmptyString /\ no_space is_space w = true.

Definition starts_blank (is_space : Ascii.ascii -> bool) (s : string) : bool :=
  match s with
  | EmptyString => true
  | String c _ => is_space c
  end.

(** Whitespace and upper case of the ASCII characters. *)
Definition ascii_space (c : Ascii.ascii) : bool :=
  let n := Ascii.nat_of_ascii c in
  (9 <=? n)%nat && (n <=? 13)%nat || (28 <=? n)%nat && (n <=? 32)%nat.

Fixpoint ascii_upper (s : string) : string :=
  match s with
  | EmptyString => EmptyString
  | String c s' =>
      let n := Ascii.nat_of_ascii c in
      String (if (97 <=? n)%nat && (n <=? 122)%nat then Ascii.ascii_of_nat (n - 32) else c)
             (ascii_upper s')
  end.

(** The parties of a firm: an organization and a partner. *)
Definition firm_parties : list Party :=
  [ {| officer := Some {| partyType := Some "organization";
                          organizationName := Some "Acme  Holdings Ltd.";
                          lastName := None; firstName := None; middleInitial := None |} |};
    {| officer := Some {| partyType := Some "person"; organizationName := None;
                          lastName := Some "Doe"; firstName := Some "Jane";
                          middleInitial := Some "Q" |} |};
    {| officer := None |} ].

(** The state a name must have to name the entity of a name request. *)
Definition naming_state (nr_json : NrJson) : string :=
  if bool_decide (nr_state nr_json = Some APPROVED) then NRNameStatus_APPROVED
  else NRNameStatus_CONDITION.

(** The calls [create_new_business_affiliation] makes for an entity, once
    it is found or saved. *)
Definition affiliate_calls (store : EntityStore) (data : AffiliationData)
    (entity : EntityRow) : list AffiliationCall :=
  match find_affiliation_by_org_and_entity_ids store (data_org_id data) (ent_id entity) with
  | Some affiliation_id => [UpdateAffiliation affiliation_id (data_certified_by_name data)]
  | None =>
      (if bool_decide (corp_type (ent_model entity) ∈ temp_corp_types) then []
       else [PublishAffiliationActivity (data_org_id data) CREATE_AFFILIATION
               (ent_name entity) (business_identifier (ent_model entity))])
      ++ [SaveAffiliation (data_org_id data) (ent_id entity) (data_certified_by_name data)]
  end
  ++ [SetPassCodeClaimed (ent_id entity) true].

(** A conditionally approved name request with three names, asked for
    by staff for an org that exists. *)
Definition a_name_request : NrJson :=
  {| nr_state := Some CONDITIONAL;
     nr_applicants := Some {| phoneNumber := None; emailAddress := None |};
     nr_json_names :=
       Some [ {| name_state := Some "REJECTED"; name_name := Some "ACME ONE LTD." |};
              {| name_state := Some "APPROVED"; name_name := Some "ACME TWO LTD." |};
              {| name_state := Some "CONDITION"; name_name := Some "ACME THREE LTD." |} ] |}.

End affiliation_notions.

(** ** Sorted lists *)

Section sorting_notions.
Context {A : Type} (key : A -> N).
Implicit Types (x y : A) (l : list A).

(** Later elements have keys that are not greater. *)
Definition descending l : Prop :=
  StronglySorted (fun x y => (key y <= key x)%N) l.

(** The elements of [l] whose key is [t], in the order of [l]. *)
Definition with_key (t : N) l : list A :=
  List.filter (fun x => bool_decide (key x = t)) l.

End sorting_notions.

(** * Proofs *)

Ltac msimpl :=
  cbv beta iota delta [mbind Py.M_bind Py.bind mret Py.M_ret Py.ret Py.raise Py.lift Py.when
                       Py.gets Py.modify Membership.get_model Membership.put_model
                       Membership.emit].

(** ** Running a membership call *)

Section membership_runs.
Import Py Membership.
Implicit Types (env : Env) (s : St) (m : MembershipModel) (fields : gmap string pyval).

Lemma bind_run {S A B} (c : Py.M S A) (k : A -> Py.M S B) (x : S) :
  (c ≫= k) x = match c x with (Ok a, x') => k a x' | (Raise e, x') => (Raise e, x') end.
Proof. reflexivity. Qed.

Lemma check_auth_ok env rs s : authorized env rs = true -> check_auth env rs s = (Ok tt, s).
Proof. unfold check_auth. by intros ->. Qed.

Lemma check_auth_state env rs s : (check_auth env rs s).2 = s.
Proof. unfold check_auth. by destruct (authorized env rs). Qed.

Lemma staff_guard_run env v uid s :
  _check_if_add_user_has_active_staff_org env v uid s =
    match status_is v ACTIVE with
    | Ok b =>
        if b && bool_decide (0 < length (active_staff_orgs (database env) uid))
        then (Raise (BusinessException MAX_NUMBER_OF_STAFF_ORGS_LIMIT), s)
        else (Ok tt, s)
    | Raise e => (Raise e, s)
    end.
Proof.
  unfold _check_if_add_user_has_active_staff_org, active_staff_orgs.
  rewrite bind_run. unfold lift.
  destruct (status_is v ACTIVE) as [b|e]; [|done].
  by destruct (b && _).
Qed.

Lemma staff_guard_state env v uid s :
  (_check_if_add_user_has_active_staff_org env v uid s).2 = s.
Proof. rewrite staff_guard_run. repeat case_match; done. Qed.

(** *** Computations that leave the model alone

    [keeps m c]: started on model [m], [c] ends on model [m], whether it
    returns or raises.  [safe m c]: moreover it returns. *)
Lemma safe_keeps {A} m (c : M A) : safe m c -> keeps m c.
Proof. intros H s Hs. destruct (H s Hs) as (a & s' & -> & ?). done. Qed.

Lemma keeps_ret {A} m (a : A) : keeps m (ret a).
Proof. by intros s Hs. Qed.
Lemma keeps_raise {A} m e : keeps (A := A) m (raise e).
Proof. by intros s Hs. Qed.
Lemma keeps_lift {A} m (r : result A) : keeps m (lift r).
Proof. by intros s Hs. Qed.
Lemma keeps_emit m e : keeps m (emit e).
Proof. by intros s Hs. Qed.
Lemma keeps_publish_to_mailer m env n e : keeps m (publish_to_mailer env n e).
Proof. intros s Hs. unfold publish_to_mailer. by destruct (mailer env n). Qed.
Lemma keeps_check_auth m env rs : keeps m (check_auth env rs).
Proof. intros s Hs. by rewrite check_auth_state. Qed.
Lemma keeps_bind {A B} m (c : M A) (k : A -> M B) :
  keeps m c -> (forall a, keeps m (k a)) -> keeps m (c ≫= k).
Proof.
  intros Hc Hk s Hs. rewrite bind_run. specialize (Hc s Hs).
  destruct (c s) as [[a|e] s']; [by apply Hk|done].
Qed.
Lemma keeps_get {B} m (k : MembershipModel -> M B) :
  keeps m (k m) -> keeps m (get_model ≫= k).
Proof. intros Hk s Hs. rewrite bind_run. cbn. rewrite Hs. by apply Hk. Qed.
Lemma keeps_when m (b : bool) (c : M unit) : keeps m c -> keeps m (when b c).
Proof. destruct b; [done|]. intros _. apply keeps_ret. Qed.

Lemma safe_ret {A} m (a : A) : safe m (ret a).
Proof. intros s Hs. by exists a, s. Qed.
Lemma safe_lift {A} m (a : A) : safe m (lift (Ok a)).
Proof. intros s Hs. by exists a, s. Qed.
Lemma safe_emit m e : safe m (emit e).
Proof. intros s Hs. by eexists tt, _. Qed.
Lemma safe_bind {A B} m (c : M A) (k : A -> M B) :
  safe m c -> (forall a, safe m (k a)) -> safe m (c ≫= k).
Proof.
  intros Hc Hk s Hs. rewrite bind_run.
  destruct (Hc s Hs) as (a & s' & -> & Hs'). by apply Hk.
Qed.
Lemma safe_get {B} m (k : MembershipModel -> M B) :
  safe m (k m) -> safe m (get_model ≫= k).
Proof. intros Hk s Hs. rewrite bind_run. cbn. rewrite Hs. by apply Hk. Qed.
Lemma safe_bind_lift {A B} m (a : A) (k : A -> M B) :
  safe m (k a) -> safe m (lift (Ok a) ≫= k).
Proof. intros Hk s Hs. rewrite bind_run. by apply Hk. Qed.
Lemma safe_when m (b : bool) (c : M unit) : safe m c -> safe m (when b c).
Proof. destruct b; [done|]. intros _. apply safe_ret. Qed.

End membership_runs.

Ltac keeps_step :=
  lazymatch goal with
  | |- keeps _ (Membership.get_model ≫= _) => apply keeps_get
  | |- keeps _ (_ ≫= _) => apply keeps_bind; [|intros ?]
  | |- keeps _ (Py.ret _) => apply keeps_ret
  | |- keeps _ (Py.raise _) => apply keeps_raise
  | |- keeps _ (Py.lift _) => apply keeps_lift
  | |- keeps _ (Membership.emit _) => apply keeps_emit
  | |- keeps _ (Membership.publish_to_mailer _ _ _) => apply keeps_publish_to_mailer
  | |- keeps _ (Membership.check_auth _ _) => apply keeps_check_auth
  | |- keeps _ (Py.when _ _) => apply keeps_when
  | |- keeps _ (if ?b then _ else _) => destruct b
  | |- keeps _ (match ?x with _ => _ end) => destruct x
  end.

Ltac safe_step :=
  lazymatch goal with
  | |- safe _ (Membership.get_model ≫= _) => apply safe_get
  | |- safe _ (Py.lift (Py.Ok _) ≫= _) =>
      apply safe_bind_lift; cbn [Membership.attr_id Membership.attr_code]
  | |- safe _ (_ ≫= _) => apply safe_bind; [|intros ?]
  | |- safe _ (Py.ret _) => apply safe_ret
  | |- safe _ (Py.lift (Py.Ok _)) => apply safe_lift
  | |- safe _ (Membership.emit _) => apply safe_emit
  | |- safe _ (Py.when _ _) => apply safe_when
  | |- safe _ (if ?b then _ else _) => destruct b
  | |- safe _ (match ?x with _ => _ end) => destruct x
  end.

Section membership_groups.
Import Py Membership.

Lemma keeps_add_or_remove_group m env m' : keeps m (_add_or_remove_group env m').
Proof.
  unfold _add_or_remove_group, add_or_remove_group_for_staff. repeat keeps_step.
Qed.

Lemma safe_add_or_remove_group m env m' i :
  attrs m' !! "membership_status" = Some (PStatus i) ->
  safe m (_add_or_remove_group env m').
Proof.
  intros Hst.
  unfold _add_or_remove_group, add_or_remove_group_for_staff, getattr.
  rewrite Hst. cbn [attr_id]. repeat safe_step.
Qed.
End membership_groups.

(** ** Guards and updates of [update_membership] *)

Section membership_update.
Import Py Membership.
Implicit Types (env : Env) (s : St) (m : MembershipModel) (fields : gmap string pyval).

Lemma apply_fields_user_org fields m :
  user (apply_fields fields m) = user m /\ org (apply_fields fields m) = org m.
Proof.
  unfold apply_fields.
  apply (map_fold_weak_ind (fun r _ => user r = user m /\ org r = org m)); [done|].
  intros k v f' r _ IH. by case_bool_decide.
Qed.

Lemma apply_fields_lookup fields m k :
  attrs (apply_fields fields m) !! k =
    match fields !! k with
    | Some v => if bool_decide (v = PNone) then attrs m !! k else Some v
    | None => attrs m !! k
    end.
Proof.
  unfold apply_fields.
  apply (map_fold_weak_ind (fun r f => attrs r !! k =
    match f !! k with
    | Some v => if bool_decide (v = PNone) then attrs m !! k else Some v
    | None => attrs m !! k
    end)).
  - by rewrite lookup_empty.
  - intros i x f' r Hi IH.
    destruct (decide (i = k)) as [->|Hne].
    + rewrite lookup_insert_eq. case_bool_decide; cbn.
      * by rewrite IH, Hi.
      * by rewrite lookup_insert_eq.
    + rewrite lookup_insert_ne by done.
      case_bool_decide; cbn; [done|]. by rewrite lookup_insert_ne.
Qed.

Lemma guarded_get fields s (k : MembershipModel -> M unit) :
  guarded fields s (k (model s)) -> guarded fields s (get_model ≫= k).
Proof. done. Qed.

Lemma guarded_pure {A} fields s (g : M A) (k : A -> M unit) :
  (g s).2 = s -> (forall a, guarded fields s (k a)) -> guarded fields s (g ≫= k).
Proof.
  intros Hg Hk. unfold guarded. rewrite bind_run.
  destruct (g s) as [[a|e] s'] eqn:Hrun; cbn in Hg; subst s'.
  - apply Hk.
  - left. by exists e.
Qed.

Lemma guarded_put fields s (k : unit -> M unit) :
  keeps (apply_fields fields (model s)) (k tt) ->
  guarded fields s (put_model (apply_fields fields (model s)) ≫= k).
Proof. intros Hk. right. rewrite bind_run. cbn. by apply Hk. Qed.

Lemma when_raise_state (b : bool) e s : (when b (raise e) s).2 = s.
Proof. by destruct b. Qed.

Lemma when_check_auth_state (b : bool) env rs s : (when b (check_auth env rs) s).2 = s.
Proof. destruct b; [apply check_auth_state|done]. Qed.

Lemma update_membership_guarded env fields s :
  guarded fields s (update_membership env fields).
Proof.
  unfold update_membership.
  apply guarded_get.
  apply guarded_pure; [apply check_auth_state|intros _].
  apply guarded_pure; [apply staff_guard_state|intros _].
  apply guarded_pure; [apply when_raise_state|intros _].
  apply guarded_pure; [done|intros code].
  apply guarded_pure; [apply when_check_auth_state|intros _].
  apply guarded_pure; [done|intros inactive].
  apply guarded_pure; [apply when_raise_state|intros _].
  apply guarded_pure; [apply when_raise_state|intros _].
  apply guarded_put.
  apply keeps_bind; [apply keeps_emit|intros _].
  apply keeps_get.
  repeat keeps_step; apply keeps_add_or_remove_group.
Qed.

Lemma update_membership_ok_model env fields s s' :
  update_membership env fields s = (Ok tt, s') ->
  model s' = apply_fields fields (model s).
Proof.
  intros Hrun. destruct (update_membership_guarded env fields s) as [[e He]|Hm].
  - congruence.
  - by rewrite Hrun in Hm.
Qed.
End membership_update.

(** ** The owner-count guard *)

Section owner_count.
Import Py Membership.
Implicit Types (env : Env) (s : St) (fields : gmap string pyval).

(** When the rows of [org.members] are all ACTIVE, the count is the
    number of ACTIVE owners. *)
Lemma get_owner_count_active (o : Org) :
  Forall (fun x => status x = ACTIVE) (members o) ->
  get_owner_count o = length (active_owners o).
Proof.
  unfold get_owner_count, active_owners.
  induction 1 as [|x l Hx _ IH]; [done|].
  cbn [List.filter]. rewrite Hx, bool_decide_eq_true_2 by done.
  rewrite andb_true_r. destruct (String.eqb _ _); cbn [length]; congruence.
Qed.
End owner_count.

(** ** Concrete requests *)

Section membership_examples.
Import Py Membership.

(** C2.  [deactivate_membership] consults no owner count: the only
    ACTIVE owner of an org deactivates her own membership and the call
    returns, where the same request through [update_membership] raises
    CHANGE_ROLE_FAILED_ONLY_OWNER. *)
Theorem deactivate_membership_sole_owner :
  length (active_owners (org (model sole_owner))) = 1
  /\ (deactivate_membership (env_of owner_ctx no_tables) sole_owner).1 = Ok tt
  /\ attrs (model (deactivate_membership (env_of owner_ctx no_tables) sole_owner).2)
       !! "membership_status" = Some (PStatus INACTIVE)
  /\ (update_membership (env_of owner_ctx no_tables)
        {[ "membership_status" := PStatus INACTIVE ]} sole_owner).1
     = Raise (BusinessException CHANGE_ROLE_FAILED_ONLY_OWNER).
Proof. repeat apply conj; vm_compute; reflexivity. Qed.

(** C9.  A caller who is only COORDINATOR assigns the ADMIN type to a
    coordinator: the comparison of the [MembershipType] row with the
    string ADMIN is false, [check_auth] for (ADMIN, STAFF) is not called,
    and the call returns with the membership promoted. *)
Theorem coordinator_promotes_to_owner :
  authorized (env_of coordinator_ctx no_tables) (RoleTuple [ADMIN; STAFF]) = false
  /\ model_type_code (model a_coordinator) = Ok COORDINATOR
  /\ (update_membership (env_of coordinator_ctx no_tables)
        {[ "membership_type" := PType ADMIN ]} a_coordinator).1 = Ok tt
  /\ attrs (model (update_membership (env_of coordinator_ctx no_tables)
                     {[ "membership_type" := PType ADMIN ]} a_coordinator).2)
       !! "membership_type" = Some (PType ADMIN).
Proof. repeat apply conj; vm_compute; reflexivity. Qed.
End membership_examples.

(** ** Which fields an update touches *)

Section update_frame.
Import Py Membership.
Implicit Types (env : Env) (s : St) (fields : gmap string pyval).

(** C10.  Whatever the outcome of [update_membership], an attribute that
    the request does not name, or names with the value [None], is what it
    was before the call, and so are the user and the org of the
    membership; when the call returns, every attribute named with a value
    other than [None] holds that value. *)
Theorem update_membership_applies_non_none env fields s :
  let s' := (update_membership env fields s).2 in
  (forall k, fields !! k = None \/ fields !! k = Some PNone ->
             attrs (model s') !! k = attrs (model s) !! k)
  /\ user (model s') = user (model s)
  /\ org (model s') = org (model s)
  /\ ((update_membership env fields s).1 = Ok tt ->
      forall k v, fields !! k = Some v -> v <> PNone ->
                  attrs (model s') !! k = Some v).
Proof.
  destruct (update_membership_guarded env fields s) as [[e He]|Hm]; cbn zeta.
  - rewrite He. cbn. repeat apply conj; try reflexivity; try discriminate.
  - rewrite Hm. destruct (apply_fields_user_org fields (model s)) as [Hu Ho].
    repeat apply conj; try assumption.
    + intros k [Hk|Hk]; rewrite apply_fields_lookup, Hk; reflexivity.
    + intros _ k v Hk Hv. rewrite apply_fields_lookup, Hk.
      by rewrite bool_decide_eq_false_2.
Qed.

Lemma update_membership_applies_non_none_witness :
  attrs (model (update_membership (env_of owner_ctx no_tables)
                  none_type_inactive one_of_two_owners).2)
    !! "membership_type" = Some (PType ADMIN)
  /\ attrs (model (update_membership (env_of owner_ctx no_tables)
                     none_type_inactive one_of_two_owners).2)
       !! "membership_status" = Some (PStatus INACTIVE).
Proof.
  destruct (update_membership_applies_non_none
              (env_of owner_ctx no_tables) none_type_inactive one_of_two_owners)
    as (Hnone & _ & _ & Hset).
  split.
  - etrans; [apply Hnone|vm_compute; reflexivity].
    right. vm_compute. reflexivity.
  - apply Hset; [vm_compute; reflexivity|vm_compute; reflexivity|discriminate].
Defined.
End update_frame.

(** ** The staff-org guard *)

Section staff_uniqueness.
Import Py Membership.
Implicit Types (env : Env) (db : Database) (s : St) (v : pyval) (uid : Z).

Lemma active_staff_orgs_nonempty db uid :
  active_staff_orgs db uid <> [] <-> in_active_staff_org db uid.
Proof.
  unfold active_staff_orgs, find_by_org_ids_and_org_types,
    find_memberships_by_user_id_and_status, in_active_staff_org.
  split.
  - intros Hne.
    destruct (List.filter _ (org_table db)) as [|o l] eqn:Hf; [done|].
    assert (Ho : In o (List.filter
      (fun o => bool_decide (rec_id o ∈ rec_org_id <$>
                   List.filter (fun r => bool_decide (rec_user_id r = uid)
                                         && bool_decide (rec_status r = ACTIVE))
                               (membership_table db))
                && bool_decide (rec_type_code o ∈ fst <$> org_type_to_group_mapping))
      (org_table db))) by (rewrite Hf; left; done).
    apply filter_In in Ho as [Hin Hb].
    apply andb_true_iff in Hb as [Hid%bool_decide_eq_true Hty].
    apply list_elem_of_fmap in Hid as (r & Hr & Hrin).
    apply list_elem_of_In, filter_In in Hrin as [Hrin Hrb].
    apply andb_true_iff in Hrb as [Hu%bool_decide_eq_true Hs%bool_decide_eq_true].
    exists o, r. repeat apply conj; try done; by apply list_elem_of_In.
  - intros (o & r & Ho & Hr & Hu & Hs & Hor & Hty) Hnil.
    assert (Hin : In o []); [|done].
    rewrite <- Hnil. apply filter_In. split; [by apply list_elem_of_In|].
    apply andb_true_iff. split; [|exact Hty].
    apply bool_decide_eq_true. apply list_elem_of_fmap. exists r. split; [done|].
    apply list_elem_of_In, filter_In. split; [by apply list_elem_of_In|].
    by rewrite !bool_decide_eq_true_2.
Qed.

Lemma second_staff_org_active db uid target v :
  second_staff_org db uid target v -> active_staff_orgs db uid <> [].
Proof.
  unfold second_staff_org, staff_org_ids_after. intros [_ Hlen] Hnil.
  rewrite Hnil in Hlen.
  destruct (staff_tier _); cbn in Hlen; repeat case_match; cbn in Hlen; lia.
Qed.

(** C3, as the code has it.  For a request whose status is absent or a
    status row, the guard raises MAX_NUMBER_OF_STAFF_ORGS_LIMIT exactly
    when the request asks for ACTIVE and the user already holds an ACTIVE
    membership in some staff-tier org, whatever the type of the org the
    updated membership belongs to; otherwise it returns; it never changes
    the state.  A request that would leave the user ACTIVE in two
    staff-tier orgs is among those rejected. *)
Theorem staff_guard_iff env v uid s :
  v = PNone \/ (exists i, v = PStatus i) ->
  (staff_guard_rejects env v uid s
   <-> v = PStatus ACTIVE /\ in_active_staff_org (database env) uid)
  /\ (~ staff_guard_rejects env v uid s ->
      _check_if_add_user_has_active_staff_org env v uid s = (Ok tt, s))
  /\ (_check_if_add_user_has_active_staff_org env v uid s).2 = s
  /\ (forall target,
        second_staff_org (database env) uid target v -> staff_guard_rejects env v uid s).
Proof.
  intros Hv.
  assert (Hiff : staff_guard_rejects env v uid s
                 <-> v = PStatus ACTIVE /\ active_staff_orgs (database env) uid <> []).
  { unfold staff_guard_rejects. rewrite staff_guard_run.
    destruct Hv as [->|[i ->]]; cbn.
    - split; [discriminate|]. intros [? _]. discriminate.
    - destruct (decide (i = ACTIVE)) as [->|Hi].
      + rewrite bool_decide_eq_true_2 by done. cbn.
        destruct (active_staff_orgs _ _) as [|o l]; cbn.
        * split; [discriminate|]. intros [_ ?]. done.
        * split; [done|]. intros _. reflexivity.
      + rewrite bool_decide_eq_false_2 by done. cbn.
        split; [discriminate|]. intros [? _]. congruence. }
  repeat apply conj.
  - intros H. apply Hiff in H as [? ?]. split; [done|].
    by apply active_staff_orgs_nonempty.
  - intros [? ?]. apply Hiff. split; [done|]. by apply active_staff_orgs_nonempty.
  - unfold staff_guard_rejects. rewrite staff_guard_run.
    destruct Hv as [->|[i ->]]; cbn; [done|].
    destruct (bool_decide (i = ACTIVE) && _); [|done].
    intros H. by destruct H.
  - apply staff_guard_state.
  - intros target H. apply Hiff. split; [apply H|].
    by eapply second_staff_org_active.
Qed.

(** C3, as stated, fails: approving bob in the ordinary org 1 is rejected
    by the guard although it leaves him ACTIVE in one staff-tier org. *)
Lemma staff_guard_rejects_ordinary_org :
  ~ (staff_guard_rejects (env_of owner_ctx staff_tables) (PStatus ACTIVE) 8 a_coordinator
     <-> second_staff_org staff_tables 8 ordinary_org (PStatus ACTIVE)).
Proof.
  intros [H _].
  assert (Hr : staff_guard_rejects (env_of owner_ctx staff_tables) (PStatus ACTIVE) 8
                 a_coordinator) by (vm_compute; reflexivity).
  apply H in Hr as [_ Hlen]. vm_compute in Hlen. lia.
Qed.

Lemma staff_guard_iff_witness :
  staff_guard_rejects (env_of owner_ctx staff_tables) (PStatus ACTIVE) 8 a_coordinator
  /\ (_check_if_add_user_has_active_staff_org (env_of owner_ctx staff_tables)
        (PStatus INACTIVE) 8 a_coordinator) = (Ok tt, a_coordinator).
Proof.
  split.
  - apply (staff_guard_iff (env_of owner_ctx staff_tables) (PStatus ACTIVE) 8 a_coordinator).
    + right. by exists ACTIVE.
    + split; [reflexivity|].
      exists {| rec_id := 10; rec_type_code := SBC_STAFF |},
             {| rec_user_id := 8; rec_org_id := 10; rec_status := ACTIVE |}.
      repeat apply conj; try reflexivity; apply list_elem_of_In; vm_compute; tauto.
  - apply (staff_guard_iff (env_of owner_ctx staff_tables) (PStatus INACTIVE) 8 a_coordinator).
    + right. by exists INACTIVE.
    + intros H.
      apply (staff_guard_iff (env_of owner_ctx staff_tables) (PStatus INACTIVE) 8
               a_coordinator) in H as [H _]; [discriminate|].
      right. by exists INACTIVE.
Defined.
End staff_uniqueness.

(** ** Authorization by passcode *)

Section passcode.
Import Py Affiliation.

Variable validate : option string -> option string -> bool.
Variable firms_party : string -> option string -> result bool.

(** The contract of the comparison: a supplied passcode matches no
    absent or empty stored passcode. *)
Hypothesis validate_empty_stored :
  forall p stored, supplied p = true -> supplied stored = false -> validate p stored = false.

(** C8.  For a caller without a bypass role and an entity that is neither
    SP nor GP, a supplied passcode authorizes exactly when it matches the
    stored one; against an absent or empty stored passcode it does not. *)
Theorem is_authorized_passcode (ctx : AuthContext) (entity : EntityModel) (p : option string) :
  has_role_to_skip_auth ctx = false ->
  corp_type entity ∉ ["SP"; "GP"] ->
  supplied p = true ->
  is_authorized validate firms_party ctx entity p = Ok (validate p (pass_code entity))
  /\ (supplied (pass_code entity) = false ->
      is_authorized validate firms_party ctx entity p = Ok false).
Proof.
  intros Hskip Hcorp Hp.
  assert (Hrun : is_authorized validate firms_party ctx entity p
                 = Ok (validate p (pass_code entity))).
  { unfold is_authorized. rewrite Hskip, Hp.
    by rewrite bool_decide_eq_false_2. }
  split; [exact Hrun|].
  intros Hstored. rewrite Hrun. f_equal. by apply validate_empty_stored.
Qed.
End passcode.

Section passcode_example.
Import Py Affiliation.

Lemma validate_passcode_empty_stored p stored :
  supplied p = true -> supplied stored = false -> validate_passcode p stored = false.
Proof.
  destruct p as [p|], stored as [h|]; cbn; try done.
  intros _ Hh. apply negb_false_iff in Hh. rewrite Hh.
  by rewrite andb_false_r.
Qed.

Lemma is_authorized_passcode_witness :
  is_authorized validate_passcode (fun _ _ => Ok false) plain_caller no_stored_passcode
    (Some "1234") = Ok false.
Proof.
  apply (is_authorized_passcode validate_passcode (fun _ _ => Ok false)
           validate_passcode_empty_stored plain_caller no_stored_passcode (Some "1234")).
  - reflexivity.
  - vm_compute. intros H. inversion H as [|? ? ? H']; subst.
    inversion H' as [|? ? ? H'']; subst. inversion H''.
  - reflexivity.
  - reflexivity.
Defined.
End passcode_example.

(** ** One pass of [_combine_nrs] over a record *)

Section linking.
Import Py Affiliation.
Implicit Types (s : Store) (h : list Entity) (e : Entity) (b r : nat) (flag : bool).

Lemma abind_run {S A B} (c : Py.M S A) (k : A -> Py.M S B) (x : S) :
  (c ≫= k) x = match c x with (Ok a, x') => k a x' | (Raise e, x') => (Raise e, x') end.
Proof. reflexivity. Qed.

Lemma deref_insert_eq h b e : b < length h -> deref (<[b := e]> h) b = e.
Proof.
  intros Hb. unfold deref. apply list_lookup_total_correct.
  by apply list_lookup_insert_eq.
Qed.

Lemma deref_insert_ne h b r e : b <> r -> deref (<[b := e]> h) r = deref h r.
Proof. intros Hne. unfold deref. by rewrite list_lookup_total_insert_ne. Qed.

Lemma set_nameRequest_fields e nr :
  nrNumber (set_nameRequest e nr) = nrNumber e
  /\ nameRequest (set_nameRequest e nr) = Some nr
  /\ draftType (set_nameRequest e nr) = draftType e.
Proof. done. Qed.

Lemma linked_fields e nr e2 :
  linked e nr = Ok e2 ->
  nrNumber e2 = nrNumber e /\ nameRequest e2 = Some nr /\ identifier e2 = identifier e.
Proof.
  unfold linked. cbn.
  destruct (truthy _); [|by intros [= <-]].
  destruct (request_action_cd nr); [|done].
  case_bool_decide; by intros [= <-].
Qed.

(** The loop body computes [visit]. *)
Lemma body_visit flag b s :
  b < length (heap s) ->
  match visit flag b s with
  | Ok s' => body flag b s = (Ok tt, s')
  | Raise x => (body flag b s).1 = Raise x
  end.
Proof.
  intros Hb.
  unfold visit, body, _process_nr_for_business, _update_draft_type_for_amalgamation_nr,
    drafts_remove, del_name_request, store, load, linked.
  cbv beta iota delta [mbind M_bind bind mret M_ret ret raise lift gets modify when
                       subscript id default from_option].
  cbn [heap name_requests drafts draftType nameRequest set_nameRequest set_draftType
       negb andb fst snd].
  repeat
    (match goal with
     | |- context [deref (<[?b := ?e]> ?h) ?b] =>
         rewrite (deref_insert_eq h b e) by (rewrite ?length_insert; exact Hb)
     | |- context [<[?b := ?e]> (<[?b := ?e']> ?h)] => rewrite list_insert_insert_eq
     | |- context [match nrNumber ?x with _ => _ end] => destruct (nrNumber x) eqn:?
     | |- context [if truthy ?x then _ else _] => destruct (truthy x) eqn:?
     | |- context [match dict_lookup ?k ?d with _ => _ end] =>
         destruct (dict_lookup k d) eqn:?
     | |- context [match nameRequest ?x with _ => _ end] => destruct (nameRequest x) eqn:?
     | |- context [match request_action_cd ?x with _ => _ end] =>
         destruct (request_action_cd x) eqn:?
     | |- context [match stateCd ?x with _ => _ end] => destruct (stateCd x) eqn:?
     | |- context [if bool_decide ?P then _ else _] => destruct (bool_decide P) eqn:?
     | |- context [match list_remove ?h ?x ?l with _ => _ end] =>
         destruct (list_remove h x l) eqn:?
     | |- context [if ?f && list_contains ?h ?x ?l then _ else _] =>
         destruct f; cbn [andb]
     | |- context [if list_contains ?h ?x ?l then _ else _] =>
         destruct (list_contains h x l) eqn:?
     end;
     simplify_eq;
     cbn [heap name_requests drafts draftType nameRequest set_nameRequest set_draftType
          negb andb fst snd]);
  try reflexivity.
Qed.
End linking.

(** ** The loop of [_combine_nrs] *)

Section combine_loop.
Import Py Affiliation.
Implicit Types (s : Store) (h : list Entity) (e v : Entity) (b r : nat) (flag : bool)
  (ids l : list nat).

Lemma visit_length flag b s s' :
  visit flag b s = Ok s' -> length (heap s') = length (heap s).
Proof.
  unfold visit, with_drafts. intros H.
  repeat case_match; simplify_eq; cbn; by rewrite ?length_insert.
Qed.

Lemma for_each_visits flag ids s :
  Forall (fun b => b < length (heap s)) ids ->
  match visits flag ids s with
  | Ok s' => for_each ids (body flag) s = (Ok tt, s')
  | Raise x => (for_each ids (body flag) s).1 = Raise x
  end.
Proof.
  revert s. induction ids as [|b ids IH]; intros s Hids; cbn [visits for_each]; [done|].
  apply Forall_cons in Hids as [Hb Hids].
  pose proof (body_visit flag b s Hb) as Hbody.
  unfold bind. destruct (visit flag b s) as [s1|x] eqn:Hv.
  - rewrite Hbody. apply IH.
    by rewrite (visit_length _ _ _ _ Hv).
  - destruct (body flag b s) as [[[]|x'] s1]; cbn in Hbody; by simplify_eq.
Qed.

Lemma combine_nrs_visits businesses flag s :
  Forall (fun b => b < length (heap s)) (drafts s ++ businesses) ->
  match visits flag (drafts s ++ businesses) s with
  | Ok s' => _combine_nrs businesses flag s = (Ok (assemble businesses s'), s')
  | Raise x => (_combine_nrs businesses flag s).1 = Raise x
  end.
Proof.
  intros Hids. pose proof (for_each_visits flag _ s Hids) as Hloop.
  unfold _combine_nrs. rewrite abind_run. cbn [gets].
  rewrite abind_run. fold (body flag).
  destruct (visits flag (drafts s ++ businesses) s) as [s'|x].
  - rewrite Hloop. reflexivity.
  - destruct (for_each _ _ s) as [[[]|x'] s1]; cbn in Hloop; by simplify_eq.
Qed.

Lemma fresh_store_refs nrs (bs ds : list Entity) :
  Forall (fun b => b < length (heap (fresh_store nrs bs ds)))
         (drafts (fresh_store nrs bs ds) ++ business_refs bs ds).
Proof.
  unfold fresh_store, business_refs. cbn. rewrite length_app.
  apply Forall_app. split; apply Forall_forall; intros b Hb;
    apply elem_of_seq in Hb; lia.
Qed.

(** [combine_grouped] is the loop over the draft references followed by
    the business references. *)
Lemma combine_grouped_visits nrs (bs ds : list Entity) flag :
  match visits flag (seq 0 (length ds) ++ business_refs bs ds) (fresh_store nrs bs ds) with
  | Ok s' => combine_grouped nrs bs ds flag = (Ok (assemble (business_refs bs ds) s'), s')
  | Raise x => (combine_grouped nrs bs ds flag).1 = Raise x
  end.
Proof.
  apply (combine_nrs_visits (business_refs bs ds) flag (fresh_store nrs bs ds)).
  apply fresh_store_refs.
Qed.

Lemma visits_app flag ids1 ids2 s :
  visits flag (ids1 ++ ids2) s
  = match visits flag ids1 s with
    | Ok s' => visits flag ids2 s'
    | Raise x => Raise x
    end.
Proof.
  revert s. induction ids1 as [|b ids1 IH]; intros s; cbn; [done|].
  destruct (visit flag b s); [apply IH|done].
Qed.
End combine_loop.

(** ** Records that take no part in linking *)

Section unresolved_records.
Import Py Affiliation.
Implicit Types (s : Store) (h : list Entity) (e v x : Entity) (b r : nat) (flag : bool)
  (ids l : list nat) (d : list (jval * Entity)).

Lemma dict_lookup_del_none (k n : jval) d :
  dict_lookup n d = None -> dict_lookup n (dict_del k d) = None.
Proof.
  induction d as [|[k' v'] d IH]; cbn; [done|].
  destruct (decide (k' = n)); [done|].
  intros Hn. destruct (decide (k' = k)); [done|].
  cbn. destruct (decide (k' = n)); [done|]. by apply IH.
Qed.

Lemma unresolved_del k d v : unresolved d v -> unresolved (dict_del k d) v.
Proof. intros Hv n Hn Ht. apply dict_lookup_del_none. by apply Hv. Qed.

Lemma has_reference_spec e :
  has_reference e = true <-> exists n, nrNumber e = Some n /\ truthy n = true.
Proof.
  unfold has_reference. destruct (nrNumber e) as [n|]; cbn.
  - split; [by exists n|]. by intros (? & [= <-] & ?).
  - split; [done|]. by intros (? & ? & ?).
Qed.

Lemma list_remove_other h x v l l' :
  list_remove h x l = Some l' -> x <> v -> refs_to h v l' = refs_to h v l.
Proof.
  unfold refs_to.
  revert l'. induction l as [|r l IH]; intros l' Hrm Hne; cbn in Hrm; [done|].
  case_bool_decide as Hr.
  - simplify_eq. cbn. rewrite bool_decide_eq_false_2; [done|]. congruence.
  - destruct (list_remove h x l) as [l1|]; cbn in Hrm; [|done]. simplify_eq.
    cbn. rewrite (IH l1) by done. done.
Qed.

Lemma list_remove_same h v l l' :
  list_remove h v l = Some l' -> length (refs_to h v l) = S (length (refs_to h v l')).
Proof.
  unfold refs_to.
  revert l'. induction l as [|r l IH]; intros l' Hrm; cbn in Hrm; [done|].
  cbn. case_bool_decide as Hr.
  - by simplify_eq.
  - destruct (list_remove h v l) as [l1|]; cbn in Hrm; [|done]. simplify_eq.
    cbn. rewrite bool_decide_eq_false_2 by done. by apply IH.
Qed.

Lemma list_remove_keeps h x l l' r :
  list_remove h x l = Some l' -> r ∈ l -> deref h r <> x -> r ∈ l'.
Proof.
  revert l'. induction l as [|r' l IH]; intros l' Hrm Hin Hne; cbn in Hrm; [done|].
  case_bool_decide as Hr.
  - simplify_eq. apply elem_of_cons in Hin as [->|Hin]; [done|done].
  - destruct (list_remove h x l) as [l1|]; cbn in Hrm; [|done]. simplify_eq.
    apply elem_of_cons in Hin as [->|Hin]; [left|right; by apply IH].
Qed.

Lemma list_remove_subset h x l l' r :
  list_remove h x l = Some l' -> r ∈ l' -> r ∈ l.
Proof.
  revert l'. induction l as [|r' l IH]; intros l' Hrm Hin; cbn in Hrm; [done|].
  case_bool_decide as Hr.
  - simplify_eq. by right.
  - destruct (list_remove h x l) as [l1|]; cbn in Hrm; [|done]. simplify_eq.
    apply elem_of_cons in Hin as [->|Hin]; [left|right; by eapply IH].
Qed.

Lemma list_contains_false h v l :
  list_contains h v l = false -> refs_to h v l = [].
Proof.
  unfold refs_to. induction l as [|r l IH]; cbn; [done|].
  intros H. apply orb_false_iff in H as [Hr Hl]. rewrite Hr. by apply IH.
Qed.

Lemma list_contains_remove h x l :
  list_contains h x l = true -> exists l', list_remove h x l = Some l'.
Proof.
  induction l as [|r l IH]; cbn; [done|].
  case_bool_decide; [by eexists|]. cbn. intros Hl.
  destruct (IH Hl) as [l' ->]. by eexists.
Qed.

Lemma list_remove_elem h x l r :
  r ∈ l -> deref h r = x -> exists l', list_remove h x l = Some l'.
Proof.
  induction l as [|r' l IH]; intros Hin Hr; [by apply elem_of_nil in Hin|].
  cbn. case_bool_decide; [by eexists|].
  apply elem_of_cons in Hin as [->|Hin]; [done|].
  destruct (IH Hin Hr) as [l' ->]. by eexists.
Qed.

Lemma refs_to_same h h' v l : same_objects h h' v -> refs_to h' v l = refs_to h v l.
Proof.
  intros Hsame. unfold refs_to. induction l as [|r l IH]; cbn; [done|].
  rewrite IH. destruct (decide (deref h r = v)) as [Hr|Hr].
  - rewrite !bool_decide_eq_true_2; [done|done|by apply Hsame].
  - rewrite !bool_decide_eq_false_2; [done|done|]. intros Hr'. by apply Hr, Hsame.
Qed.

Lemma same_objects_insert h b e2 v :
  b < length h -> deref h b <> v -> e2 <> v -> same_objects h (<[b := e2]> h) v.
Proof.
  intros Hb He He2 r. destruct (decide (b = r)) as [<-|Hne].
  - rewrite deref_insert_eq by done. split; intros; by subst.
  - by rewrite deref_insert_ne.
Qed.

(** One pass of the loop and a record [v] that does not resolve. *)
Lemma visit_unresolved flag b s s' v :
  b < length (heap s) ->
  unresolved (name_requests s) v ->
  visit flag b s = Ok s' ->
  unresolved (name_requests s') v
  /\ same_objects (heap s) (heap s') v
  /\ (deref (heap s) b <> v ->
      refs_to (heap s) v (drafts s') = refs_to (heap s) v (drafts s))
  /\ (deref (heap s) b = v ->
      if flag && has_reference v
      then length (refs_to (heap s) v (drafts s'))
           = pred (length (refs_to (heap s) v (drafts s)))
      else drafts s' = drafts s)
  /\ (flag && has_reference v = false ->
      forall r0, r0 ∈ drafts s -> deref (heap s) r0 = v -> r0 ∈ drafts s').
Proof.
  intros Hb Hv Hvisit. unfold visit in Hvisit.
  destruct (nrNumber (deref (heap s) b)) as [n|] eqn:Hn.
  2:{ simplify_eq. repeat apply conj; try done.
      intros He. assert (has_reference v = false) as ->.
      { unfold has_reference. by rewrite <- He, Hn. }
      by rewrite andb_false_r. }
  destruct (truthy n) eqn:Htn.
  2:{ simplify_eq. repeat apply conj; try done.
      intros He. assert (has_reference v = false) as ->.
      { unfold has_reference. rewrite <- He, Hn. exact Htn. }
      by rewrite andb_false_r. }
  assert (Href : forall x, nrNumber x = Some n -> has_reference x = true).
  { intros x Hx. unfold has_reference. by rewrite Hx. }
  destruct (dict_lookup n (name_requests s)) as [record|] eqn:Hlook.
  - (* the reference resolves: the record is not [v] *)
    destruct (nameRequest record) as [nr|]; [|done].
    destruct (linked (deref (heap s) b) nr) as [e2|] eqn:Hlinked; [|done].
    destruct (stateCd nr) as [st|]; [|done].
    apply linked_fields in Hlinked as (Hn2 & _ & _).
    assert (He : deref (heap s) b <> v).
    { intros <-. specialize (Hv n Hn Htn). congruence. }
    assert (He2 : e2 <> v).
    { intros <-. rewrite Hn in Hn2. specialize (Hv n Hn2 Htn). congruence. }
    pose proof (same_objects_insert (heap s) b e2 v Hb He He2) as Hsame.
    assert (Hdrafts : refs_to (heap s) v (drafts s') = refs_to (heap s) v (drafts s)
                      /\ (forall r0, r0 ∈ drafts s -> deref (heap s) r0 = v -> r0 ∈ drafts s')
                      /\ name_requests s' = dict_del n (name_requests s)
                      /\ heap s' = <[b := e2]> (heap s)).
    { destruct (bool_decide (st = JStr CONSUMED)).
      - destruct (list_remove _ e2 (drafts s)) as [l|] eqn:Hrm; [|done].
        simplify_eq. cbn [heap drafts name_requests]. repeat apply conj; try done.
        + rewrite <- (refs_to_same _ _ v l Hsame), <- (refs_to_same _ _ v (drafts s) Hsame).
          by eapply list_remove_other.
        + intros r0 Hr0 Hd. eapply list_remove_keeps; [done|done|].
          intros Heq. apply He2. rewrite <- Heq. by apply Hsame.
      - by simplify_eq. }
    destruct Hdrafts as (Hrefs & Hkeep & Hnrs & Hheap).
    rewrite Hnrs, Hheap. repeat apply conj; try done.
    by apply unresolved_del.
  - (* the reference does not resolve *)
    destruct (flag && list_contains (heap s) (deref (heap s) b) (drafts s)) eqn:Hfc.
    + apply andb_true_iff in Hfc as [-> Hc].
      destruct (list_remove _ _ (drafts s)) as [l|] eqn:Hrm; [|done].
      simplify_eq. cbn [heap drafts name_requests with_drafts].
      repeat apply conj; try done.
      * intros He. by eapply list_remove_other.
      * intros He. rewrite <- He, (Href _ Hn). cbn.
        by rewrite (list_remove_same _ _ _ _ Hrm).
      * intros Hf r0 Hr0 Hd. eapply list_remove_keeps; [done|done|].
        intros Heq. rewrite <- Hd, Heq, (Href _ Hn) in Hf. done.
    + simplify_eq. repeat apply conj; try done.
      intros He. destruct flag; cbn in *; [|done].
      rewrite <- He, (Href _ Hn), (list_contains_false _ _ _ Hfc). done.
Qed.
End unresolved_records.

(** ** Stale drafts *)

Section stale_drafts.
Import Py Affiliation.
Implicit Types (s : Store) (h : list Entity) (e v x d : Entity) (b r : nat) (flag : bool)
  (ids l : list nat) (nrs : list (jval * Entity)) (bs ds : list Entity).

Lemma valid_refs_visit flag b s s' ids :
  visit flag b s = Ok s' -> valid_refs s ids -> valid_refs s' ids.
Proof. intros Hv. unfold valid_refs. by rewrite (visit_length _ _ _ _ Hv). Qed.

Lemma same_objects_trans h1 h2 h3 v :
  same_objects h1 h2 v -> same_objects h2 h3 v -> same_objects h1 h3 v.
Proof. intros H12 H23 r. split; intros H; [apply H12, H23, H | apply H23, H12, H]. Qed.

Lemma visits_unresolved flag ids s s' v :
  valid_refs s ids ->
  unresolved (name_requests s) v ->
  visits flag ids s = Ok s' ->
  unresolved (name_requests s') v /\ same_objects (heap s) (heap s') v.
Proof.
  revert s. induction ids as [|b ids IH]; intros s Hids Hv Hrun; cbn in Hrun.
  - by simplify_eq.
  - apply Forall_cons in Hids as [Hb Hids].
    destruct (visit flag b s) as [s1|] eqn:Hvisit; [|done].
    destruct (visit_unresolved flag b s s1 v Hb Hv Hvisit) as (Hv1 & Hsame & _).
    destruct (IH s1 (valid_refs_visit _ _ _ _ _ Hvisit Hids) Hv1 Hrun) as [Hv' Hsame'].
    split; [done|]. by eapply same_objects_trans.
Qed.

(** With [remove_stale_drafts], every pass over an object equal to [v]
    removes one such object from [drafts]. *)
Lemma visits_stale_removed ids s s' v :
  valid_refs s ids ->
  unresolved (name_requests s) v ->
  has_reference v = true ->
  visits true ids s = Ok s' ->
  length (refs_to (heap s) v (drafts s)) <= length (refs_to (heap s) v ids) ->
  refs_to (heap s') v (drafts s') = [].
Proof.
  revert s. induction ids as [|b ids IH]; intros s Hids Hv Href Hrun Hlen; cbn in Hrun.
  - simplify_eq. cbn in Hlen. apply length_zero_iff_nil. lia.
  - apply Forall_cons in Hids as [Hb Hids].
    destruct (visit true b s) as [s1|] eqn:Hvisit; [|done].
    destruct (visit_unresolved true b s s1 v Hb Hv Hvisit)
      as (Hv1 & Hsame & Hother & Hthis & _).
    apply (IH s1); try done; [by eapply valid_refs_visit|].
    rewrite !(refs_to_same _ _ v _ Hsame).
    unfold refs_to in Hlen at 2. cbn [List.filter] in Hlen. fold (refs_to (heap s) v ids) in Hlen.
    destruct (decide (deref (heap s) b = v)) as [He|He].
    + rewrite bool_decide_eq_true_2 in Hlen by done. cbn [length] in Hlen.
      specialize (Hthis He). rewrite Href in Hthis. cbn in Hthis. lia.
    + rewrite bool_decide_eq_false_2 in Hlen by done.
      by rewrite (Hother He).
Qed.

(** Without it, or for a record that carries no reference, the object
    stays in [drafts]. *)
Lemma visits_kept flag ids s s' v r0 :
  valid_refs s ids ->
  unresolved (name_requests s) v ->
  flag && has_reference v = false ->
  r0 ∈ drafts s -> deref (heap s) r0 = v ->
  visits flag ids s = Ok s' ->
  r0 ∈ drafts s' /\ deref (heap s') r0 = v.
Proof.
  revert s. induction ids as [|b ids IH]; intros s Hids Hv Hf Hr0 Hd Hrun; cbn in Hrun.
  - by simplify_eq.
  - apply Forall_cons in Hids as [Hb Hids].
    destruct (visit flag b s) as [s1|] eqn:Hvisit; [|done].
    destruct (visit_unresolved flag b s s1 v Hb Hv Hvisit)
      as (Hv1 & Hsame & _ & _ & Hkeep).
    apply (IH s1); try done.
    + by eapply valid_refs_visit.
    + by apply Hkeep.
    + by apply Hsame.
Qed.

Lemma fresh_store_draft nrs bs ds d :
  d ∈ ds ->
  exists r0, r0 ∈ drafts (fresh_store nrs bs ds)
             /\ deref (heap (fresh_store nrs bs ds)) r0 = d.
Proof.
  intros Hd. apply list_elem_of_lookup in Hd as [r0 Hr0].
  exists r0. cbn. split.
  - apply elem_of_seq. apply lookup_lt_Some in Hr0. lia.
  - unfold deref. apply list_lookup_total_correct. by apply lookup_app_l_Some.
Qed.
End stale_drafts.

(** ** The grouped name requests *)

Section grouping.
Import Py Affiliation.
Implicit Types (s : Store) (e v : Entity) (b r : nat) (flag : bool) (k n : jval)
  (d : list (jval * Entity)).

Lemma dict_lookup_none k d : dict_lookup k d = None <-> k ∉ dict_keys d.
Proof.
  unfold dict_keys. induction d as [|[k' v'] d IH]; cbn.
  - split; [intros _; apply not_elem_of_nil|done].
  - destruct (decide (k' = k)) as [->|Hne].
    + split; [done|]. intros Hk. exfalso. apply Hk. left.
    + rewrite IH, not_elem_of_cons.
      split; [intros ?; split; [congruence|done]|by intros [_ ?]].
Qed.

Lemma dict_keys_set k (x : Entity) d :
  dict_keys (dict_set k x d)
  = if bool_decide (k ∈ dict_keys d) then dict_keys d else dict_keys d ++ [k].
Proof.
  unfold dict_keys. induction d as [|[k' v'] d IH]; cbn.
  - rewrite bool_decide_eq_false_2; [done|apply not_elem_of_nil].
  - destruct (decide (k' = k)) as [->|Hne]; cbn.
    + rewrite bool_decide_eq_true_2; [done|left].
    + rewrite IH. case_bool_decide as Hk.
      * rewrite bool_decide_eq_true_2; [done|by right].
      * rewrite bool_decide_eq_false_2; [done|]. rewrite not_elem_of_cons.
        split; [congruence|done].
Qed.

Lemma dict_set_NoDup k (x : Entity) d :
  NoDup (dict_keys d) -> NoDup (dict_keys (dict_set k x d)).
Proof.
  intros Hd. rewrite dict_keys_set. case_bool_decide as Hk; [done|].
  apply NoDup_app. split; [done|]. split; [|apply NoDup_singleton].
  intros y Hy Hy'. apply list_elem_of_singleton in Hy' as ->. done.
Qed.

Lemma dict_set_well_keyed k nr d :
  nrNum nr = Some k -> well_keyed d -> well_keyed (dict_set k (standalone nr) d).
Proof.
  intros Hk. unfold well_keyed. induction d as [|[k' v'] d IH]; cbn; intros Hd.
  - apply Forall_cons. split; [by exists nr|done].
  - apply Forall_cons in Hd as [Hhd Htl].
    destruct (decide (k' = k)) as [->|Hne]; apply Forall_cons; split; try done.
    + by exists nr.
    + by apply IH.
Qed.

Lemma dict_del_sublist k d : sublist (dict_del k d) d.
Proof.
  induction d as [|[k' v'] d IH]; cbn; [done|].
  destruct (decide (k' = k)); [by apply sublist_cons|by apply sublist_skip].
Qed.

Lemma dict_del_NoDup k d : NoDup (dict_keys d) -> NoDup (dict_keys (dict_del k d)).
Proof.
  intros Hd. apply (sublist_NoDup _ _ Hd). unfold dict_keys.
  apply fmap_sublist, dict_del_sublist.
Qed.

Lemma dict_del_well_keyed k d : well_keyed d -> well_keyed (dict_del k d).
Proof.
  unfold well_keyed. rewrite !Forall_forall. intros Hd p Hp.
  apply Hd. eapply elem_of_sublist; [exact Hp|apply dict_del_sublist].
Qed.

Lemma dict_lookup_del k d : NoDup (dict_keys d) -> dict_lookup k (dict_del k d) = None.
Proof.
  unfold dict_keys. induction d as [|[k' v'] d IH]; cbn; [done|].
  intros Hd. apply NoDup_cons in Hd as [Hk' Hd].
  destruct (decide (k' = k)) as [->|Hne].
  - by apply dict_lookup_none.
  - cbn. destruct (decide (k' = k)); [done|]. by apply IH.
Qed.

Lemma add_name_requests_inv d l :
  NoDup (dict_keys d) -> well_keyed d ->
  NoDup (dict_keys (add_name_requests d l)) /\ well_keyed (add_name_requests d l).
Proof.
  unfold add_name_requests. revert d. induction l as [|nr l IH]; intros d Hnd Hwk; cbn; [done|].
  destruct (nrNum nr) as [k|] eqn:Hk; [|by apply IH].
  apply IH; [by apply dict_set_NoDup|by apply dict_set_well_keyed].
Qed.

Lemma group_details_inv details nrs bs ds :
  _group_details details = (nrs, bs, ds) ->
  NoDup (dict_keys nrs) /\ well_keyed nrs.
Proof.
  unfold _group_details.
  assert (Hgen : forall acc : list (jval * Entity) * list Entity * list Entity,
             NoDup (dict_keys acc.1.1) -> well_keyed acc.1.1 ->
             forall nrs bs ds,
             foldl (fun '(name_requests, businesses, drafts) data =>
                      let name_requests :=
                        add_name_requests name_requests (snd (_extract_name_requests data)) in
                      match data with
                      | RespList _ => (name_requests, businesses, drafts)
                      | RespDict _ _ bs ds =>
                          (name_requests, businesses ++ default [] bs, drafts ++ default [] ds)
                      end) acc details = (nrs, bs, ds) ->
             NoDup (dict_keys nrs) /\ well_keyed nrs).
  { induction details as [|data details IH]; intros [[nrs0 bs0] ds0] Hnd Hwk nrs' bs' ds';
      cbn [foldl]; [by intros [= <- <- <-]|].
    intros Hrun.
    destruct (add_name_requests_inv nrs0 (snd (_extract_name_requests data)) Hnd Hwk)
      as [Hnd' Hwk'].
    destruct data; (eapply IH; [| |exact Hrun]); done. }
  intros Hrun. eapply (Hgen ([], [], [])); [apply NoDup_nil_2|apply Forall_nil_2|exact Hrun].
Qed.
End grouping.

(** ** What the loop keeps of the mapping and of the records *)

Section linked_numbers.
Import Py Affiliation.
Implicit Types (s : Store) (h : list Entity) (e v x : Entity) (b r : nat) (flag : bool)
  (k n : jval) (ids l : list nat) (d : list (jval * Entity)).

Lemma dict_lookup_sublist n d d' :
  sublist d' d -> dict_lookup n d = None -> dict_lookup n d' = None.
Proof.
  rewrite !dict_lookup_none. intros Hsub Hn Hn'. apply Hn.
  eapply elem_of_sublist; [exact Hn'|]. unfold dict_keys. by apply fmap_sublist.
Qed.

Lemma sublist_well_keyed d d' : sublist d' d -> well_keyed d -> well_keyed d'.
Proof.
  unfold well_keyed. rewrite !Forall_forall. intros Hsub Hd p Hp.
  apply Hd. by eapply elem_of_sublist.
Qed.

Lemma sublist_keys_NoDup d d' :
  sublist d' d -> NoDup (dict_keys d) -> NoDup (dict_keys d').
Proof.
  intros Hsub Hd. apply (sublist_NoDup _ _ Hd). unfold dict_keys. by apply fmap_sublist.
Qed.

(** One pass: the mapping only loses keys, no record changes its number,
    the number of the visited record is no key afterwards, and [drafts]
    only loses references. *)
Lemma visit_numbers flag b s s' :
  b < length (heap s) ->
  NoDup (dict_keys (name_requests s)) ->
  visit flag b s = Ok s' ->
  sublist (name_requests s') (name_requests s)
  /\ (forall r, nrNumber (deref (heap s') r) = nrNumber (deref (heap s) r))
  /\ (forall n, nrNumber (deref (heap s) b) = Some n -> truthy n = true ->
                dict_lookup n (name_requests s') = None)
  /\ (forall r, r ∈ drafts s' -> r ∈ drafts s).
Proof.
  intros Hb Hnd Hvisit. unfold visit in Hvisit.
  destruct (nrNumber (deref (heap s) b)) as [n|] eqn:Hn.
  2:{ simplify_eq. repeat apply conj; done. }
  destruct (truthy n) eqn:Htn.
  2:{ simplify_eq. repeat apply conj; try done. intros n' [= <-] Hn'. congruence. }
  destruct (dict_lookup n (name_requests s)) as [record|] eqn:Hlook.
  - destruct (nameRequest record) as [nr|]; [|done].
    destruct (linked (deref (heap s) b) nr) as [e2|] eqn:Hlinked; [|done].
    destruct (stateCd nr) as [st|]; [|done].
    apply linked_fields in Hlinked as (Hn2 & _ & _).
    assert (Hshape : name_requests s' = dict_del n (name_requests s)
                     /\ heap s' = <[b := e2]> (heap s)
                     /\ (forall r, r ∈ drafts s' -> r ∈ drafts s)).
    { destruct (bool_decide (st = JStr CONSUMED)).
      - destruct (list_remove _ e2 (drafts s)) as [l|] eqn:Hrm; [|done].
        simplify_eq. cbn [heap drafts name_requests]. repeat apply conj; try done.
        intros r Hr. by eapply list_remove_subset.
      - by simplify_eq. }
    destruct Hshape as (-> & -> & Hdrafts). repeat apply conj; try done.
    + apply dict_del_sublist.
    + intros r. destruct (decide (b = r)) as [<-|Hne].
      * by rewrite deref_insert_eq.
      * by rewrite deref_insert_ne.
    + intros n' [= <-] _. by apply dict_lookup_del.
  - destruct (flag && list_contains (heap s) (deref (heap s) b) (drafts s)).
    + destruct (list_remove _ _ (drafts s)) as [l|] eqn:Hrm; [|done].
      simplify_eq. cbn [heap drafts name_requests with_drafts].
      repeat apply conj; try done.
      * intros n' [= <-] _. done.
      * intros r Hr. by eapply list_remove_subset.
    + simplify_eq. repeat apply conj; try done. intros n' [= <-] _. done.
Qed.

Lemma visits_numbers flag ids s s' :
  valid_refs s ids ->
  NoDup (dict_keys (name_requests s)) ->
  visits flag ids s = Ok s' ->
  sublist (name_requests s') (name_requests s)
  /\ (forall r, nrNumber (deref (heap s') r) = nrNumber (deref (heap s) r))
  /\ (forall b n, b ∈ ids -> nrNumber (deref (heap s) b) = Some n -> truthy n = true ->
                  dict_lookup n (name_requests s') = None)
  /\ (forall r, r ∈ drafts s' -> r ∈ drafts s).
Proof.
  revert s. induction ids as [|b ids IH]; intros s Hids Hnd Hrun; cbn in Hrun.
  - simplify_eq. repeat apply conj; try done. intros b n Hb. by apply elem_of_nil in Hb.
  - apply Forall_cons in Hids as [Hb Hids].
    destruct (visit flag b s) as [s1|] eqn:Hvisit; [|done].
    destruct (visit_numbers flag b s s1 Hb Hnd Hvisit) as (Hsub1 & Hnum1 & Hthis & Hdr1).
    destruct (IH s1) as (Hsub & Hnum & Hrest & Hdr); [by eapply valid_refs_visit| |done|].
    { by eapply sublist_keys_NoDup. }
    repeat apply conj.
    + by etrans.
    + intros r. by rewrite Hnum, Hnum1.
    + intros b' n Hb' Hn Htn. apply elem_of_cons in Hb' as [->|Hb'].
      * eapply dict_lookup_sublist; [exact Hsub|]. by apply Hthis.
      * apply (Hrest b'); [done| |done]. by rewrite Hnum1.
    + intros r Hr. by apply Hdr1, Hdr.
Qed.

Lemma combine_details_visits details nrs bs ds flag res :
  _group_details details = (nrs, bs, ds) ->
  _combine_affiliation_details details flag = Ok res ->
  visits flag (seq 0 (length ds) ++ business_refs bs ds) (fresh_store nrs bs ds)
  = Ok (final_store nrs bs ds flag)
  /\ res = standalone_records (final_store nrs bs ds flag)
           ++ kept_drafts (final_store nrs bs ds flag)
           ++ business_records bs ds (final_store nrs bs ds flag).
Proof.
  intros Hgroup. unfold _combine_affiliation_details, final_store. rewrite Hgroup.
  intros Hres. pose proof (combine_grouped_visits nrs bs ds flag) as Hrun.
  destruct (visits flag _ (fresh_store nrs bs ds)) as [s'|x].
  - rewrite Hrun in Hres |- *. cbn [fst snd] in *. by simplify_eq.
  - rewrite Hrun in Hres. done.
Qed.
End linked_numbers.

(** ** The combined list *)

Section combined_list.
Import Py Affiliation.
Implicit Types (s : Store) (h : list Entity) (e v x d : Entity) (b r : nat) (flag : bool)
  (k n : jval) (ids l : list nat) (nrs : list (jval * Entity)) (bs ds : list Entity).

Lemma well_keyed_item_keys nrs :
  well_keyed nrs -> item_key <$> dict_values nrs = dict_keys nrs.
Proof.
  unfold well_keyed, dict_values, dict_keys.
  induction nrs as [|[k v] nrs IH]; intros Hwk; cbn; [done|].
  apply Forall_cons in Hwk as [(nr & Hv & Hk) Hwk]. cbn in Hv, Hk.
  rewrite IH by done. f_equal. subst v. unfold item_key. cbn. by rewrite Hk.
Qed.

Lemma well_keyed_no_reference nrs v :
  well_keyed nrs -> v ∈ dict_values nrs -> has_reference v = false.
Proof.
  unfold well_keyed, dict_values. rewrite Forall_forall. intros Hwk Hv.
  apply list_elem_of_fmap in Hv as (p & -> & Hp).
  destruct (Hwk p Hp) as (nr & -> & _). done.
Qed.

Lemma fresh_store_business nrs bs ds r :
  r ∈ business_refs bs ds -> deref (heap (fresh_store nrs bs ds)) r ∈ bs.
Proof.
  unfold business_refs. intros Hr. apply elem_of_seq in Hr. cbn [heap fresh_store].
  unfold deref. destruct (lookup_lt_is_Some_2 bs (r - length ds)) as [x Hx]; [lia|].
  rewrite (list_lookup_total_correct (ds ++ bs) r x).
  - by eapply list_elem_of_lookup_2.
  - rewrite lookup_app_r by lia. done.
Qed.

(** When the call returns, the combined list is the standalone
    name-request records, then the kept drafts, then the businesses.  No
    name-request number appears twice among the standalone records, and a
    number carried by a draft or a business of the list is the number of
    no standalone record. *)
Lemma combined_numbers details nrs bs ds flag res :
  _group_details details = (nrs, bs, ds) ->
  _combine_affiliation_details details flag = Ok res ->
  res = standalone_records (final_store nrs bs ds flag)
        ++ kept_drafts (final_store nrs bs ds flag)
        ++ business_records bs ds (final_store nrs bs ds flag)
  /\ NoDup (item_key <$> standalone_records (final_store nrs bs ds flag))
  /\ (forall e n,
        e ∈ kept_drafts (final_store nrs bs ds flag)
            ++ business_records bs ds (final_store nrs bs ds flag) ->
        nrNumber e = Some n -> truthy n = true ->
        n ∉ item_key <$> standalone_records (final_store nrs bs ds flag)).
Proof.
  intros Hgroup Hres.
  destruct (combine_details_visits _ _ _ _ _ _ Hgroup Hres) as [Hvisits ->].
  destruct (group_details_inv _ _ _ _ Hgroup) as [Hnd Hwk].
  pose proof (fresh_store_refs nrs bs ds) as Hvalid.
  destruct (visits_numbers _ _ _ _ Hvalid Hnd Hvisits) as (Hsub & Hnum & Hnone & Hdr).
  cbn [name_requests fresh_store] in Hsub.
  pose proof (sublist_well_keyed _ _ Hsub Hwk) as Hwk'.
  pose proof (sublist_keys_NoDup _ _ Hsub Hnd) as Hnd'.
  unfold standalone_records. rewrite (well_keyed_item_keys _ Hwk').
  split; [reflexivity|]. split; [exact Hnd'|].
  intros e n He Hn Htn. apply dict_lookup_none.
  assert (Hr : exists r, r ∈ drafts (fresh_store nrs bs ds) ++ business_refs bs ds
                         /\ e = deref (heap (final_store nrs bs ds flag)) r).
  { apply elem_of_app in He as [He|He];
      apply list_elem_of_fmap in He as (r & -> & Hr); exists r; (split; [|done]);
      apply elem_of_app; [left; by apply Hdr|by right]. }
  destruct Hr as (r & Hr & ->).
  apply (Hnone r n Hr); [|done]. by rewrite <- Hnum.
Qed.

(** C6, as the code has it.  A draft whose name-request number is not a
    key of the mapping is absent from the combined list when
    [remove_stale_drafts] is true, unless a business equal to it was
    grouped, and is present when it is false; a draft that carries no
    name-request number is present in both cases. *)
Theorem stale_drafts details nrs bs ds flag res d :
  _group_details details = (nrs, bs, ds) ->
  _combine_affiliation_details details flag = Ok res ->
  d ∈ ds ->
  unresolved nrs d ->
  (has_reference d = true -> flag = true -> d ∉ bs -> d ∉ res)
  /\ (has_reference d = false \/ flag = false -> d ∈ res).
Proof.
  intros Hgroup Hres Hd Hun.
  destruct (combine_details_visits _ _ _ _ _ _ Hgroup Hres) as [Hvisits ->].
  destruct (group_details_inv _ _ _ _ Hgroup) as [Hnd Hwk].
  pose proof (fresh_store_refs nrs bs ds) as Hvalid.
  destruct (visits_numbers _ _ _ _ Hvalid Hnd Hvisits) as (Hsub & _).
  cbn [name_requests fresh_store] in Hsub.
  pose proof (sublist_well_keyed _ _ Hsub Hwk) as Hwk'.
  destruct (visits_unresolved _ _ _ _ d Hvalid Hun Hvisits) as [_ Hsame].
  split.
  - intros Href -> Hbs Hin.
    apply elem_of_app in Hin as [Hin|Hin]; [|apply elem_of_app in Hin as [Hin|Hin]].
    + pose proof (well_keyed_no_reference _ _ Hwk' Hin). congruence.
    + assert (Hnil : refs_to (heap (final_store nrs bs ds true)) d
                             (drafts (final_store nrs bs ds true)) = []).
      { eapply visits_stale_removed; [exact Hvalid|exact Hun|exact Href|exact Hvisits|].
        cbn [drafts fresh_store]. unfold refs_to.
        rewrite List.filter_app, length_app. lia. }
      apply list_elem_of_fmap in Hin as (r & Hr & Hrin).
      assert (Hrin' : r ∈ refs_to (heap (final_store nrs bs ds true)) d
                                  (drafts (final_store nrs bs ds true))).
      { apply list_elem_of_In, filter_In. split; [by apply list_elem_of_In|].
        by apply bool_decide_eq_true. }
      rewrite Hnil in Hrin'. by apply elem_of_nil in Hrin'.
    + apply list_elem_of_fmap in Hin as (r & Hr & Hrin).
      apply Hbs. symmetry in Hr. apply Hsame in Hr. rewrite <- Hr.
      by apply fresh_store_business.
  - intros Hcase.
    destruct (fresh_store_draft nrs bs ds d Hd) as (r0 & Hr0 & Hderef).
    assert (Hf : flag && has_reference d = false).
    { destruct Hcase as [->| ->]; [apply andb_false_r|done]. }
    destruct (visits_kept flag _ _ _ d r0 Hvalid Hun Hf Hr0 Hderef Hvisits)
      as [Hin Hval].
    apply elem_of_app. right. apply elem_of_app. left.
    apply list_elem_of_fmap. by exists r0.
Qed.
End combined_list.

(** ** Registry responses *)

Section registry_examples.
Import Py Affiliation.

(** C6: a draft that carries no name-request number is in the combined
    list although stale drafts are to be removed. *)
Lemma unnumbered_draft_kept :
  _combine_affiliation_details unnumbered_draft true = Ok [draft "T1" None]
  /\ has_reference (draft "T1" None) = false.
Proof. split; vm_compute; reflexivity. Qed.

Lemma stale_drafts_witness :
  _group_details stale_draft
  = ([(JStr "NR1", standalone (payload "NR1" "APPROVED"))], [], [draft "T9" (Some "NR9")])
  /\ _combine_affiliation_details stale_draft true
     = Ok [standalone (payload "NR1" "APPROVED")]
  /\ draft "T9" (Some "NR9") ∉ [standalone (payload "NR1" "APPROVED")].
Proof.
  assert (Hgroup : _group_details stale_draft
    = ([(JStr "NR1", standalone (payload "NR1" "APPROVED"))], [],
       [draft "T9" (Some "NR9")])) by (vm_compute; reflexivity).
  assert (Hres : _combine_affiliation_details stale_draft true
     = Ok [standalone (payload "NR1" "APPROVED")]) by (vm_compute; reflexivity).
  split; [exact Hgroup|]. split; [exact Hres|].
  refine (proj1 (stale_drafts _ _ _ _ _ _ (draft "T9" (Some "NR9")) Hgroup Hres _ _) _ _ _).
  - left.
  - intros n [= <-] _. vm_compute. reflexivity.
  - reflexivity.
  - reflexivity.
  - apply not_elem_of_nil.
Defined.

(** C4: a business whose name request resolves and is consumed makes
    [drafts.remove] raise, as the business is no element of [drafts];
    with its draft listed, the draft takes the name request, is removed,
    and the business is kept as it was. *)
Theorem consumed_business_raises :
  _combine_affiliation_details consumed_business true = Raise ValueError
  /\ _combine_affiliation_details consumed_business false = Raise ValueError
  /\ _combine_affiliation_details consumed_draft_and_business true
     = Ok [business "BC1" (Some "NR1")].
Proof. repeat apply conj; vm_compute; reflexivity. Qed.
End registry_examples.

(** ** Ordering by creation time *)

Section ordering.
Import Py Affiliation.

Section sort_desc.
Context {A : Type} (key : A -> N).
Implicit Types (x y : A) (l : list A).

Lemma insert_desc_perm x l : insert_desc key x l ≡ₚ x :: l.
Proof.
  induction l as [|y l IH]; cbn; [done|].
  destruct (key x <? key y)%N; [|done].
  rewrite IH. apply Permutation_swap.
Qed.

Lemma sort_desc_perm l : sort_desc key l ≡ₚ l.
Proof.
  unfold sort_desc. induction l as [|x l IH]; cbn; [done|].
  by rewrite insert_desc_perm, IH.
Qed.

Lemma insert_desc_descending x l :
  descending key l -> descending key (insert_desc key x l).
Proof.
  unfold descending. induction l as [|y l IH]; intros Hl; cbn.
  - apply SSorted_cons; [apply SSorted_nil|apply List.Forall_nil].
  - apply StronglySorted_inv in Hl as [Hl Hy].
    destruct (key x <? key y)%N eqn:Hxy.
    + apply N.ltb_lt in Hxy. apply SSorted_cons; [by apply IH|].
      apply Forall_forall. intros z Hz.
      apply (elem_of_Permutation_proper _ _ _ (insert_desc_perm x l)) in Hz.
      apply elem_of_cons in Hz as [->|Hz]; [lia|].
      rewrite List.Forall_forall in Hy. apply Hy. by apply list_elem_of_In.
    + apply N.ltb_ge in Hxy. apply SSorted_cons.
      * by apply SSorted_cons.
      * apply List.Forall_cons; [done|].
        rewrite List.Forall_forall in Hy |- *. intros z Hz. specialize (Hy z Hz). lia.
Qed.

Lemma sort_desc_descending l : descending key (sort_desc key l).
Proof.
  unfold sort_desc. induction l as [|x l IH]; cbn.
  - apply SSorted_nil.
  - by apply insert_desc_descending.
Qed.

Lemma insert_desc_with_key t x l :
  with_key key t (insert_desc key x l) = with_key key t (x :: l).
Proof.
  unfold with_key. induction l as [|y l IH]; cbn; [done|].
  destruct (key x <? key y)%N eqn:Hxy; [|done].
  apply N.ltb_lt in Hxy. cbn. rewrite IH. cbn.
  repeat case_bool_decide; try done. lia.
Qed.

Lemma sort_desc_with_key t l : with_key key t (sort_desc key l) = with_key key t l.
Proof.
  unfold sort_desc. induction l as [|x l IH]; cbn [foldr]; [done|].
  rewrite insert_desc_with_key. unfold with_key in *. cbn [List.filter]. by rewrite IH.
Qed.
End sort_desc.

Section ordered.
Context {B : Type} (f : B -> jval) (g : B -> N).
Implicit Types (a : B) (l : list B) (d : list (jval * N)) (k : jval).

Lemma dict_lookup_set_eq k (t : N) d : dict_lookup k (dict_set k t d) = Some t.
Proof.
  induction d as [|[k' t'] d IH]; cbn.
  - by rewrite decide_True.
  - destruct (decide (k' = k)) as [->|Hne]; cbn.
    + by rewrite decide_True.
    + by rewrite decide_False.
Qed.

Lemma dict_lookup_set_ne k k' (t : N) d :
  k' <> k -> dict_lookup k (dict_set k' t d) = dict_lookup k d.
Proof.
  intros Hne. induction d as [|[k1 t1] d IH]; cbn.
  - by rewrite decide_False.
  - destruct (decide (k1 = k')) as [->|Hne1]; cbn.
    + by rewrite !decide_False.
    + destruct (decide (k1 = k)); [done|apply IH].
Qed.

Lemma foldl_set_other k l d :
  k ∉ f <$> l ->
  dict_lookup k (foldl (fun d a => dict_set (f a) (g a) d) d l) = dict_lookup k d.
Proof.
  revert d. induction l as [|a l IH]; intros d Hk; cbn; [done|].
  cbn in Hk. apply not_elem_of_cons in Hk as [Hne Hk].
  rewrite IH by done. by apply dict_lookup_set_ne.
Qed.

Lemma foldl_set_elem a l d :
  NoDup (f <$> l) -> a ∈ l ->
  dict_lookup (f a) (foldl (fun d a => dict_set (f a) (g a) d) d l) = Some (g a).
Proof.
  revert d. induction l as [|a' l IH]; intros d Hnd Ha; [by apply elem_of_nil in Ha|].
  cbn in Hnd. apply NoDup_cons in Hnd as [Ha' Hnd]. cbn.
  apply elem_of_cons in Ha as [->|Ha]; [|by apply IH].
  rewrite foldl_set_other by done. apply dict_lookup_set_eq.
Qed.
End ordered.

Implicit Types (item : Entity) (base : AffiliationBase)
  (combined : list Entity) (bases : list AffiliationBase).

(** With one base per identifier, a base's identifier maps to its
    creation time. *)
Lemma ordered_of_base bases base :
  NoDup (base_identifier <$> bases) -> base ∈ bases ->
  dict_lookup (JStr (base_identifier base)) (ordered_of bases) = Some (created base).
Proof.
  intros Hnd Hbase. unfold ordered_of.
  apply (foldl_set_elem (fun a => JStr (base_identifier a)) created).
  - rewrite (sort_desc_perm created bases).
    rewrite (list_fmap_compose base_identifier JStr). apply NoDup_fmap_2; [|done].
    by intros ?? [=].
  - by rewrite (sort_desc_perm created bases).
Qed.

Lemma ordered_of_other bases k :
  (forall base, base ∈ bases -> k <> JStr (base_identifier base)) ->
  dict_lookup k (ordered_of bases) = None.
Proof.
  intros Hk. unfold ordered_of.
  rewrite (foldl_set_other (fun a => JStr (base_identifier a)) created); [done|].
  intros Hin. apply list_elem_of_fmap in Hin as (base & -> & Hbase).
  apply (Hk base); [|done]. by rewrite <- (sort_desc_perm created bases).
Qed.

(** C7.  The sorted list holds the records of the combined list, in
    descending order of their sort keys, records of equal key in the
    order they had; the sort key of a record is the creation time of
    the base whose identifier is the record's identifier (its
    name-request number when it has no identifier), and the least time
    when there is no such base. *)
Theorem sort_affiliations_by_created combined bases :
  NoDup (base_identifier <$> bases) ->
  _sort_affiliations_by_created combined bases ≡ₚ combined
  /\ descending (sort_key (ordered_of bases)) (_sort_affiliations_by_created combined bases)
  /\ (forall t, with_key (sort_key (ordered_of bases)) t
                  (_sort_affiliations_by_created combined bases)
                = with_key (sort_key (ordered_of bases)) t combined)
  /\ (forall item base,
        base ∈ bases -> item_key item = JStr (base_identifier base) ->
        sort_key (ordered_of bases) item = created base)
  /\ (forall item,
        (forall base, base ∈ bases -> item_key item <> JStr (base_identifier base)) ->
        sort_key (ordered_of bases) item = datetime_min).
Proof.
  intros Hnd. unfold _sort_affiliations_by_created. repeat apply conj.
  - apply sort_desc_perm.
  - apply sort_desc_descending.
  - intros t. apply sort_desc_with_key.
  - intros item base Hbase Hkey. unfold sort_key.
    by rewrite Hkey, (ordered_of_base bases base Hnd Hbase).
  - intros item Hitem. unfold sort_key. by rewrite (ordered_of_other bases _ Hitem).
Qed.

Lemma sort_affiliations_by_created_witness :
  NoDup (base_identifier <$> three_bases)
  /\ _sort_affiliations_by_created three_records three_bases
     = [business "BC1" None; standalone (payload "NR2" "APPROVED"); draft "T3" None]
  /\ descending (sort_key (ordered_of three_bases))
                (_sort_affiliations_by_created three_records three_bases).
Proof.
  assert (Hnd : NoDup (base_identifier <$> three_bases)).
  { apply (bool_decide_unpack _). vm_compute. exact I. }
  split; [exact Hnd|]. split; [vm_compute; reflexivity|].
  exact (proj1 (proj2 (sort_affiliations_by_created three_records three_bases Hnd))).
Defined.
End ordering.

(** * Further properties of the membership service *)

(** ** The calls a membership change issues *)

Section membership_calls.
Import Py Membership.
Implicit Types (env : Env) (s : St) (m : MembershipModel) (fields : gmap string pyval)
  (e : Effect).

Lemma emit_run e s : emit e s = (Ok tt, {| model := model s; trace := trace s ++ [e] |}).
Proof. reflexivity. Qed.

Lemma add_or_remove_group_run env m i s :
  attrs m !! "membership_status" = Some (PStatus i) ->
  _add_or_remove_group env m s
  = (Ok tt, {| model := model s; trace := trace s ++ group_effects env m i |}).
Proof.
  intros Hst.
  unfold _add_or_remove_group, add_or_remove_group_for_staff, group_effects, getattr.
  rewrite Hst. msimpl. cbn [attr_id fst snd model trace].
  destruct (mapping_get (type_code (org m))) as [g|];
    destruct (bool_decide (i = ACTIVE)); destruct (bool_decide (i = INACTIVE));
    try destruct (bool_decide (g ∈ user_groups env));
    destruct (orgs_for_user env =? 0)%nat;
    cbn; rewrite <- ?app_assoc, ?app_nil_r; reflexivity.
Qed.

(** [update_membership] is its guards followed by [update_commit]. *)
Lemma update_membership_guards env fields s :
  update_membership env fields s =
  match update_guards env fields (model s) with
  | Raise e => (Raise e, s)
  | Ok (code, inactive) =>
      update_commit env fields (model s) (inactive && String.eqb code ADMIN) s
  end.
Proof.
  unfold update_membership, update_guards.
  rewrite bind_run. unfold get_model at 1, gets. cbn [fst snd].
  rewrite bind_run. unfold check_auth at 1.
  destruct (authorized env (RoleTuple [COORDINATOR; ADMIN; STAFF])); cbn [negb]; [|done].
  cbn [ret]. rewrite bind_run, staff_guard_run. fold (active_staff_orgs (database env) (user_id (user (model s)))).
  destruct (status_is (dict_get fields "membership_status") ACTIVE) as [active|]; [|done].
  destruct (active && _); [done|].
  rewrite bind_run.
  destruct (bool_decide (login_source (user (model s)) = BCEID) && _); [done|].
  cbn [when ret]. rewrite bind_run. unfold lift at 1.
  destruct (model_type_code (model s)) as [code|]; [|done].
  rewrite bind_run.
  destruct (String.eqb code COORDINATOR && eq_str (dict_get fields "membership_type") ADMIN);
    cbn [when andb].
  - unfold check_auth at 1. destruct (authorized env (RoleTuple [ADMIN; STAFF])); cbn [negb]; [|done].
    cbn [ret]. rewrite bind_run. unfold lift at 1.
    destruct (status_is (dict_get fields "membership_status") INACTIVE) as [inactive|]; [|done].
    rewrite bind_run.
    destruct (inactive && String.eqb code ADMIN && _); [done|].
    cbn [when ret]. rewrite bind_run.
    destruct (String.eqb code ADMIN && _ && _); [done|].
    reflexivity.
  - cbn [ret]. rewrite bind_run. unfold lift at 1.
    destruct (status_is (dict_get fields "membership_status") INACTIVE) as [inactive|]; [|done].
    rewrite bind_run.
    destruct (inactive && String.eqb code ADMIN && _); [done|].
    cbn [when ret]. rewrite bind_run.
    destruct (String.eqb code ADMIN && _ && _); [done|].
    reflexivity.
Qed.
End membership_calls.

Section membership_commit.
Import Py Membership.
Implicit Types (env : Env) (s : St) (m : MembershipModel) (fields : gmap string pyval)
  (e : Effect).

Lemma dict_get_none_lookup fields m k :
  dict_get fields k = PNone -> attrs (apply_fields fields m) !! k = attrs m !! k.
Proof.
  unfold dict_get. rewrite apply_fields_lookup.
  destruct (fields !! k) as [v|]; cbn; [|done]. intros ->. done.
Qed.

Lemma dict_get_some_lookup fields m k v :
  dict_get fields k = v -> v <> PNone -> attrs (apply_fields fields m) !! k = Some v.
Proof.
  unfold dict_get. rewrite apply_fields_lookup.
  destruct (fields !! k) as [v'|]; cbn; [|congruence]. intros -> Hv.
  by rewrite bool_decide_eq_false_2.
Qed.

Lemma status_in_inactive_active (i : Status) :
  bool_decide (i ∈ [INACTIVE; ACTIVE])
  = match i with ACTIVE | INACTIVE => true | _ => false end.
Proof. destruct i; vm_compute; reflexivity. Qed.

Lemma status_eq_active (i : Status) :
  bool_decide (i = ACTIVE) = match i with ACTIVE => true | _ => false end.
Proof. destruct i; vm_compute; reflexivity. Qed.

Lemma status_eq_inactive (i : Status) :
  bool_decide (i = INACTIVE) = match i with INACTIVE => true | _ => false end.
Proof. destruct i; vm_compute; reflexivity. Qed.

Lemma typed_status_after fields s i0 :
  status_request_typed fields ->
  attrs (model s) !! "membership_status" = Some (PStatus i0) ->
  exists i', attrs (apply_fields fields (model s)) !! "membership_status"
             = Some (PStatus i').
Proof.
  intros [Hs|[i Hs]] Hi0.
  - exists i0. by rewrite (dict_get_none_lookup _ _ _ Hs).
  - exists i. by apply dict_get_some_lookup.
Qed.

Lemma publish_to_mailer_run env n e s :
  publish_to_mailer env n e s
  = match mailer env n with
    | Some x => (Raise x, s)
    | None => (Ok tt, {| model := model s; trace := trace s ++ [e] |})
    end.
Proof. unfold publish_to_mailer. by destruct (mailer env n). Qed.

(** The two mails of [update_membership], handed to the publisher. *)
Lemma update_mails_run env fields m agr s :
  (when (is_staff (user_context env)
         && negb (bool_decide (login_source (user m) = BCROS))
         && negb (Nat.eqb (size fields) 0))
        (publish_to_mailer env TEAM_MODIFIED (MailTeamModified (org_id (org m))));;
   when (is_staff (user_context env)
         && negb (bool_decide (login_source (user m) = BCROS)) && agr)
        (match contact_email env with
         | Some email =>
             when (negb (String.eqb email ""))
                  (publish_to_mailer env ADMIN_REMOVED
                     (MailAdminRemoved (org_id (org m)) email))
         | None => ret tt
         end)) s
  = (mailed (published env (update_mails env fields m agr)).2,
     {| model := model s;
        trace := trace s ++ (published env (update_mails env fields m agr)).1 |}).
Proof.
  unfold update_mails. destruct s as [sm st].
  destruct (is_staff (user_context env) && negb (bool_decide (login_source (user m) = BCROS)));
    cbn [andb when]; [|msimpl; cbn; by rewrite app_nil_r].
  destruct (mailer env TEAM_MODIFIED) as [x1|] eqn:H1;
    destruct (mailer env ADMIN_REMOVED) as [x2|] eqn:H2;
    destruct (negb (size fields =? 0)%nat); destruct agr;
    try destruct (contact_email env) as [email|];
    try destruct (negb (String.eqb email ""));
    rewrite bind_run; cbn [when ret app published fst snd];
    rewrite ?publish_to_mailer_run, ?H1, ?H2; cbn [when ret app published fst snd];
    rewrite ?publish_to_mailer_run, ?H1, ?H2;
    cbn; rewrite <- ?app_assoc, ?app_nil_r; reflexivity.
Qed.

Lemma update_commit_run env fields s code agr i' :
  status_request_typed fields ->
  type_request_typed fields ->
  model_type_code (model s) = Ok code ->
  attrs (apply_fields fields (model s)) !! "membership_status" = Some (PStatus i') ->
  update_commit env fields (model s) agr s
  = (mailed (published env (update_mails env fields (apply_fields fields (model s)) agr)).2,
     {| model := apply_fields fields (model s);
        trace := trace s
                 ++ update_calls env fields (apply_fields fields (model s)) code
                 ++ (published env
                       (update_mails env fields (apply_fields fields (model s)) agr)).1 |}).
Proof.
  intros Hst Hty Hcode Hi'.
  pose proof (apply_fields_user_org fields (model s)) as [Huser Horg].
  assert (Hcode' : truthy (dict_get fields "membership_type") = false ->
                   model_type_code (apply_fields fields (model s)) = Ok code).
  { intros Hf. destruct Hty as [Ht|[c Ht]]; [|by rewrite Ht in Hf].
    revert Hcode. unfold model_type_code, getattr.
    by rewrite (dict_get_none_lookup _ _ _ Ht). }
  unfold update_commit, update_calls. rewrite Hi'.
  set (m' := apply_fields fields (model s)) in *.
  rewrite bind_run. cbn [put_model modify fst snd].
  rewrite bind_run, emit_run. cbn [model trace].
  rewrite bind_run. unfold get_model at 1, gets. cbn [model trace fst snd].
  rewrite bind_run.
  assert (Hmt : forall x : St,
    (if truthy (dict_get fields "membership_type")
     then ret (dict_get fields "membership_type")
     else c ← lift (model_type_code m'); ret (PStr c)) x
    = (Ok (if truthy (dict_get fields "membership_type")
           then dict_get fields "membership_type" else PStr code), x)).
  { intros x. destruct (truthy (dict_get fields "membership_type")) eqn:Ht; [done|].
    rewrite bind_run. unfold lift. by rewrite (Hcode' eq_refl). }
  rewrite Hmt. clear Hmt.
  set (mt := if truthy (dict_get fields "membership_type")
             then dict_get fields "membership_type" else PStr code).
  rewrite bind_run.
  destruct Hst as [Hs|[i Hs]]; rewrite Hs; cbn [truthy ret].
  - rewrite bind_run, (add_or_remove_group_run env m' i' _ Hi'). cbn [model trace].
    rewrite (update_mails_run env fields m' agr). cbn [model trace].
    by rewrite <- !app_assoc.
  - rewrite bind_run. cbn [lift attr_id].
    assert (Hact : forall x : St,
      (if bool_decide (i ∈ [INACTIVE; ACTIVE])
       then emit (PublishActivity (org_id (org m'))
                    (if bool_decide (i = ACTIVE) then APPROVE_TEAM_MEMBER
                     else REMOVE_TEAM_MEMBER) (user_id (user m')) mt);;
            match (if bool_decide (i = ACTIVE) then APPROVE_TEAM_MEMBER
                   else REMOVE_TEAM_MEMBER) with
            | APPROVE_TEAM_MEMBER => ret tt
            | REMOVE_TEAM_MEMBER =>
                emit (PublishTeamMemberRemoved (org_id (org m')) (user_id (user m')))
            end
       else ret tt) x
      = (Ok tt, {| model := model x;
                   trace := trace x ++
                     match i with
                     | ACTIVE =>
                         [PublishActivity (org_id (org m')) APPROVE_TEAM_MEMBER
                                          (user_id (user m')) mt]
                     | INACTIVE =>
                         [PublishActivity (org_id (org m')) REMOVE_TEAM_MEMBER
                                          (user_id (user m')) mt;
                          PublishTeamMemberRemoved (org_id (org m')) (user_id (user m'))]
                     | _ => []
                     end |})).
    { intros [xm xt]. rewrite status_in_inactive_active, !status_eq_active.
      destruct i; msimpl; cbn; rewrite <- ?app_assoc, ?app_nil_r; reflexivity. }
    rewrite Hact. clear Hact. cbn [model trace].
    rewrite bind_run, (add_or_remove_group_run env m' i' _ Hi'). cbn [model trace].
    rewrite (update_mails_run env fields m' agr). cbn [model trace].
    by rewrite <- !app_assoc.
Qed.

(** What the publisher did with the mails. *)
Lemma published_all env mails :
  (published env mails).2 = None -> (published env mails).1 = snd <$> mails.
Proof.
  induction mails as [|[n e] mails IH]; [done|]. cbn [published].
  destruct (mailer env n); [done|]. cbn. intros H. by rewrite IH.
Qed.

Lemma published_refused env mails x :
  (published env mails).2 = Some x ->
  exists n e, (n, e) ∈ mails /\ mailer env n = Some x.
Proof.
  induction mails as [|[n e] mails IH]; [done|]. cbn [published].
  destruct (mailer env n) as [y|] eqn:Hn.
  - cbn. intros [= ->]. exists n, e. split; [left|done].
  - cbn. intros H. destruct (IH H) as (n' & e' & Hin & Hn').
    exists n', e'. split; [by right|done].
Qed.

Lemma update_mails_staff env fields m agr p :
  p ∈ update_mails env fields m agr -> is_staff (user_context env) = true.
Proof.
  unfold update_mails. destruct (is_staff (user_context env)); [done|].
  cbn. by intros ?%elem_of_nil.
Qed.

Lemma update_effects_mails env fields m code agr :
  update_effects env fields m code agr
  = update_calls env fields m code ++ (snd <$> update_mails env fields m agr).
Proof.
  unfold update_effects, update_calls, update_mails.
  rewrite <- !app_assoc. do 3 f_equal.
  destruct (is_staff (user_context env) && negb (bool_decide (login_source (user m) = BCROS)));
    cbn [andb]; [|done].
  destruct (negb (size fields =? 0)%nat); destruct agr; try done;
    destruct (contact_email env) as [email|]; try done;
    by destruct (negb (String.eqb email "")).
Qed.
End membership_commit.

Section membership_extras.
Import Py Membership.
Implicit Types (env : Env) (s : St) (m : MembershipModel) (fields : gmap string pyval)
  (e : Effect).

(** [_add_or_remove_group], lines 336-362.  For a membership whose status
    is a status row the call returns, leaves the membership as it is and
    ends with the product-groups update.  Before it, a pending or rejected
    membership changes no Keycloak group; joins and additions are only
    made for an ACTIVE membership and removals only for an INACTIVE one;
    the user is added to a staff group only when the org is of that staff
    type and the user is not yet in the group, removed from it only when
    in it, and removed from the account holders only when no other org is
    left. *)
Theorem add_or_remove_group_effects env m i s :
  attrs m !! "membership_status" = Some (PStatus i) ->
  exists effs,
    _add_or_remove_group env m s
    = (Ok tt, {| model := model s;
                 trace := trace s ++ effs
                            ++ [UpdateUsersProductsKeycloakGroups (user_id (user m))] |})
    /\ (i <> ACTIVE -> i <> INACTIVE -> effs = [])
    /\ (i = ACTIVE -> JoinAccountHoldersGroup (keycloak_guid (user m)) ∈ effs)
    /\ (forall e, e ∈ effs ->
          match e with
          | JoinAccountHoldersGroup g => i = ACTIVE /\ g = keycloak_guid (user m)
          | AddUserToGroup g grp =>
              i = ACTIVE /\ g = keycloak_guid (user m)
              /\ mapping_get (type_code (org m)) = Some grp /\ grp ∉ user_groups env
          | RemoveFromAccountHoldersGroup g =>
              i = INACTIVE /\ g = keycloak_guid (user m) /\ orgs_for_user env = 0
          | RemoveUserFromGroup g grp =>
              i = INACTIVE /\ g = keycloak_guid (user m)
              /\ mapping_get (type_code (org m)) = Some grp /\ grp ∈ user_groups env
          | _ => False
          end).
Proof.
  intros Hst. rewrite (add_or_remove_group_run env m i s Hst). unfold group_effects.
  exists ((if bool_decide (i = ACTIVE) then [JoinAccountHoldersGroup (keycloak_guid (user m))]
           else if bool_decide (i = INACTIVE) then
             if Nat.eqb (orgs_for_user env) 0
             then [RemoveFromAccountHoldersGroup (keycloak_guid (user m))] else []
           else [])
          ++ match mapping_get (type_code (org m)) with
             | None => []
             | Some g =>
                 if bool_decide (i = ACTIVE) && negb (bool_decide (g ∈ user_groups env))
                 then [AddUserToGroup (keycloak_guid (user m)) g]
                 else if bool_decide (i = INACTIVE) && bool_decide (g ∈ user_groups env)
                 then [RemoveUserFromGroup (keycloak_guid (user m)) g]
                 else []
             end).
  split; [by rewrite <- !app_assoc|].
  rewrite !status_eq_active, !status_eq_inactive.
  destruct (mapping_get (type_code (org m))) as [grp|] eqn:Hmap;
    destruct i; try (case_bool_decide as Hin);
    try (destruct (orgs_for_user env =? 0)%nat eqn:Horgs;
         [apply Nat.eqb_eq in Horgs|]);
    cbn; (split; [done|]); (split; [intros; try done; by left|]);
    intros e He;
    repeat (apply elem_of_cons in He as [->|He]); try (by apply elem_of_nil in He); done.
Qed.
End membership_extras.

(** ** Outcomes of [update_membership] *)

Section membership_update_extras.
Import Py Membership.
Implicit Types (env : Env) (s : St) (m : MembershipModel) (fields : gmap string pyval)
  (e : Effect).

Lemma update_guards_raise env fields s x :
  update_guards env fields (model s) = Raise x ->
  update_membership env fields s = (Raise x, s).
Proof. intros H. by rewrite update_membership_guards, H. Qed.

Lemma update_guards_code env fields m code inactive :
  update_guards env fields m = Ok (code, inactive) -> model_type_code m = Ok code.
Proof. unfold update_guards. repeat case_match; try done. by intros [= <- _]. Qed.

Lemma update_guards_ok env fields s code inactive i' :
  status_request_typed fields ->
  type_request_typed fields ->
  attrs (apply_fields fields (model s)) !! "membership_status" = Some (PStatus i') ->
  update_guards env fields (model s) = Ok (code, inactive) ->
  update_membership env fields s
  = (mailed (published env (update_mails env fields (apply_fields fields (model s))
                              (inactive && String.eqb code ADMIN))).2,
     {| model := apply_fields fields (model s);
        trace := trace s
                 ++ update_calls env fields (apply_fields fields (model s)) code
                 ++ (published env
                       (update_mails env fields (apply_fields fields (model s))
                          (inactive && String.eqb code ADMIN))).1 |}).
Proof.
  intros Hst Hty Hi' Hg. rewrite update_membership_guards, Hg.
  apply (update_commit_run env fields s code _ i'); try done.
  by eapply update_guards_code.
Qed.

(** A call that returns has issued the calls of [update_effects]. *)
Lemma update_guards_returns env fields s s' code inactive i' :
  status_request_typed fields ->
  type_request_typed fields ->
  attrs (apply_fields fields (model s)) !! "membership_status" = Some (PStatus i') ->
  update_guards env fields (model s) = Ok (code, inactive) ->
  update_membership env fields s = (Ok tt, s') ->
  s' = {| model := apply_fields fields (model s);
          trace := trace s ++ update_effects env fields (apply_fields fields (model s))
                                             code (inactive && String.eqb code ADMIN) |}.
Proof.
  intros Hst Hty Hi' Hg Hrun.
  rewrite (update_guards_ok _ _ _ _ _ _ Hst Hty Hi' Hg) in Hrun.
  destruct (published env _) as [sent [x|]] eqn:Hpub; [done|].
  cbn in Hrun. injection Hrun as <-.
  rewrite update_effects_mails.
  pose proof (published_all env (update_mails env fields (apply_fields fields (model s))
                                   (inactive && String.eqb code ADMIN))) as Hall.
  rewrite Hpub in Hall. cbn in Hall. by rewrite Hall.
Qed.

(** A call whose guards pass saves the membership first, and then
    returns unless the publisher refuses a mail. *)
Lemma update_guards_saved env fields s code inactive i' :
  status_request_typed fields ->
  type_request_typed fields ->
  attrs (apply_fields fields (model s)) !! "membership_status" = Some (PStatus i') ->
  update_guards env fields (model s) = Ok (code, inactive) ->
  exists r effs,
    update_membership env fields s
    = (r, {| model := apply_fields fields (model s);
             trace := trace s ++ Save :: effs |})
    /\ (r = Ok tt
        \/ exists n x, is_staff (user_context env) = true
                       /\ mailer env n = Some x /\ r = Raise x).
Proof.
  intros Hst Hty Hi' Hg.
  rewrite (update_guards_ok _ _ _ _ _ _ Hst Hty Hi' Hg).
  set (mails := update_mails env fields (apply_fields fields (model s))
                  (inactive && String.eqb code ADMIN)).
  eexists _, _. split; [unfold update_calls; cbn [app]; reflexivity|].
  destruct (published env mails).2 as [x|] eqn:Hpub; [|by left].
  right. destruct (published_refused _ _ _ Hpub) as (n & e & Hin & Hn).
  exists n, x. split; [by eapply update_mails_staff|done].
Qed.


(** [update_membership], lines 219-300: nothing is done before the guards
    have passed, and the save comes first.  For a request whose status
    and type are rows (or absent), on a membership that has a status row,
    the call either raises with the membership unchanged and no call
    issued; or returns with the membership updated and saved before any
    other call; or, for a staff caller, raises what the mail publisher
    raised, with the membership updated and saved all the same. *)
Theorem update_membership_saves_first env fields s i0 :
  status_request_typed fields ->
  type_request_typed fields ->
  attrs (model s) !! "membership_status" = Some (PStatus i0) ->
  (exists x, update_membership env fields s = (Raise x, s))
  \/ (exists effs,
        update_membership env fields s
        = (Ok tt, {| model := apply_fields fields (model s);
                     trace := trace s ++ Save :: effs |}))
  \/ (exists n x effs,
        is_staff (user_context env) = true
        /\ mailer env n = Some x
        /\ update_membership env fields s
           = (Raise x, {| model := apply_fields fields (model s);
                          trace := trace s ++ Save :: effs |})).
Proof.
  intros Hst Hty Hi0.
  destruct (typed_status_after fields s i0 Hst Hi0) as [i' Hi'].
  destruct (update_guards env fields (model s)) as [[code inactive]|x] eqn:Hg.
  - destruct (update_guards_saved _ _ _ _ _ _ Hst Hty Hi' Hg)
      as (r & effs & Hrun & [->|(n & x & Hstaff & Hn & ->)]).
    + right. left. by exists effs.
    + right. right. by exists n, x, effs.
  - left. exists x. by apply update_guards_raise.
Qed.

(** [update_membership], lines 230-234.  A request that assigns the type
    row ADMIN to the membership of a BCEID user never returns and changes
    nothing; from an authorized caller, and unless the request also
    activates the membership, the error is BCEID_USERS_CANT_BE_OWNERS. *)
Theorem update_membership_bceid_owner env fields s :
  login_source (user (model s)) = BCEID ->
  dict_get fields "membership_type" = PType ADMIN ->
  exists x,
    update_membership env fields s = (Raise x, s)
    /\ (authorized env (RoleTuple [COORDINATOR; ADMIN; STAFF]) = true ->
        status_request_typed fields ->
        dict_get fields "membership_status" <> PStatus ACTIVE ->
        x = BusinessException BCEID_USERS_CANT_BE_OWNERS).
Proof.
  intros Hb Ht.
  assert (Hg : exists x, update_guards env fields (model s) = Raise x
             /\ (authorized env (RoleTuple [COORDINATOR; ADMIN; STAFF]) = true ->
                 status_request_typed fields ->
                 dict_get fields "membership_status" <> PStatus ACTIVE ->
                 x = BusinessException BCEID_USERS_CANT_BE_OWNERS)).
  { unfold update_guards. rewrite Ht, Hb. cbn [getattr_code eq_str].
    rewrite (bool_decide_eq_true_2 (BCEID = BCEID)) by done.
    destruct (authorized env (RoleTuple [COORDINATOR; ADMIN; STAFF])); cbn [negb];
      [|by eexists].
    destruct (status_is (dict_get fields "membership_status") ACTIVE) as [active|x] eqn:Hs.
    - destruct (active && _) eqn:Hstaff.
      + eexists. split; [done|]. intros _ Hst Hna.
        apply andb_true_iff in Hstaff as [-> _].
        destruct Hst as [Hn|[i Hi]]; rewrite ?Hn, ?Hi in Hs; cbn in Hs; [done|].
        simplify_eq. by apply bool_decide_eq_true in Hs as ->.
      + by eexists.
    - eexists. split; [done|]. intros _ Hst _.
      destruct Hst as [Hn|[i Hi]]; rewrite ?Hn, ?Hi in Hs; by cbn in Hs. }
  destruct Hg as (x & Hg & Hx). exists x. split; [by apply update_guards_raise|done].
Qed.

(** [update_membership], lines 252-258.  The membership of the only owner
    row of an org cannot be updated at all: the comparison of the
    requested type with the string ADMIN fails for every type row, so
    every request, whether empty, or one that keeps the type ADMIN,
    raises and changes nothing.  From an authorized caller, for a user
    who is not BCEID and a request that does not activate, the error is
    CHANGE_ROLE_FAILED_ONLY_OWNER. *)
Theorem update_membership_sole_owner_frozen env fields s :
  model_type_code (model s) = Ok ADMIN ->
  get_owner_count (org (model s)) = 1 ->
  dict_get fields "membership_type" <> PStr ADMIN ->
  exists x,
    update_membership env fields s = (Raise x, s)
    /\ (authorized env (RoleTuple [COORDINATOR; ADMIN; STAFF]) = true ->
        status_request_typed fields ->
        dict_get fields "membership_status" <> PStatus ACTIVE ->
        login_source (user (model s)) <> BCEID ->
        x = BusinessException CHANGE_ROLE_FAILED_ONLY_OWNER).
Proof.
  intros Hcode Hone Hty.
  assert (Heq : eq_str (dict_get fields "membership_type") ADMIN = false).
  { destruct (dict_get fields "membership_type") as [|t| |]; try done.
    cbn. apply String.eqb_neq. congruence. }
  assert (Hg : exists x, update_guards env fields (model s) = Raise x
             /\ (authorized env (RoleTuple [COORDINATOR; ADMIN; STAFF]) = true ->
                 status_request_typed fields ->
                 dict_get fields "membership_status" <> PStatus ACTIVE ->
                 login_source (user (model s)) <> BCEID ->
                 x = BusinessException CHANGE_ROLE_FAILED_ONLY_OWNER)).
  { unfold update_guards. rewrite Hcode, Hone, Heq. cbn [negb andb Nat.eqb].
    destruct (authorized env (RoleTuple [COORDINATOR; ADMIN; STAFF])); cbn [negb];
      [|by eexists].
    destruct (status_is (dict_get fields "membership_status") ACTIVE) as [active|x] eqn:Hs.
    2:{ eexists. split; [done|]. intros _ Hst _ _.
        destruct Hst as [Hn|[i Hi]]; rewrite ?Hn, ?Hi in Hs; by cbn in Hs. }
    destruct (active && _) eqn:Hstaff.
    { eexists. split; [done|]. intros _ Hst Hna _.
      apply andb_true_iff in Hstaff as [-> _].
      destruct Hst as [Hn|[i Hi]]; rewrite ?Hn, ?Hi in Hs; cbn in Hs; [done|].
      simplify_eq. by apply bool_decide_eq_true in Hs as ->. }
    destruct (bool_decide (login_source (user (model s)) = BCEID) && _) eqn:Hb.
    { eexists. split; [done|]. intros _ _ _ Hnb.
      apply andb_true_iff in Hb as [Hb%bool_decide_eq_true _]. done. }
    rewrite andb_false_r. cbn [andb].
    destruct (status_is (dict_get fields "membership_status") INACTIVE) as [inactive|x] eqn:Hi.
    2:{ eexists. split; [done|]. intros _ Hst _ _.
        destruct Hst as [Hn|[i Hi']]; rewrite ?Hn, ?Hi' in Hi; by cbn in Hi. }
    rewrite String.eqb_refl, andb_true_r. cbn.
    destruct inactive; by eexists. }
  destruct Hg as (x & Hg & Hx). exists x. split; [by apply update_guards_raise|done].
Qed.
End membership_update_extras.

Section membership_notifications.
Import Py Membership.
Implicit Types (env : Env) (s : St) (m : MembershipModel) (fields : gmap string pyval)
  (e : Effect).

Lemma group_effects_group_calls env m i e :
  e ∈ group_effects env m i -> is_group_call e = true.
Proof.
  unfold group_effects. rewrite !status_eq_active, !status_eq_inactive.
  destruct (mapping_get (type_code (org m))) as [grp|];
    destruct i; try (case_bool_decide as Hin);
    try (destruct (orgs_for_user env =? 0)%nat);
    cbn; intros He;
    repeat (apply elem_of_cons in He as [->|He]); try (by apply elem_of_nil in He); done.
Qed.

(** [update_membership], lines 265-297: what a successful update
    publishes.  After the save, the TEAM_MEMBER_REMOVED event is published
    exactly when the request sets the status INACTIVE; an activity is
    logged exactly when the request sets the status ACTIVE or INACTIVE, so
    a rejection or a return to pending is not logged; mail is sent only
    for a staff caller and a member who is not a BCROS user, and the
    team-modified mail exactly when moreover the request is not empty. *)
Theorem update_membership_notifications env fields s s' i0 :
  status_request_typed fields ->
  type_request_typed fields ->
  attrs (model s) !! "membership_status" = Some (PStatus i0) ->
  update_membership env fields s = (Ok tt, s') ->
  exists effs,
    trace s' = trace s ++ Save :: effs
    /\ (PublishTeamMemberRemoved (org_id (org (model s))) (user_id (user (model s))) ∈ effs
        <-> dict_get fields "membership_status" = PStatus INACTIVE)
    /\ ((exists e, e ∈ effs /\ is_activity e = true)
        <-> dict_get fields "membership_status" = PStatus ACTIVE
            \/ dict_get fields "membership_status" = PStatus INACTIVE)
    /\ (forall e, e ∈ effs -> is_mail e = true ->
          is_staff (user_context env) = true /\ login_source (user (model s)) <> BCROS)
    /\ (MailTeamModified (org_id (org (model s))) ∈ effs
        <-> is_staff (user_context env) = true /\ login_source (user (model s)) <> BCROS
            /\ fields <> ∅).
Proof.
  intros Hst Hty Hi0 Hrun.
  destruct (update_guards env fields (model s)) as [[code inactive]|x] eqn:Hg.
  2:{ rewrite (update_guards_raise _ _ _ _ Hg) in Hrun. done. }
  destruct (typed_status_after fields s i0 Hst Hi0) as [i' Hi'].
  rewrite (update_guards_returns _ _ _ _ _ _ _ Hst Hty Hi' Hg Hrun). cbn [trace model].
  pose proof (apply_fields_user_org fields (model s)) as [Huser Horg].
  unfold update_effects. rewrite Huser, Horg.
  set (m' := apply_fields fields (model s)).
  set (mt := if truthy (dict_get fields "membership_type")
             then dict_get fields "membership_type" else PStr code).
  set (org_ := org_id (org (model s))). set (uid := user_id (user (model s))).
  set (A := match dict_get fields "membership_status" with
            | PStatus ACTIVE => [PublishActivity org_ APPROVE_TEAM_MEMBER uid mt]
            | PStatus INACTIVE =>
                [PublishActivity org_ REMOVE_TEAM_MEMBER uid mt;
                 PublishTeamMemberRemoved org_ uid]
            | _ => []
            end).
  set (G := match attrs m' !! "membership_status" with
            | Some (PStatus i) => group_effects env m' i
            | _ => []
            end).
  set (by_staff := is_staff (user_context env)
                   && negb (bool_decide (login_source (user (model s)) = BCROS))).
  set (B := if by_staff && negb (size fields =? 0)%nat then [MailTeamModified org_] else []).
  set (C := if by_staff && (inactive && String.eqb code ADMIN)
            then match contact_email env with
                 | Some email =>
                     if negb (String.eqb email "") then [MailAdminRemoved org_ email] else []
                 | None => []
                 end
            else []).
  assert (HG : forall e, e ∈ G -> is_group_call e = true).
  { intros e. unfold G. destruct (attrs m' !! "membership_status") as [[| | |i]|];
      try (by intros ?%elem_of_nil). apply group_effects_group_calls. }
  assert (HB : forall e, e ∈ B -> e = MailTeamModified org_ /\ by_staff = true
                                  /\ (size fields =? 0)%nat = false).
  { intros e. unfold B. destruct by_staff; cbn; [|by intros ?%elem_of_nil].
    destruct (size fields =? 0)%nat; cbn; [by intros ?%elem_of_nil|].
    by intros ->%list_elem_of_singleton. }
  assert (HC : forall e, e ∈ C -> is_mail e = true /\ is_activity e = false
                                  /\ by_staff = true
                                  /\ e <> MailTeamModified org_
                                  /\ e <> PublishTeamMemberRemoved org_ uid).
  { intros e. unfold C. destruct by_staff; cbn; [|by intros ?%elem_of_nil].
    destruct (inactive && String.eqb code ADMIN); [|by intros ?%elem_of_nil].
    destruct (contact_email env) as [email|]; [|by intros ?%elem_of_nil].
    destruct (negb (String.eqb email "")); [|by intros ?%elem_of_nil].
    by intros ->%list_elem_of_singleton. }
  assert (HA : forall e, e ∈ A ->
                 is_mail e = false
                 /\ (is_activity e = true \/ e = PublishTeamMemberRemoved org_ uid)
                 /\ (dict_get fields "membership_status" = PStatus ACTIVE
                     \/ dict_get fields "membership_status" = PStatus INACTIVE)
                 /\ (e = PublishTeamMemberRemoved org_ uid ->
                     dict_get fields "membership_status" = PStatus INACTIVE)).
  { intros e. unfold A.
    destruct (dict_get fields "membership_status") as [| | |[]];
      try (by intros ?%elem_of_nil); intros He;
      repeat (apply elem_of_cons in He as [->|He]); try (by apply elem_of_nil in He);
      cbn; repeat apply conj; try done; try (by left); try (by right). }
  assert (Hstaff : by_staff = true <->
                   is_staff (user_context env) = true
                   /\ login_source (user (model s)) <> BCROS).
  { unfold by_staff. rewrite andb_true_iff, negb_true_iff, bool_decide_eq_false. done. }
  exists (A ++ G ++ B ++ C). split; [reflexivity|].
  split; [|split; [|split]].
  - split.
    + intros He. repeat (apply elem_of_app in He as [He|He]).
      * by apply (HA _ He).
      * by apply HG in He.
      * by apply HB in He as [? _].
      * by apply HC in He as (_ & _ & _ & _ & ?).
    + intros Hs. apply elem_of_app. left. unfold A. rewrite Hs. right. left.
  - split.
    + intros (e & He & Hact). repeat (apply elem_of_app in He as [He|He]).
      * by apply (HA _ He).
      * apply HG in He. by destruct e.
      * apply HB in He as [-> _]. done.
      * apply HC in He as (_ & Hna & _). congruence.
    + intros [Hs|Hs]; eexists; (split; [apply elem_of_app; left; unfold A; rewrite Hs; left|done]).
  - intros e He Hmail. apply Hstaff.
    repeat (apply elem_of_app in He as [He|He]).
    + apply HA in He as [Hnm _]. congruence.
    + apply HG in He. by destruct e.
    + by apply HB in He as (_ & ? & _).
    + by apply HC in He as (_ & _ & ? & _).
  - split.
    + intros He. repeat (apply elem_of_app in He as [He|He]).
      * apply HA in He as (_ & [?|?] & _); done.
      * by apply HG in He.
      * apply HB in He as (_ & Hbs & Hsz). apply Hstaff in Hbs as [? ?].
        split; [done|]. split; [done|].
        intros ->. by rewrite map_size_empty in Hsz.
      * by apply HC in He as (_ & _ & _ & ? & _).
    + intros (Hs1 & Hs2 & Hne).
      assert (Hbs : by_staff = true) by (by apply Hstaff).
      apply elem_of_app. right. apply elem_of_app. right.
      apply elem_of_app. left. unfold B. rewrite Hbs. cbn.
      destruct (size fields =? 0)%nat eqn:Hsz; [|left].
      apply Nat.eqb_eq, map_size_empty_iff in Hsz. done.
Qed.
End membership_notifications.

(** ** Outcomes of [deactivate_membership] *)

Section membership_deactivate.
Import Py Membership.
Implicit Types (env : Env) (s : St) (m : MembershipModel) (fields : gmap string pyval)
  (e : Effect).

(** [deactivate_membership], lines 302-333: who may deactivate, and what
    the call does.  Removing one's own membership needs no role, removing
    someone else's needs COORDINATOR or ADMIN, and removing an owner
    needs the role the call passes as [(ADMIN)].  When these hold the call
    returns: the status is INACTIVE, the row is saved first, then the
    Keycloak groups are updated, then the REMOVE_TEAM_MEMBER activity and
    the TEAM_MEMBER_REMOVED event are published.  Otherwise it raises
    with nothing changed and no call issued. *)
Theorem deactivate_membership_outcome env s code :
  model_type_code (model s) = Ok code ->
  ((username (user (model s)) = user_name (user_context env)
    \/ authorized env (RoleTuple [COORDINATOR; ADMIN]) = true) ->
   (code <> ADMIN \/ authorized env (RoleStr ADMIN) = true) ->
   exists effs,
     deactivate_membership env s
     = (Ok tt, {| model := setattr (model s) "membership_status" (PStatus INACTIVE);
                  trace := trace s ++ Save :: effs
                    ++ [PublishActivity (org_id (org (model s))) REMOVE_TEAM_MEMBER
                                        (user_id (user (model s))) PNone;
                        PublishTeamMemberRemoved (org_id (org (model s)))
                                                 (user_id (user (model s)))] |})
     /\ Forall (fun e => is_group_call e = true) effs)
  /\ (~ ((username (user (model s)) = user_name (user_context env)
          \/ authorized env (RoleTuple [COORDINATOR; ADMIN]) = true)
         /\ (code <> ADMIN \/ authorized env (RoleStr ADMIN) = true)) ->
      deactivate_membership env s = (Raise Forbidden, s)).
Proof.
  intros Hcode.
  assert (Hrun : deactivate_membership env s =
    if (String.eqb (username (user (model s))) (user_name (user_context env))
        || authorized env (RoleTuple [COORDINATOR; ADMIN]))
       && (negb (String.eqb code ADMIN) || authorized env (RoleStr ADMIN))
    then (Ok tt, {| model := setattr (model s) "membership_status" (PStatus INACTIVE);
                    trace := trace s ++ Save ::
                      group_effects env (setattr (model s) "membership_status"
                                                (PStatus INACTIVE)) INACTIVE
                      ++ [PublishActivity (org_id (org (model s))) REMOVE_TEAM_MEMBER
                                          (user_id (user (model s))) PNone;
                          PublishTeamMemberRemoved (org_id (org (model s)))
                                                   (user_id (user (model s)))] |})
    else (Raise Forbidden, s)).
  { unfold deactivate_membership.
    rewrite bind_run. unfold get_model at 1, gets. cbn [fst snd].
    rewrite bind_run. unfold check_auth.
    destruct (String.eqb (username (user (model s))) (user_name (user_context env)));
      cbn [negb when orb].
    - cbn [ret]. rewrite bind_run, Hcode. cbn [lift]. rewrite bind_run.
      destruct (String.eqb code ADMIN); cbn [negb when orb andb].
      + destruct (authorized env (RoleStr ADMIN)); [|done].
        cbn [ret]. rewrite bind_run. cbn [put_model modify fst snd].
        rewrite bind_run, emit_run. cbn [model trace]. rewrite bind_run.
        unfold get_model at 1, gets. cbn [model fst snd].
        rewrite bind_run, (add_or_remove_group_run _ _ INACTIVE) by apply lookup_insert_eq.
        cbn [model trace]. rewrite bind_run, emit_run, emit_run. cbn.
        by rewrite <- !app_assoc.
      + cbn [ret]. rewrite bind_run. cbn [put_model modify fst snd].
        rewrite bind_run, emit_run. cbn [model trace]. rewrite bind_run.
        unfold get_model at 1, gets. cbn [model fst snd].
        rewrite bind_run, (add_or_remove_group_run _ _ INACTIVE) by apply lookup_insert_eq.
        cbn [model trace]. rewrite bind_run, emit_run, emit_run. cbn.
        by rewrite <- !app_assoc.
    - destruct (authorized env (RoleTuple [COORDINATOR; ADMIN])); cbn [andb]; [|done].
      cbn [ret]. rewrite bind_run, Hcode. cbn [lift]. rewrite bind_run.
      destruct (String.eqb code ADMIN); cbn [negb when orb andb].
      + destruct (authorized env (RoleStr ADMIN)); [|done].
        cbn [ret]. rewrite bind_run. cbn [put_model modify fst snd].
        rewrite bind_run, emit_run. cbn [model trace]. rewrite bind_run.
        unfold get_model at 1, gets. cbn [model fst snd].
        rewrite bind_run, (add_or_remove_group_run _ _ INACTIVE) by apply lookup_insert_eq.
        cbn [model trace]. rewrite bind_run, emit_run, emit_run. cbn.
        by rewrite <- !app_assoc.
      + cbn [ret]. rewrite bind_run. cbn [put_model modify fst snd].
        rewrite bind_run, emit_run. cbn [model trace]. rewrite bind_run.
        unfold get_model at 1, gets. cbn [model fst snd].
        rewrite bind_run, (add_or_remove_group_run _ _ INACTIVE) by apply lookup_insert_eq.
        cbn [model trace]. rewrite bind_run, emit_run, emit_run. cbn.
        by rewrite <- !app_assoc. }
  rewrite Hrun. split.
  - intros Hteam Howner.
    assert (String.eqb (username (user (model s))) (user_name (user_context env))
            || authorized env (RoleTuple [COORDINATOR; ADMIN]) = true) as ->.
    { apply orb_true_iff. destruct Hteam as [->%String.eqb_eq|?]; auto. }
    assert (negb (String.eqb code ADMIN) || authorized env (RoleStr ADMIN) = true) as ->.
    { apply orb_true_iff. destruct Howner as [?%String.eqb_neq|?]; [left|by right].
      by apply negb_true_iff. }
    cbn [andb]. eexists. split; [reflexivity|].
    apply Forall_forall. apply group_effects_group_calls.
  - intros Hnot. destruct (_ && _) eqn:Hall; [|done].
    exfalso. apply Hnot. apply andb_true_iff in Hall as [H1 H2].
    apply orb_true_iff in H1, H2. split.
    + destruct H1 as [?%String.eqb_eq|?]; auto.
    + destruct H2 as [?%negb_true_iff%String.eqb_neq|?]; auto.
Qed.
End membership_deactivate.

Section membership_extra_examples.
Import Py Membership.

Lemma add_or_remove_group_effects_witness :
  exists effs,
    _add_or_remove_group (env_of owner_ctx no_tables) (model sole_owner) sole_owner
    = (Ok tt, {| model := model sole_owner;
                 trace := trace sole_owner ++ effs
                            ++ [UpdateUsersProductsKeycloakGroups 7] |})
    /\ JoinAccountHoldersGroup "guid-7" ∈ effs.
Proof.
  assert (Hst : attrs (model sole_owner) !! "membership_status" = Some (PStatus ACTIVE))
    by (vm_compute; reflexivity).
  destruct (add_or_remove_group_effects (env_of owner_ctx no_tables) (model sole_owner)
              ACTIVE sole_owner Hst) as (effs & Hrun & _ & Hjoin & _).
  exists effs. split; [exact Hrun|]. by apply Hjoin.
Defined.



Lemma update_membership_saves_first_witness :
  (exists x, update_membership (env_mailer_down staff_ctx no_tables)
               {[ "membership_status" := PStatus INACTIVE ]} one_of_two_owners
             = (Raise x, one_of_two_owners))
  \/ (exists effs,
        update_membership (env_mailer_down staff_ctx no_tables)
          {[ "membership_status" := PStatus INACTIVE ]} one_of_two_owners
        = (Ok tt, {| model := apply_fields {[ "membership_status" := PStatus INACTIVE ]}
                                           (model one_of_two_owners);
                     trace := trace one_of_two_owners ++ Save :: effs |}))
  \/ (exists n x effs,
        is_staff (user_context (env_mailer_down staff_ctx no_tables)) = true
        /\ mailer (env_mailer_down staff_ctx no_tables) n = Some x
        /\ update_membership (env_mailer_down staff_ctx no_tables)
             {[ "membership_status" := PStatus INACTIVE ]} one_of_two_owners
           = (Raise x, {| model := apply_fields {[ "membership_status" := PStatus INACTIVE ]}
                                                (model one_of_two_owners);
                          trace := trace one_of_two_owners ++ Save :: effs |})).
Proof.
  apply (update_membership_saves_first _ _ _ ACTIVE).
  - right. exists INACTIVE. vm_compute. reflexivity.
  - left. vm_compute. reflexivity.
  - vm_compute. reflexivity.
Defined.

Lemma update_membership_bceid_owner_witness :
  exists x,
    update_membership (env_of owner_ctx no_tables) {[ "membership_type" := PType ADMIN ]}
                      a_bceid_member
    = (Raise x, a_bceid_member)
    /\ x = BusinessException BCEID_USERS_CANT_BE_OWNERS.
Proof.
  destruct (update_membership_bceid_owner (env_of owner_ctx no_tables)
              {[ "membership_type" := PType ADMIN ]} a_bceid_member)
    as (x & Hrun & Hx).
  - reflexivity.
  - vm_compute. reflexivity.
  - exists x. split; [exact Hrun|]. apply Hx.
    + vm_compute. reflexivity.
    + left. vm_compute. reflexivity.
    + vm_compute. discriminate.
Defined.

Lemma update_membership_sole_owner_frozen_witness :
  exists x,
    update_membership (env_of owner_ctx no_tables) {[ "membership_type" := PType ADMIN ]}
                      sole_owner
    = (Raise x, sole_owner)
    /\ x = BusinessException CHANGE_ROLE_FAILED_ONLY_OWNER.
Proof.
  destruct (update_membership_sole_owner_frozen (env_of owner_ctx no_tables)
              {[ "membership_type" := PType ADMIN ]} sole_owner)
    as (x & Hrun & Hx).
  - vm_compute. reflexivity.
  - vm_compute. reflexivity.
  - vm_compute. discriminate.
  - exists x. split; [exact Hrun|]. apply Hx.
    + vm_compute. reflexivity.
    + left. vm_compute. reflexivity.
    + vm_compute. discriminate.
    + vm_compute. discriminate.
Defined.

Lemma update_membership_notifications_witness :
  exists effs,
    trace (update_membership (env_of owner_ctx no_tables)
             {[ "membership_status" := PStatus INACTIVE ]} one_of_two_owners).2
    = trace one_of_two_owners ++ Save :: effs
    /\ PublishTeamMemberRemoved 1 7 ∈ effs.
Proof.
  destruct (update_membership_notifications (env_of owner_ctx no_tables)
              {[ "membership_status" := PStatus INACTIVE ]} one_of_two_owners
              (update_membership (env_of owner_ctx no_tables)
                 {[ "membership_status" := PStatus INACTIVE ]} one_of_two_owners).2 ACTIVE)
    as (effs & Htrace & Hremoved & _).
  - right. exists INACTIVE. vm_compute. reflexivity.
  - left. vm_compute. reflexivity.
  - vm_compute. reflexivity.
  - vm_compute. reflexivity.
  - exists effs. split; [exact Htrace|]. apply Hremoved. vm_compute. reflexivity.
Defined.

Lemma deactivate_membership_outcome_witness :
  exists effs,
    deactivate_membership (env_of erin_ctx no_tables) a_plain_member
    = (Ok tt, {| model := setattr (model a_plain_member) "membership_status"
                                  (PStatus INACTIVE);
                 trace := trace a_plain_member ++ Save :: effs
                   ++ [PublishActivity 1 REMOVE_TEAM_MEMBER 11 PNone;
                       PublishTeamMemberRemoved 1 11] |})
    /\ Forall (fun e => is_group_call e = true) effs.
Proof.
  apply (proj1 (deactivate_membership_outcome (env_of erin_ctx no_tables) a_plain_member
                  USER eq_refl)).
  - left. reflexivity.
  - left. vm_compute. discriminate.
Defined.
End membership_extra_examples.

(** * Further properties of the affiliation service *)

(** ** Dictionaries built by assignment *)

Section dict_assignment.
Import Py Affiliation.
Context {K V B : Type} `{EqDecision K} (f : B -> K) (g : B -> V).
Implicit Types (a : B) (l : list B) (d : list (K * V)) (k : K).

Lemma dict_lookup_dict_set_eq k (t : V) d : dict_lookup k (dict_set k t d) = Some t.
Proof.
  induction d as [|[k' t'] d IH]; cbn.
  - by rewrite decide_True.
  - destruct (decide (k' = k)) as [->|Hne]; cbn.
    + by rewrite decide_True.
    + by rewrite decide_False.
Qed.

Lemma dict_lookup_dict_set_ne k k' (t : V) d :
  k' <> k -> dict_lookup k (dict_set k' t d) = dict_lookup k d.
Proof.
  intros Hne. induction d as [|[k1 t1] d IH]; cbn.
  - by rewrite decide_False.
  - destruct (decide (k1 = k')) as [->|Hne1]; cbn.
    + by rewrite !decide_False.
    + destruct (decide (k1 = k)); [done|apply IH].
Qed.

(** After the assignments [d[f a] = g a] for [a] in [l], a key holds the
    value of the last [a] that has it. *)
Lemma foldl_dict_set_last k l d :
  dict_lookup k (foldl (fun d a => dict_set (f a) (g a) d) d l)
  = match last (List.filter (fun a => bool_decide (f a = k)) l) with
    | Some a => Some (g a)
    | None => dict_lookup k d
    end.
Proof.
  revert d. induction l as [|a l IH]; intros d; cbn [foldl List.filter]; [done|].
  rewrite IH. case_bool_decide as Ha.
  - destruct (List.filter _ l) as [|a' l'] eqn:Hl.
    + cbn. subst k. apply dict_lookup_dict_set_eq.
    + rewrite last_cons_cons. destruct (last (a' :: l')) eqn:E; [done|].
      by apply last_None in E.
  - destruct (last _); [done|]. by apply dict_lookup_dict_set_ne.
Qed.
End dict_assignment.

(** ** The creation time of an identifier *)

Section creation_time.
Import Py Affiliation.
Implicit Types (item : Entity) (base : AffiliationBase) (bases : list AffiliationBase).

Lemma descending_last {A} (key : A -> N) (l : list A) x y :
  descending key l -> last l = Some x -> y ∈ l -> (key x <= key y)%N.
Proof.
  unfold descending. induction 1 as [|z l Hl IH Hz]; intros Hlast Hy; [done|].
  destruct l as [|z' l'].
  - cbn in Hlast. simplify_eq. apply list_elem_of_singleton in Hy as ->. lia.
  - rewrite last_cons_cons in Hlast.
    apply elem_of_cons in Hy as [->|Hy]; [|by apply IH].
    rewrite List.Forall_forall in Hz. apply Hz. apply list_elem_of_In.
    by apply last_Some_elem_of.
Qed.

Lemma descending_filter {A} (key : A -> N) (P : A -> bool) (l : list A) :
  descending key l -> descending key (List.filter P l).
Proof.
  unfold descending. induction 1 as [|z l Hl IH Hz]; cbn; [constructor|].
  destruct (P z); [|done]. constructor; [done|].
  rewrite List.Forall_forall in Hz |- *. intros y Hy. apply Hz.
  by apply List.filter_In in Hy as [? _].
Qed.

(** [_sort_affiliations_by_created], lines 511-524, when several bases
    share an identifier: the dictionary is filled from the bases in
    descending order of creation, so the identifier keeps the creation
    time of the oldest of them, and the record is sorted by that time. *)
Theorem sort_key_oldest_base bases item base :
  base ∈ bases ->
  item_key item = JStr (base_identifier base) ->
  exists oldest,
    oldest ∈ bases
    /\ base_identifier oldest = base_identifier base
    /\ sort_key (ordered_of bases) item = created oldest
    /\ (forall b, b ∈ bases -> base_identifier b = base_identifier base ->
                  (created oldest <= created b)%N).
Proof.
  intros Hbase Hkey. unfold sort_key, ordered_of. rewrite Hkey.
  rewrite (foldl_dict_set_last (fun a => JStr (base_identifier a)) created).
  set (same := fun a : AffiliationBase =>
                 bool_decide (JStr (base_identifier a) = JStr (base_identifier base))).
  pose proof (sort_desc_perm created bases) as Hperm.
  pose proof (sort_desc_descending created bases) as Hdesc.
  assert (Hin : base ∈ List.filter same (sort_desc created bases)).
  { apply list_elem_of_In, List.filter_In. split.
    - apply list_elem_of_In. by rewrite Hperm.
    - unfold same. by apply bool_decide_eq_true. }
  destruct (last (List.filter same (sort_desc created bases))) as [oldest|] eqn:Hlast.
  2:{ apply last_None in Hlast. rewrite Hlast in Hin. by apply elem_of_nil in Hin. }
  pose proof (last_Some_elem_of _ _ Hlast) as Hold.
  apply list_elem_of_In, List.filter_In in Hold as [Hold Hsame].
  apply list_elem_of_In in Hold. unfold same in Hsame.
  apply bool_decide_eq_true in Hsame. injection Hsame as Hsame.
  exists oldest. repeat apply conj; try done.
  - by rewrite <- Hperm.
  - intros b Hb Hid.
    apply (descending_last created (List.filter same (sort_desc created bases)));
      [by apply descending_filter|done|].
    apply list_elem_of_In, List.filter_In. split.
    + apply list_elem_of_In. by rewrite Hperm.
    + unfold same. apply bool_decide_eq_true. by rewrite Hid.
Qed.

Lemma sort_key_oldest_base_witness :
  exists oldest,
    oldest ∈ [{| base_identifier := "BC1"; created := 30 |};
              {| base_identifier := "BC1"; created := 10 |};
              {| base_identifier := "BC1"; created := 20 |}]
    /\ sort_key (ordered_of [{| base_identifier := "BC1"; created := 30 |};
                             {| base_identifier := "BC1"; created := 10 |};
                             {| base_identifier := "BC1"; created := 20 |}])
                (business "BC1" None) = created oldest
    /\ (created oldest <= 10)%N.
Proof.
  destruct (sort_key_oldest_base
              [{| base_identifier := "BC1"; created := 30 |};
               {| base_identifier := "BC1"; created := 10 |};
               {| base_identifier := "BC1"; created := 20 |}]
              (business "BC1" None) {| base_identifier := "BC1"; created := 30 |})
    as (oldest & Hin & _ & Hkey & Hleast).
  - left.
  - reflexivity.
  - exists oldest. split; [exact Hin|]. split; [exact Hkey|].
    apply (Hleast {| base_identifier := "BC1"; created := 10 |}); [|reflexivity].
    right. left.
Defined.
End creation_time.

(** ** Grouping the responses *)

Section grouping_parts.
Import Py Affiliation.
Implicit Types (k : jval) (l : list NameRequest) (d : list (jval * Entity))
  (details : list Response).

Lemma add_name_requests_last k l d :
  dict_lookup k (add_name_requests d l)
  = match last (numbered k l) with
    | Some nr => Some (standalone nr)
    | None => dict_lookup k d
    end.
Proof.
  unfold add_name_requests, numbered.
  revert d. induction l as [|nr l IH]; intros d; cbn [foldl List.filter]; [done|].
  rewrite IH. case_bool_decide as Hnr.
  - rewrite Hnr. destruct (List.filter _ l) as [|a' l'] eqn:Hl.
    + cbn. apply dict_lookup_dict_set_eq.
    + rewrite last_cons_cons. destruct (last (a' :: l')) eqn:E; [done|].
      by apply last_None in E.
  - destruct (last _); [done|].
    destruct (nrNum nr) as [k'|] eqn:Hk; [|done].
    apply dict_lookup_dict_set_ne. congruence.
Qed.

Lemma group_details_split details nrs bs ds :
  _group_details details = (nrs, bs, ds) ->
  bs = concat (response_businesses <$> details)
  /\ ds = concat (response_drafts <$> details)
  /\ (forall k, dict_lookup k nrs
                = standalone <$> last (numbered k (concat (response_requests <$> details)))).
Proof.
  unfold _group_details.
  assert (Hgen : forall (acc : list (jval * Entity) * list Entity * list Entity) nrs bs ds,
             foldl (fun '(name_requests, businesses, drafts) data =>
                      let name_requests :=
                        add_name_requests name_requests (snd (_extract_name_requests data)) in
                      match data with
                      | RespList _ => (name_requests, businesses, drafts)
                      | RespDict _ _ bs ds =>
                          (name_requests, businesses ++ default [] bs, drafts ++ default [] ds)
                      end) acc details = (nrs, bs, ds) ->
             bs = acc.1.2 ++ concat (response_businesses <$> details)
             /\ ds = acc.2 ++ concat (response_drafts <$> details)
             /\ (forall k, dict_lookup k nrs
                   = match last (numbered k (concat (response_requests <$> details))) with
                     | Some nr => Some (standalone nr)
                     | None => dict_lookup k acc.1.1
                     end)).
  { induction details as [|data details IH]; intros [[nrs0 bs0] ds0] nrs' bs' ds';
      cbn [foldl fmap list_fmap concat].
    - intros [= <- <- <-]. cbn. by rewrite !app_nil_r.
    - intros Hrun. apply IH in Hrun as (Hbs & Hds & Hnrs).
      assert (Hk : forall k,
                match last (numbered k (response_requests data
                                        ++ concat (response_requests <$> details))) with
                | Some nr => Some (standalone nr)
                | None => dict_lookup k nrs0
                end
                = match last (numbered k (concat (response_requests <$> details))) with
                  | Some nr => Some (standalone nr)
                  | None => dict_lookup k (add_name_requests nrs0 (response_requests data))
                  end).
      { intros k. unfold numbered at 1. rewrite List.filter_app, last_app.
        fold (numbered k (response_requests data)).
        fold (numbered k (concat (response_requests <$> details))).
        destruct (last (numbered k (concat _))); [done|].
        by rewrite add_name_requests_last. }
      destruct data as [l|[l|] more [bl|] [dl|]]; cbn in Hbs, Hds, Hnrs |- *;
        rewrite <- ?app_assoc, ?app_nil_r in Hbs, Hds;
        (split; [exact Hbs|]); (split; [exact Hds|]);
        intros k; rewrite Hnrs; symmetry; apply Hk. }
  intros Hrun. destruct (Hgen ([], [], []) _ _ _ Hrun) as (Hbs & Hds & Hnrs).
  split; [exact Hbs|]. split; [exact Hds|].
  intros k. rewrite Hnrs. by destruct (last _).
Qed.

(** [_group_details], lines 558-579 (with [_extract_name_requests],
    lines 541-555).  The businesses and the drafts are those of the
    dictionary responses, in the order of the responses; a bare array
    contributes name requests only.  A name-request number maps to the
    standalone record of the last payload that carries it, so a payload
    returned again replaces the earlier one, and a payload without
    [nrNum] is dropped. *)
Theorem group_details_parts details nrs bs ds :
  _group_details details = (nrs, bs, ds) ->
  bs = concat (response_businesses <$> details)
  /\ ds = concat (response_drafts <$> details)
  /\ (forall k, dict_lookup k nrs
                = standalone <$> last (numbered k (concat (response_requests <$> details)))).
Proof. apply group_details_split. Qed.


Lemma group_details_parts_witness :
  dict_lookup (JStr "NR1")
    (_group_details [RespList [payload "NR1" "DRAFT"];
                     RespDict (Some [payload "NR1" "APPROVED"]) false None None]).1.1
  = Some (standalone (payload "NR1" "APPROVED")).
Proof.
  destruct (group_details_parts
              [RespList [payload "NR1" "DRAFT"];
               RespDict (Some [payload "NR1" "APPROVED"]) false None None]
              _ _ _ eq_refl) as (_ & _ & Hnrs).
  rewrite Hnrs. vm_compute. reflexivity.
Defined.
End grouping_parts.

(** ** What linking does to the records *)

Section linking_records.
Import Py Affiliation.
Implicit Types (s : Store) (h : list Entity) (e v x : Entity) (b r : nat) (flag : bool)
  (k n : jval) (ids l : list nat) (d : list (jval * Entity)).

Lemma dict_lookup_elem n d v : dict_lookup n d = Some v -> (n, v) ∈ d.
Proof.
  induction d as [|[k' v'] d IH]; cbn; [done|].
  destruct (decide (k' = n)) as [->|Hne].
  - intros [= ->]. left.
  - intros Hn. right. by apply IH.
Qed.

Lemma dict_elem_lookup n d v : NoDup (dict_keys d) -> (n, v) ∈ d -> dict_lookup n d = Some v.
Proof.
  unfold dict_keys. induction d as [|[k' v'] d IH]; cbn; intros Hnd Hin.
  - by apply elem_of_nil in Hin.
  - apply NoDup_cons in Hnd as [Hk' Hnd].
    apply elem_of_cons in Hin as [[= <- <-]|Hin]; [by rewrite decide_True|].
    rewrite decide_False; [by apply IH|].
    intros ->. apply Hk'. apply list_elem_of_fmap. by exists (n, v).
Qed.

Lemma dict_lookup_sublist_some n d d' v :
  sublist d' d -> NoDup (dict_keys d) -> dict_lookup n d' = Some v -> dict_lookup n d = Some v.
Proof.
  intros Hsub Hnd Hn. apply dict_elem_lookup; [done|].
  eapply elem_of_sublist; [|exact Hsub]. by apply dict_lookup_elem.
Qed.

Lemma list_remove_sublist h x l l' : list_remove h x l = Some l' -> sublist l' l.
Proof.
  revert l'. induction l as [|r l IH]; intros l' Hrm; cbn in Hrm; [done|].
  case_bool_decide.
  - simplify_eq. by apply sublist_cons.
  - destruct (list_remove h x l) as [l1|]; cbn in Hrm; [|done]. simplify_eq.
    apply sublist_skip. by apply IH.
Qed.

Lemma well_keyed_lookup d n record :
  well_keyed d -> dict_lookup n d = Some record ->
  exists nr, record = standalone nr /\ nrNum nr = Some n.
Proof.
  unfold well_keyed. rewrite Forall_forall. intros Hwk Hn.
  apply (Hwk (n, record)). by apply dict_lookup_elem.
Qed.

Lemma visit_reached flag b s s' h0 nrs0 drafts0 :
  NoDup (dict_keys nrs0) -> well_keyed nrs0 ->
  b < length h0 ->
  reached h0 nrs0 drafts0 s ->
  visit flag b s = Ok s' ->
  reached h0 nrs0 drafts0 s'.
Proof.
  intros Hnd Hwk Hb (Hlen & Hsub & Hdr & Hrec) Hvisit. unfold visit in Hvisit.
  destruct (nrNumber (deref (heap s) b)) as [n|] eqn:Hn; [|by simplify_eq].
  destruct (truthy n) eqn:Htn; [|by simplify_eq].
  destruct (dict_lookup n (name_requests s)) as [record|] eqn:Hlook.
  - destruct (nameRequest record) as [nr|] eqn:Hnr; [|done].
    destruct (linked (deref (heap s) b) nr) as [e2|] eqn:Hlinked; [|done].
    destruct (stateCd nr) as [st|]; [|done].
    assert (Horig : deref (heap s) b = deref h0 b).
    { destruct (Hrec b Hb) as [?|(n0 & nr0 & Hn0 & _ & _ & Hl0 & Hnone)]; [done|].
      apply linked_fields in Hl0 as (Hn0' & _). rewrite Hn0, Hn in Hn0'.
      by simplify_eq. }
    pose proof (dict_lookup_sublist_some _ _ _ _ Hsub Hnd Hlook) as Hlook0.
    destruct (well_keyed_lookup _ _ _ Hwk Hlook0) as (nr' & -> & _).
    cbn in Hnr. simplify_eq.
    assert (Hshape : name_requests s' = dict_del n (name_requests s)
                     /\ heap s' = <[b := e2]> (heap s)
                     /\ sublist (drafts s') (drafts s)).
    { destruct (bool_decide (st = JStr CONSUMED)).
      - destruct (list_remove _ e2 (drafts s)) as [l|] eqn:Hrm; [|done].
        simplify_eq. cbn [heap drafts name_requests]. repeat apply conj; try done.
        by eapply list_remove_sublist.
      - by simplify_eq. }
    destruct Hshape as (Hnrs & Hheap & Hdr').
    unfold reached. rewrite Hnrs, Hheap, length_insert.
    split; [done|]. split; [by etrans; [apply dict_del_sublist|]|].
    split; [by etrans|].
    intros r Hr. destruct (decide (b = r)) as [<-|Hne].
    + right. exists n, nr. rewrite deref_insert_eq by lia.
      rewrite <- Horig. repeat apply conj; try done.
      apply dict_lookup_del. by eapply sublist_keys_NoDup.
    + rewrite deref_insert_ne by done.
      destruct (Hrec r Hr) as [?|(n0 & nr0 & ? & ? & ? & ? & Hnone)]; [by left|].
      right. exists n0, nr0. repeat apply conj; try done.
      by apply dict_lookup_del_none.
  - destruct (flag && list_contains (heap s) (deref (heap s) b) (drafts s)).
    + destruct (list_remove _ _ (drafts s)) as [l|] eqn:Hrm; [|done].
      simplify_eq. unfold reached. cbn [heap drafts name_requests with_drafts].
      repeat apply conj; try done. etrans; [|exact Hdr]. by eapply list_remove_sublist.
    + by simplify_eq.
Qed.

Lemma visits_reached flag ids s s' h0 nrs0 drafts0 :
  NoDup (dict_keys nrs0) -> well_keyed nrs0 ->
  Forall (fun b => b < length h0) ids ->
  reached h0 nrs0 drafts0 s ->
  visits flag ids s = Ok s' ->
  reached h0 nrs0 drafts0 s'.
Proof.
  intros Hnd Hwk. revert s. induction ids as [|b ids IH]; intros s Hids Hs Hrun; cbn in Hrun.
  - by simplify_eq.
  - apply Forall_cons in Hids as [Hb Hids].
    destruct (visit flag b s) as [s1|] eqn:Hvisit; [|done].
    apply (IH s1); try done. by eapply visit_reached.
Qed.

Lemma fresh_store_reached nrs bs ds :
  reached (ds ++ bs) nrs (seq 0 (length ds)) (fresh_store nrs bs ds).
Proof. unfold reached, fresh_store. cbn. repeat apply conj; try done. intros; by left. Qed.

Lemma reached_linked_to h0 nrs0 drafts0 s r :
  reached h0 nrs0 drafts0 s -> r < length h0 ->
  linked_to nrs0 (deref h0 r) (deref (heap s) r).
Proof.
  intros (_ & _ & _ & Hrec) Hr.
  destruct (Hrec r Hr) as [?|(n & nr & ? & ? & ? & ? & _)]; [by left|].
  right. by exists n, nr.
Qed.

Lemma combine_details_parts details nrs bs ds flag res :
  _group_details details = (nrs, bs, ds) ->
  _combine_affiliation_details details flag = Ok res ->
  exists standalones kept ds' bs',
    res = standalones ++ kept ++ bs'
    /\ sublist standalones (dict_values nrs)
    /\ sublist kept ds'
    /\ Forall2 (linked_to nrs) ds ds'
    /\ Forall2 (linked_to nrs) bs bs'.
Proof.
  intros Hgroup Hres.
  destruct (combine_details_visits _ _ _ _ _ _ Hgroup Hres) as [Hvisits ->].
  destruct (group_details_inv _ _ _ _ Hgroup) as [Hnd Hwk].
  set (s' := final_store nrs bs ds flag) in *.
  assert (Hreach : reached (ds ++ bs) nrs (seq 0 (length ds)) s').
  { eapply visits_reached; [exact Hnd|exact Hwk| |apply fresh_store_reached|exact Hvisits].
    pose proof (fresh_store_refs nrs bs ds) as Hvalid. cbn in Hvalid. exact Hvalid. }
  pose proof Hreach as (Hlen & Hsub & Hdr & _).
  exists (standalone_records s'), (kept_drafts s'),
    (deref (heap s') <$> seq 0 (length ds)), (business_records bs ds s').
  split; [reflexivity|]. split; [by apply fmap_sublist|].
  split; [by apply fmap_sublist|]. split.
  - apply Forall2_same_length_lookup_2; [by rewrite length_fmap, length_seq|].
    intros i x y Hx Hy. rewrite list_lookup_fmap in Hy.
    pose proof (lookup_lt_Some _ _ _ Hx) as Hi.
    rewrite lookup_seq_lt in Hy by done. cbn in Hy. simplify_eq.
    assert (Hx0 : deref (ds ++ bs) i = x).
    { unfold deref. apply list_lookup_total_correct. by apply lookup_app_l_Some. }
    rewrite <- Hx0. eapply reached_linked_to; [exact Hreach|]. rewrite length_app. lia.
  - unfold business_records, business_refs.
    apply Forall2_same_length_lookup_2; [by rewrite length_fmap, length_seq|].
    intros i x y Hx Hy. rewrite list_lookup_fmap in Hy.
    pose proof (lookup_lt_Some _ _ _ Hx) as Hi.
    rewrite lookup_seq_lt in Hy by done. cbn in Hy. simplify_eq.
    assert (Hx0 : deref (ds ++ bs) (length ds + i) = x).
    { unfold deref. apply list_lookup_total_correct.
      rewrite lookup_app_r by lia. by replace (length ds + i - length ds) with i by lia. }
    rewrite <- Hx0. eapply reached_linked_to; [exact Hreach|]. rewrite length_app. lia.
Qed.

(** [_combine_nrs], lines 604-612 (with [_process_nr_for_business] and
    [_update_draft_type_for_amalgamation_nr], lines 581-602): what the
    combined list is made of.  It is standalone records of the mapping,
    in the order of the mapping, then drafts, then the businesses.  Every
    business of the input is there, once and in its place; the drafts
    are drafts of the input in their order, some left out; and each of
    these records is as it came or linked to the payload that the
    mapping held for its name-request number. *)
Theorem combine_links_records details nrs bs ds flag res :
  _group_details details = (nrs, bs, ds) ->
  _combine_affiliation_details details flag = Ok res ->
  exists standalones kept ds' bs',
    res = standalones ++ kept ++ bs'
    /\ sublist standalones (dict_values nrs)
    /\ sublist kept ds'
    /\ Forall2 (linked_to nrs) ds ds'
    /\ Forall2 (linked_to nrs) bs bs'.
Proof. apply combine_details_parts. Qed.

Lemma combine_links_records_witness :
  exists standalones kept ds' bs',
    [standalone (payload "NR2" "APPROVED");
     set_nameRequest (draft "T1" (Some "NR1")) (payload "NR1" "APPROVED");
     business "BC1" None]
    = standalones ++ kept ++ bs'
    /\ sublist kept ds'
    /\ Forall2 (linked_to [(JStr "NR1", standalone (payload "NR1" "APPROVED"));
                           (JStr "NR2", standalone (payload "NR2" "APPROVED"))])
               [business "BC1" None] bs'.
Proof.
  destruct (combine_links_records linked_draft _ _ _ true _ eq_refl eq_refl)
    as (standalones & kept & ds' & bs' & Hres & _ & Hkept & _ & Hbs).
  by exists standalones, kept, ds', bs'.
Defined.

(** *** Payloads with which the call returns *)

Lemma visit_returns flag b s :
  (forall k v, (k, v) ∈ name_requests s -> exists nr, v = standalone nr /\ unconsumed nr) ->
  exists s', visit flag b s = Ok s'.
Proof.
  intros Hnrs. unfold visit.
  destruct (nrNumber (deref (heap s) b)) as [n|]; [|by eexists].
  destruct (truthy n); [|by eexists].
  destruct (dict_lookup n (name_requests s)) as [record|] eqn:Hlook.
  - destruct (Hnrs n record (dict_lookup_elem _ _ _ Hlook))
      as (nr & -> & (st & Hst & Hne) & Hcd).
    cbn [nameRequest standalone]. unfold linked.
    destruct (request_action_cd nr) as [cd|]; [|done].
    rewrite Hst, (bool_decide_eq_false_2 (st = JStr CONSUMED)) by done.
    destruct (truthy _); by eexists.
  - destruct (flag && list_contains (heap s) (deref (heap s) b) (drafts s)) eqn:Hfc;
      [|by eexists].
    apply andb_true_iff in Hfc as [_ Hc].
    destruct (list_contains_remove _ _ _ Hc) as [l ->]. by eexists.
Qed.

Lemma visits_returns flag ids s :
  valid_refs s ids ->
  NoDup (dict_keys (name_requests s)) ->
  (forall k v, (k, v) ∈ name_requests s -> exists nr, v = standalone nr /\ unconsumed nr) ->
  exists s', visits flag ids s = Ok s'.
Proof.
  revert s. induction ids as [|b ids IH]; intros s Hids Hnd Hnrs; cbn; [by eexists|].
  apply Forall_cons in Hids as [Hb Hids].
  destruct (visit_returns flag b s Hnrs) as [s1 Hvisit]. rewrite Hvisit.
  destruct (visit_numbers flag b s s1 Hb Hnd Hvisit) as (Hsub & _).
  apply IH.
  - by eapply valid_refs_visit.
  - by eapply sublist_keys_NoDup.
  - intros k v Hkv. apply (Hnrs k). by eapply elem_of_sublist.
Qed.

(** [_combine_affiliation_details], lines 614-618: when every name
    request of the responses has a state other than CONSUMED and an
    action code, the call returns. *)
Theorem combine_details_returns details flag :
  (forall nr, nr ∈ concat (response_requests <$> details) -> unconsumed nr) ->
  exists res, _combine_affiliation_details details flag = Ok res.
Proof.
  intros Hpayloads. unfold _combine_affiliation_details.
  destruct (_group_details details) as [[nrs bs] ds] eqn:Hgroup.
  destruct (group_details_inv _ _ _ _ Hgroup) as [Hnd Hwk].
  destruct (group_details_split _ _ _ _ Hgroup) as (_ & _ & Hlast).
  pose proof (combine_grouped_visits nrs bs ds flag) as Hrun.
  destruct (visits_returns flag (seq 0 (length ds) ++ business_refs bs ds)
              (fresh_store nrs bs ds)) as [s' Hvisits].
  - apply fresh_store_refs.
  - exact Hnd.
  - intros k v Hkv. cbn in Hkv.
    pose proof (dict_elem_lookup _ _ _ Hnd Hkv) as Hk. rewrite Hlast in Hk.
    destruct (last _) as [nr|] eqn:Hnr; [|done]. cbn in Hk. simplify_eq.
    exists nr. split; [done|]. apply Hpayloads.
    apply last_Some_elem_of, list_elem_of_In, List.filter_In in Hnr as [Hnr _].
    by apply list_elem_of_In.
  - rewrite Hvisits in Hrun. rewrite Hrun. by eexists.
Qed.

Lemma combine_details_returns_witness :
  exists res, _combine_affiliation_details linked_draft true = Ok res.
Proof.
  apply combine_details_returns. intros nr Hnr. vm_compute in Hnr.
  repeat (apply elem_of_cons in Hnr as [->|Hnr]);
    [| |by apply elem_of_nil in Hnr];
    (split; [eexists; split; [reflexivity|discriminate]|discriminate]).
Defined.
End linking_records.

(** ** The identifiers of the combined list *)

Section combined_identifiers.
Import Py Affiliation.
Implicit Types (e : Entity) (flag : bool) (nrs : list (jval * Entity)) (bs ds l : list Entity).

Lemma linked_to_item_key nrs e e' :
  identifier e <> None -> linked_to nrs e e' -> item_key e' = item_key e.
Proof.
  intros Hid [->|(n & nr & _ & _ & _ & Hl)]; [done|].
  apply linked_fields in Hl as (_ & _ & Hi). unfold item_key. rewrite Hi.
  by destruct (identifier e).
Qed.

Lemma linked_item_keys nrs l l' :
  Forall (fun e => identifier e <> None) l ->
  Forall2 (linked_to nrs) l l' ->
  item_key <$> l' = item_key <$> l.
Proof.
  intros Hid Hl. induction Hl as [|e e' l l' He Hl IH]; [done|].
  apply Forall_cons in Hid as [Hide Hid]. cbn.
  by rewrite (linked_to_item_key _ _ _ Hide He), IH.
Qed.

(** C5, as the code has it.  When the call returns, the combined list is
    the standalone name-request records, then the kept drafts, then the
    businesses.  No name-request number appears twice among the
    standalone records, and a number carried by a draft or a business of
    the list is the number of no standalone record.  The call removes no
    duplicate of its own: no identifier appears twice in the combined
    list when the grouped records, the name requests, the drafts and the
    businesses, each draft and business with an identifier, came with
    distinct identifiers. *)
Theorem combined_name_requests details nrs bs ds flag res :
  _group_details details = (nrs, bs, ds) ->
  _combine_affiliation_details details flag = Ok res ->
  res = standalone_records (final_store nrs bs ds flag)
        ++ kept_drafts (final_store nrs bs ds flag)
        ++ business_records bs ds (final_store nrs bs ds flag)
  /\ NoDup (item_key <$> standalone_records (final_store nrs bs ds flag))
  /\ (forall e n,
        e ∈ kept_drafts (final_store nrs bs ds flag)
            ++ business_records bs ds (final_store nrs bs ds flag) ->
        nrNumber e = Some n -> truthy n = true ->
        n ∉ item_key <$> standalone_records (final_store nrs bs ds flag))
  /\ (Forall (fun e => identifier e <> None) (ds ++ bs) ->
      NoDup (item_key <$> (dict_values nrs ++ ds ++ bs)) ->
      NoDup (item_key <$> res)).
Proof.
  intros Hgroup Hres.
  destruct (combined_numbers _ _ _ _ _ _ Hgroup Hres) as (Hparts & Hnd & Hnum).
  split; [exact Hparts|]. split; [exact Hnd|]. split; [exact Hnum|].
  intros Hid Hkeys.
  destruct (combine_details_parts _ _ _ _ _ _ Hgroup Hres)
    as (standalones & kept & ds' & bs' & -> & Hsub & Hkept & Hds & Hbs).
  apply Forall_app in Hid as [Hidd Hidb].
  eapply sublist_NoDup; [exact Hkeys|].
  rewrite !fmap_app. apply sublist_app; [by apply fmap_sublist|].
  apply sublist_app.
  - rewrite <- (linked_item_keys _ _ _ Hidd Hds). by apply fmap_sublist.
  - by rewrite (linked_item_keys _ _ _ Hidb Hbs).
Qed.

(** C5: both copies of a business that a response lists twice are in the
    combined list, so an identifier appears twice. *)
Lemma duplicate_identifier_survives :
  _combine_affiliation_details repeated_business true
  = Ok [business "BC1" None; business "BC1" None]
  /\ ~ NoDup (item_key <$> [business "BC1" None; business "BC1" None]).
Proof.
  split; [vm_compute; reflexivity|].
  intros Hnd. apply NoDup_cons in Hnd as [Hnot _]. apply Hnot. left.
Qed.

Lemma combined_name_requests_witness :
  _combine_affiliation_details linked_draft true
  = Ok [standalone (payload "NR2" "APPROVED");
        set_nameRequest (draft "T1" (Some "NR1")) (payload "NR1" "APPROVED");
        business "BC1" None]
  /\ NoDup (item_key <$> [standalone (payload "NR2" "APPROVED");
                          set_nameRequest (draft "T1" (Some "NR1"))
                                          (payload "NR1" "APPROVED");
                          business "BC1" None]).
Proof.
  assert (Hgroup : _group_details linked_draft
    = ([(JStr "NR1", standalone (payload "NR1" "APPROVED"));
        (JStr "NR2", standalone (payload "NR2" "APPROVED"))],
       [business "BC1" None], [draft "T1" (Some "NR1")])) by (vm_compute; reflexivity).
  assert (Hres : _combine_affiliation_details linked_draft true
     = Ok [standalone (payload "NR2" "APPROVED");
           set_nameRequest (draft "T1" (Some "NR1")) (payload "NR1" "APPROVED");
           business "BC1" None]) by (vm_compute; reflexivity).
  split; [exact Hres|].
  refine (proj2 (proj2 (proj2 (combined_name_requests _ _ _ _ _ _ Hgroup Hres))) _ _).
  - repeat constructor; discriminate.
  - apply (bool_decide_unpack _). vm_compute. reflexivity.
Defined.
End combined_identifiers.

(** ** The affiliations shown for an org *)

Section visible_affiliation_proofs.
Import Py Affiliation.
Implicit Types (e t : AffiliatedEntity) (data l : list AffiliatedEntity)
  (nr_numbers tmp : list string) (dict : list (string * string)).

Lemma result_bind_ok {A B} (r : result A) (k : A -> result B) b :
  r ≫= k = Ok b -> exists a, r = Ok a /\ k a = Ok b.
Proof. destruct r as [a|]; [|done]. intros H. by exists a. Qed.

Lemma tmp_business_names_spec data tmp identifier :
  tmp_business_names data = Ok tmp ->
  identifier ∈ tmp <-> named_by_temp data identifier = true.
Proof.
  unfold named_by_temp.
  revert tmp. induction data as [|d data IH]; intros tmp Hrun; cbn in Hrun |- *.
  - simplify_eq. split; [by intros ?%elem_of_nil|done].
  - apply result_bind_ok in Hrun as (code & Hcode & Hrun).
    unfold temp_code at 1. destruct (aff_corp_type_code d) as [c|]; [|done].
    cbn in Hcode. simplify_eq.
    destruct (bool_decide (code ∈ temp_types)); cbn [andb orb].
    + apply result_bind_ok in Hrun as (name & Hname & Hrun).
      apply result_bind_ok in Hrun as (rest & Hrest & Hrun). simplify_eq.
      destruct (aff_name d) as [nm|]; [|done]. cbn in Hname. simplify_eq.
      rewrite elem_of_cons, orb_true_iff, (IH rest Hrest), bool_decide_eq_true.
      split; intros [?|?]; auto; left; congruence.
    + by apply IH.
Qed.

Lemma filter_loop_listed data tmp nr_numbers dict l res :
  (forall identifier, identifier ∈ tmp <-> named_by_temp data identifier = true) ->
  filter_loop tmp nr_numbers dict l = Ok res ->
  Forall2 (shown_as nr_numbers dict) (List.filter (listed data nr_numbers) l) res.
Proof.
  intros Htmp. revert res. induction l as [|e l IH]; intros res Hrun; cbn in Hrun.
  - simplify_eq. constructor.
  - apply result_bind_ok in Hrun as (code & Hcode & Hrun).
    apply result_bind_ok in Hrun as (name & Hname & Hrun).
    apply result_bind_ok in Hrun as (identifier & Hid & Hrun).
    cbn [List.filter]. unfold listed at 1.
    destruct (aff_corp_type_code e) as [c|] eqn:Hc; [|done].
    destruct (aff_name e) as [nm|] eqn:Hn; [|done].
    destruct (aff_business_identifier e) as [i|] eqn:Hi; [|done].
    cbn in Hcode, Hname, Hid. simplify_eq.
    destruct (String.eqb code NR) eqn:Hnr.
    + apply String.eqb_eq in Hnr as ->. cbn [andb] in Hrun.
      rewrite (bool_decide_eq_false_2 (NR ∈ temp_types)) in Hrun
        by (vm_compute; intros H; repeat (apply elem_of_cons in H as [H|H]; [done|]);
            by apply elem_of_nil in H).
      case_bool_decide as Hin.
      * apply Htmp in Hin as ->. cbn. by apply IH.
      * assert (named_by_temp data identifier = false) as ->.
        { apply not_true_is_false. intros H. by apply Hin, Htmp. }
        cbn. apply result_bind_ok in Hrun as (rest & Hrest & Hrun). simplify_eq.
        constructor; [|by apply IH].
        unfold shown_as, temp_code. rewrite Hn, Hc.
        rewrite (bool_decide_eq_false_2 (NR ∈ temp_types))
          by (vm_compute; intros H; repeat (apply elem_of_cons in H as [H|H]; [done|]);
              by apply elem_of_nil in H).
        done.
    + cbn [andb] in Hrun.
      destruct (bool_decide (code ∈ temp_types)) eqn:Htemp.
      * destruct (bool_decide (name ∈ nr_numbers)) eqn:Hnum; cbn [negb andb orb] in Hrun |- *.
        -- apply result_bind_ok in Hrun as (full & Hfull & Hrun).
           apply result_bind_ok in Hrun as (rest & Hrest & Hrun). simplify_eq.
           constructor; [|by apply IH].
           unfold shown_as, temp_code. rewrite Hn, Hc, Htemp, Hnum. cbn.
           exists full. split; [|done].
           destruct (dict_lookup name dict); cbn in Hfull; by simplify_eq.
        -- destruct (String.eqb name identifier) eqn:Hsame; cbn [negb] in Hrun.
           ++ apply result_bind_ok in Hrun as (rest & Hrest & Hrun). simplify_eq.
              constructor; [|by apply IH].
              unfold shown_as, temp_code. rewrite Hn, Hc, Htemp, Hnum. done.
           ++ by apply IH.
      * apply result_bind_ok in Hrun as (rest & Hrest & Hrun). simplify_eq.
        constructor; [|by apply IH].
        unfold shown_as, temp_code. rewrite Hn, Hc, Htemp. done.
Qed.

Lemma filter_affiliations_shown data nr_numbers dict res :
  filter_affiliations data nr_numbers dict = Ok res ->
  Forall2 (shown_as nr_numbers dict) (List.filter (listed data nr_numbers) data) res.
Proof.
  unfold filter_affiliations. intros Hrun.
  apply result_bind_ok in Hrun as (tmp & Htmp & Hrun).
  eapply filter_loop_listed; [|exact Hrun].
  intros identifier. by apply tmp_business_names_spec.
Qed.

(** [filter_affiliations], lines 98-123.  When the call returns, it lists
    the affiliations of [data] in their order, leaving out a name
    request that a temporary business is named by and a temporary
    business whose name is neither a name-request number nor its own
    identifier; a temporary business named by a name-request number is
    shown with that number as [nr_number] and under the name the
    dictionary holds for the number, every other one as it is. *)
Theorem filter_affiliations_listed data nr_numbers dict res :
  filter_affiliations data nr_numbers dict = Ok res ->
  Forall2 (shown_as nr_numbers dict) (List.filter (listed data nr_numbers) data) res.
Proof. apply filter_affiliations_shown. Qed.

Lemma dict_lookup_keys {V} (k : string) (d : list (string * V)) :
  k ∈ dict_keys d <-> exists v, dict_lookup k d = Some v.
Proof.
  unfold dict_keys. induction d as [|[k' v'] d IH]; cbn.
  - split; [by intros ?%elem_of_nil|by intros [? ?]].
  - rewrite elem_of_cons, IH. destruct (decide (k' = k)) as [->|Hne].
    + split; [by eexists|by left].
    + split; [intros [?|?]; congruence|by right].
Qed.

Lemma nr_names_last acc data dict number :
  nr_names acc data = Ok dict ->
  dict_lookup number dict
  = match last (requests_numbered number data) with
    | Some nr => aff_name nr
    | None => dict_lookup number acc
    end.
Proof.
  unfold requests_numbered.
  revert acc. induction data as [|d data IH]; intros acc Hrun; cbn in Hrun.
  - by simplify_eq.
  - apply result_bind_ok in Hrun as (code & Hcode & Hrun).
    cbn [List.filter].
    destruct (aff_corp_type_code d) as [c|] eqn:Hc; [|done]. cbn in Hcode. simplify_eq.
    destruct (String.eqb code NR) eqn:Hnr.
    + apply String.eqb_eq in Hnr as ->.
      apply result_bind_ok in Hrun as (identifier & Hid & Hrun).
      apply result_bind_ok in Hrun as (name & Hname & Hrun).
      destruct (aff_business_identifier d) as [i|] eqn:Hi; [|done].
      destruct (aff_name d) as [nm|] eqn:Hn; [|done].
      cbn in Hid, Hname. simplify_eq.
      rewrite (IH _ Hrun). rewrite bool_decide_eq_true_2 by done. cbn [andb].
      case_bool_decide as Hsame.
      * simplify_eq. destruct (List.filter _ data) as [|a' l'] eqn:Hl.
        -- cbn. rewrite Hn. apply dict_lookup_dict_set_eq.
        -- rewrite last_cons_cons. destruct (last (a' :: l')) eqn:E; [done|].
           by apply last_None in E.
      * destruct (last _); [done|]. apply dict_lookup_dict_set_ne. congruence.
    + rewrite (IH _ Hrun).
      rewrite (bool_decide_eq_false_2 (Some code = Some NR)); [done|].
      intros [= ->]. by rewrite String.eqb_refl in Hnr.
Qed.

(** [find_visible_affiliations_by_org_id], lines 79-96.  For an org the
    caller may see, when the call returns it lists the affiliations as
    [filter_affiliations] does, with the identifiers of the org's name
    requests as the name-request numbers, each under the name of the last
    name request that has it.  So no name request is shown beside a
    temporary business that is named by it.  Without such an org the
    call raises DATA_NOT_FOUND. *)
Theorem visible_affiliations {Org : Type} (org : option Org) data res :
  find_visible_affiliations_by_org_id org data = Returns res ->
  org <> None
  /\ (exists dict,
        Forall2 (shown_as (dict_keys dict) dict)
                (List.filter (listed data (dict_keys dict)) data) res
        /\ forall number,
             dict_lookup number dict
             = last (requests_numbered number data) ≫= aff_name)
  /\ (forall e identifier,
        e ∈ res -> aff_corp_type_code e = Some NR ->
        aff_business_identifier e = Some identifier ->
        named_by_temp data identifier = false).
Proof.
  unfold find_visible_affiliations_by_org_id. destruct org as [o|]; [|done].
  intros Hrun. split; [done|].
  destruct (nr_names [] data) as [dict|] eqn:Hdict; [|done]. cbn in Hrun.
  destruct (filter_affiliations data (dict_keys dict) dict) as [res'|] eqn:Hres; [|done].
  cbn in Hrun. simplify_eq.
  pose proof (filter_affiliations_shown _ _ _ _ Hres) as Hshown.
  split.
  - exists dict. split; [done|]. intros number.
    rewrite (nr_names_last _ _ _ number Hdict). by destruct (last _).
  - intros e identifier He Hcode Hid.
    destruct (list_elem_of_lookup_1 _ _ He) as [i Hi].
    destruct (Forall2_lookup_r _ _ _ _ _ Hshown Hi) as (e0 & He0 & Hsh).
    apply list_elem_of_lookup_2, list_elem_of_In, List.filter_In in He0 as [_ Hlisted].
    assert (e = e0) as <-.
    { revert Hsh. unfold shown_as. destruct (aff_name e0); [|done].
      destruct (temp_code e0 && _) eqn:Htemp; [|done].
      intros (full & _ & ->). cbn in Hcode.
      apply andb_true_iff in Htemp as [Htemp _]. unfold temp_code in Htemp.
      rewrite Hcode in Htemp. apply bool_decide_eq_true in Htemp.
      exfalso. revert Htemp. vm_compute. intros H.
      repeat (apply elem_of_cons in H as [H|H]; [done|]). by apply elem_of_nil in H. }
    revert Hlisted. unfold listed. rewrite Hcode, Hid.
    destruct (aff_name e); [|done]. rewrite String.eqb_refl.
    by intros ->%negb_true_iff.
Qed.

Lemma filter_affiliations_listed_witness :
  Forall2 (shown_as ["NR 1"] [("NR 1", "ACME LTD.")])
    (List.filter (listed [affiliated "ACME LTD." "NR 1" NR None;
                          affiliated "NR 1" "T1" TMP None] ["NR 1"])
                 [affiliated "ACME LTD." "NR 1" NR None; affiliated "NR 1" "T1" TMP None])
    [affiliated "ACME LTD." "T1" TMP (Some "NR 1")].
Proof. apply filter_affiliations_listed. vm_compute. reflexivity. Defined.

Lemma visible_affiliations_witness :
  Some tt <> None
  /\ exists dict,
       Forall2 (shown_as (dict_keys dict) dict)
         (List.filter (listed [affiliated "ACME LTD." "NR 1" NR None;
                               affiliated "NR 1" "T1" TMP None;
                               affiliated "0123 LTD." "BC0123" "BC" None] (dict_keys dict))
            [affiliated "ACME LTD." "NR 1" NR None;
             affiliated "NR 1" "T1" TMP None;
             affiliated "0123 LTD." "BC0123" "BC" None])
         [affiliated "ACME LTD." "T1" TMP (Some "NR 1");
          affiliated "0123 LTD." "BC0123" "BC" None].
Proof.
  destruct (visible_affiliations (Some tt)
              [affiliated "ACME LTD." "NR 1" NR None;
               affiliated "NR 1" "T1" TMP None;
               affiliated "0123 LTD." "BC0123" "BC" None]
              [affiliated "ACME LTD." "T1" TMP (Some "NR 1");
               affiliated "0123 LTD." "BC0123" "BC" None])
    as (Horg & (dict & Hshown & _) & _).
  - vm_compute. reflexivity.
  - split; [exact Horg|]. by exists dict.
Defined.
End visible_affiliation_proofs.

(** ** The registry calls *)

Section registry_calls.
Import Py Affiliation.

Section grouping_by_key.
Context {K B C : Type} `{EqDecision K} (f : B -> K) (g : B -> C).
Implicit Types (a : B) (l : list B) (d : list (K * list C)) (k : K).

Lemma dict_keys_dict_set {V} k (t : V) (d : list (K * V)) :
  dict_keys (dict_set k t d)
  = if bool_decide (k ∈ dict_keys d) then dict_keys d else dict_keys d ++ [k].
Proof.
  unfold dict_keys. induction d as [|[k' v'] d IH]; cbn.
  - rewrite bool_decide_eq_false_2; [done|apply not_elem_of_nil].
  - destruct (decide (k' = k)) as [->|Hne]; cbn.
    + rewrite bool_decide_eq_true_2; [done|left].
    + rewrite IH. case_bool_decide as Hk.
      * rewrite bool_decide_eq_true_2; [done|by right].
      * rewrite bool_decide_eq_false_2; [done|]. rewrite not_elem_of_cons.
        split; [congruence|done].
Qed.

Lemma dict_set_keys_NoDup {V} k (t : V) (d : list (K * V)) :
  NoDup (dict_keys d) -> NoDup (dict_keys (dict_set k t d)).
Proof.
  intros Hd. rewrite dict_keys_dict_set. case_bool_decide as Hk; [done|].
  apply NoDup_app. split; [done|]. split; [|apply NoDup_singleton].
  intros y Hy Hy'. apply list_elem_of_singleton in Hy' as ->. done.
Qed.

Lemma dict_member_lookup {V} k (v : V) (d : list (K * V)) :
  NoDup (dict_keys d) -> (k, v) ∈ d -> dict_lookup k d = Some v.
Proof.
  unfold dict_keys. induction d as [|[k' v'] d IH]; cbn; intros Hnd Hin.
  - by apply elem_of_nil in Hin.
  - apply NoDup_cons in Hnd as [Hk' Hnd].
    apply elem_of_cons in Hin as [[= <- <-]|Hin]; [by rewrite decide_True|].
    rewrite decide_False; [by apply IH|].
    intros ->. apply Hk'. apply list_elem_of_fmap. by exists (k, v).
Qed.

Lemma grouped_snoc l a :
  grouped f g (l ++ [a])
  = dict_set (f a) (default [] (dict_lookup (f a) (grouped f g l)) ++ [g a]) (grouped f g l).
Proof. unfold grouped. by rewrite foldl_snoc. Qed.

Lemma grouped_lookup l k :
  dict_lookup k (grouped f g l)
  = match List.filter (fun a => bool_decide (f a = k)) l with
    | [] => None
    | a :: l' => Some (g <$> a :: l')
    end.
Proof.
  induction l as [|a l IH] using rev_ind; [done|].
  rewrite grouped_snoc, List.filter_app. cbn [List.filter].
  case_bool_decide as Ha.
  - subst k. rewrite dict_lookup_dict_set_eq, IH.
    destruct (List.filter _ l) as [|a' l']; cbn; [done|].
    by rewrite fmap_app.
  - rewrite dict_lookup_dict_set_ne by done. rewrite IH, app_nil_r. done.
Qed.

Lemma grouped_NoDup l : NoDup (dict_keys (grouped f g l)).
Proof.
  induction l as [|a l IH] using rev_ind; [apply NoDup_nil_2|].
  rewrite grouped_snoc. by apply dict_set_keys_NoDup.
Qed.

Lemma grouped_keys l k : k ∈ dict_keys (grouped f g l) <-> exists a, a ∈ l /\ f a = k.
Proof.
  induction l as [|a l IH] using rev_ind.
  - split; [by intros ?%elem_of_nil|]. by intros (a & ?%elem_of_nil & _).
  - rewrite grouped_snoc, dict_keys_dict_set. case_bool_decide as Hk.
    + rewrite IH. split.
      * intros (a' & Ha' & Hf). exists a'. split; [|done]. apply elem_of_app. by left.
      * intros (a' & Ha' & Hf). apply elem_of_app in Ha' as [Ha'|Ha'].
        -- by exists a'.
        -- apply list_elem_of_singleton in Ha' as ->. subst k. by apply IH.
    + rewrite elem_of_app, IH, list_elem_of_singleton. split.
      * intros [(a' & Ha' & Hf)| ->].
        -- exists a'. split; [|done]. apply elem_of_app. by left.
        -- exists a. split; [|done]. apply elem_of_app. right. left.
      * intros (a' & Ha' & Hf). apply elem_of_app in Ha' as [Ha'|Ha'].
        -- left. by exists a'.
        -- apply list_elem_of_singleton in Ha' as ->. by right.
Qed.
End grouping_by_key.

Implicit Types (config : Config) (bases : list AffiliationBase)
  (search : AffiliationSearchDetails) (c : CallInfo).

Lemma url_identifiers_grouped config bases :
  url_identifiers config bases
  = grouped (fun b => _affiliation_details_url config (base_identifier b)) base_identifier bases.
Proof. reflexivity. Qed.

(** [get_affiliation_details], lines 475-492 (with
    [_affiliation_details_url], lines 451-457): the calls prepared for
    the registries.  No two calls go to the same url and at most two are
    made; a call carries the identifiers whose url is its own, all of
    them and in the order of the bases, so every base is asked about
    exactly once and no call is empty; an identifier that starts with NR
    goes to the NAMEX url and any other to the LEAR url; and every call
    carries the search details, on page 1 unless a filter is set. *)
Theorem call_info_partition config bases search :
  NoDup (call_url <$> call_info config bases search)
  /\ length (call_info config bases search) <= 2
  /\ (forall c, c ∈ call_info config bases search ->
        call_identifiers c
        = List.filter (fun i => bool_decide (_affiliation_details_url config i = call_url c))
                      (base_identifier <$> bases)
        /\ call_identifiers c <> []
        /\ call_search c = first_page_unless_searching search)
  /\ (forall base, base ∈ bases ->
        exists c, c ∈ call_info config bases search
                  /\ call_url c = _affiliation_details_url config (base_identifier base)
                  /\ base_identifier base ∈ call_identifiers c).
Proof.
  set (f := fun b : AffiliationBase => _affiliation_details_url config (base_identifier b)).
  assert (Hurls : call_url <$> call_info config bases search
                  = dict_keys (url_identifiers config bases)).
  { unfold call_info, dict_keys. rewrite <- list_fmap_compose.
    apply list_fmap_ext. by intros _ [u ids] _. }
  assert (Hnd : NoDup (dict_keys (url_identifiers config bases))).
  { rewrite url_identifiers_grouped. apply grouped_NoDup. }
  assert (Hfilter : forall (u : option string) (l : list AffiliationBase),
             base_identifier <$> List.filter (fun a => bool_decide (f a = u)) l
             = List.filter (fun i => bool_decide (_affiliation_details_url config i = u))
                           (base_identifier <$> l)).
  { intros u l. induction l as [|a l IH]; cbn; [done|].
    unfold f at 1. destruct (bool_decide _); cbn; by rewrite IH. }
  assert (Hcall : forall c, c ∈ call_info config bases search ->
             dict_lookup (call_url c) (url_identifiers config bases)
             = Some (call_identifiers c)
             /\ call_search c = first_page_unless_searching search).
  { intros c Hc. unfold call_info in Hc.
    apply list_elem_of_fmap in Hc as ([u ids] & -> & Hin). cbn.
    split; [|done]. by apply dict_member_lookup. }
  split; [by rewrite Hurls|]. split.
  - rewrite <- (length_fmap call_url), Hurls.
    assert (Hsub : dict_keys (url_identifiers config bases)
                   ⊆+ [NAMEX_AFFILIATION_DETAILS_URL config;
                       LEAR_AFFILIATION_DETAILS_URL config]).
    { apply NoDup_submseteq; [done|]. intros u Hu.
      rewrite url_identifiers_grouped in Hu. apply grouped_keys in Hu as (a & _ & <-).
      unfold _affiliation_details_url. destruct (String.prefix _ _); [left|right; left]. }
    apply submseteq_length in Hsub. cbn in Hsub. lia.
  - split.
    + intros c Hc. destruct (Hcall c Hc) as [Hlook Hsearch].
      rewrite url_identifiers_grouped, grouped_lookup in Hlook.
      fold f in Hlook. rewrite <- Hfilter.
      destruct (List.filter _ bases) as [|a l']; [done|].
      injection Hlook as <-. done.
    + intros base Hbase.
      assert (Hk : f base ∈ dict_keys (url_identifiers config bases)).
      { rewrite url_identifiers_grouped. apply grouped_keys. by exists base. }
      rewrite <- Hurls in Hk. apply list_elem_of_fmap in Hk as (c & Hu & Hc).
      exists c. split; [done|]. split; [done|].
      destruct (Hcall c Hc) as [Hlook _].
      rewrite url_identifiers_grouped, grouped_lookup in Hlook. fold f in Hlook.
      assert (Hin : base ∈ List.filter (fun a => bool_decide (f a = call_url c)) bases).
      { apply list_elem_of_In, List.filter_In. split; [by apply list_elem_of_In|].
        by apply bool_decide_eq_true. }
      destruct (List.filter _ bases) as [|a l'] eqn:Hl; [by apply elem_of_nil in Hin|].
      injection Hlook as <-. by apply (list_elem_of_fmap_2 base_identifier (a :: l')).
Qed.
End registry_calls.

(** ** Validating a new business affiliation *)

Section new_business_validation.
Import Py Affiliation.
Variable digits : string -> string.
Variable casefold : string -> string.
Context {Org : Type}.
Implicit Types (reg : Registry Org) (data : AffiliationData) (nr_json : NrJson)
  (entity : option EntityRow).

(** [validate_new_business_affiliation], lines 276-298 (with
    [_validate_org_exists], [_get_and_validate_nr_details],
    [_validate_nr_payment] and [_contacts_match], lines 300-346): the
    call returns the entity found and the name request exactly when the
    caller skips authorization or gives an email or a phone; the org
    exists; NAMEX answers with a name request whose state is APPROVED,
    CONDITIONAL, DRAFT or INPROGRESS and which has applicants; for a DRAFT
    the first invoice of the payment answer is COMPLETED; and the caller
    skips authorization or the contacts match those of the applicants. *)
Theorem validate_new_business_affiliation_accepts reg data entity nr_json :
  validate_new_business_affiliation digits casefold reg data = Returns (entity, nr_json)
  <-> (reg_skip_auth reg = true
       \/ supplied (data_email data) = true \/ supplied (data_phone data) = true)
      /\ reg_org reg <> None
      /\ entity = reg_entity reg
      /\ reg_nr_details reg = Returns (Some nr_json)
      /\ (exists st, nr_state nr_json = Some st /\ st ∈ valid_statuses)
      /\ nr_applicants nr_json <> None
      /\ (nr_state nr_json = Some DRAFT ->
          exists rest, reg_nr_payment reg = Returns (Some "COMPLETED" :: rest))
      /\ (reg_skip_auth reg = true
          \/ _contacts_match digits casefold (data_phone data) (data_email data) nr_json
             = true).
Proof.
  unfold validate_new_business_affiliation, _validate_org_exists,
    _get_and_validate_nr_details, _validate_nr_payment.
  assert (Hvalid : forall j : NrJson,
            bool_decide (nr_state j ∈ (Some <$> valid_statuses)) = true
            <-> exists st, nr_state j = Some st /\ st ∈ valid_statuses).
  { intros j. rewrite bool_decide_eq_true, list_elem_of_fmap. split.
    - intros (st & -> & Hst). by exists st.
    - intros (st & -> & Hst). by exists st. }
  split.
  - intros Hrun.
    destruct (reg_skip_auth reg) eqn:Hskip; cbn [negb andb] in Hrun.
    + destruct (reg_org reg) as [o|]; [|done]. cbn in Hrun.
      destruct (reg_nr_details reg) as [[j|]|] eqn:Hnr; try done. cbn in Hrun.
      destruct (bool_decide (nr_state j ∈ _)) eqn:Hst; [|done]. cbn [negb] in Hrun.
      destruct (bool_decide (is_Some (nr_applicants j))) eqn:Happ; [|done].
      cbn in Hrun. apply bool_decide_eq_true in Happ as [a Ha].
      case_bool_decide as Hdraft.
      * destruct (reg_nr_payment reg) as [[|code rest]|] eqn:Hpay; try done. cbn in Hrun.
        case_bool_decide as Hcode; [|done]. cbn in Hrun. simplify_eq.
        repeat apply conj; try done; try (by left).
        -- by apply Hvalid.
        -- by rewrite Ha.
        -- intros _. by exists rest.
      * cbn in Hrun. simplify_eq.
        repeat apply conj; try done; try (by left).
        -- by apply Hvalid.
        -- by rewrite Ha.
    + destruct (supplied (data_email data) || supplied (data_phone data)) eqn:Hcontact;
        [|done]. cbn [negb] in Hrun.
      destruct (reg_org reg) as [o|]; [|done]. cbn in Hrun.
      destruct (reg_nr_details reg) as [[j|]|] eqn:Hnr; try done. cbn in Hrun.
      destruct (bool_decide (nr_state j ∈ _)) eqn:Hst; [|done]. cbn [negb] in Hrun.
      destruct (bool_decide (is_Some (nr_applicants j))) eqn:Happ; [|done].
      cbn in Hrun. apply bool_decide_eq_true in Happ as [a Ha].
      apply orb_true_iff in Hcontact.
      case_bool_decide as Hdraft.
      * destruct (reg_nr_payment reg) as [[|code rest]|] eqn:Hpay; try done. cbn in Hrun.
        case_bool_decide as Hcode; [|done]. cbn in Hrun.
        destruct (_contacts_match _ _ _ _ j) eqn:Hmatch; [|done]. cbn in Hrun. simplify_eq.
        repeat apply conj; try done; try (by right).
        -- by apply Hvalid.
        -- by rewrite Ha.
        -- intros _. by exists rest.
      * cbn in Hrun.
        destruct (_contacts_match _ _ _ _ j) eqn:Hmatch; [|done]. cbn in Hrun. simplify_eq.
        repeat apply conj; try done; try (by right).
        -- by apply Hvalid.
        -- by rewrite Ha.
  - intros (Hcontact & Horg & -> & Hnr & Hst & Happ & Hpay & Hmatch).
    assert (negb (reg_skip_auth reg)
            && negb (supplied (data_email data) || supplied (data_phone data)) = false) as ->.
    { destruct (reg_skip_auth reg); [done|]. cbn.
      destruct Hcontact as [?|Hc]; [done|]. apply orb_true_iff in Hc. by rewrite Hc. }
    destruct (reg_org reg) as [o|]; [|done]. cbn [mbind outcome_bind]. rewrite Hnr.
    cbn [mbind outcome_bind].
    apply Hvalid in Hst.
    destruct (bool_decide (nr_state nr_json ∈ _)) eqn:Hst'; [|done]. cbn [negb].
    destruct (bool_decide (is_Some (nr_applicants nr_json))) eqn:Happ'.
    2:{ apply bool_decide_eq_false in Happ'. destruct (nr_applicants nr_json); [|done].
        exfalso. apply Happ'. by eexists. }
    cbn [negb mbind outcome_bind]. clear Hst' Happ'.
    assert (negb (reg_skip_auth reg)
            && negb (_contacts_match digits casefold (data_phone data) (data_email data)
                       nr_json) = false) as Hm.
    { destruct (reg_skip_auth reg); [done|]. cbn. destruct Hmatch as [?|Hm]; [done|].
      by rewrite Hm. }
    case_bool_decide as Hdraft.
    + destruct (Hpay Hdraft) as [rest ->]. cbn [mbind outcome_bind].
      rewrite bool_decide_eq_true_2 by done. by rewrite Hm.
    + by rewrite Hm.
Qed.
End new_business_validation.

(** * Creating and deleting an affiliation *)

Section affiliation_calls.
Import Py Affiliation.
Variable validate_passcode : option string -> option string -> bool.
Variable _validate_firms_party : string -> option string -> result bool.
Context {Org : Type}.
Implicit Types (dir : Directory Org) (t : list AffiliationCall) (da : DeleteAffiliationRequest).

Lemma delete_invitations_calls (rest : Act unit) (invitations : list Z) t :
  (foldr (fun invitation rest => call (DeleteInvitation invitation);; rest)
         (mret tt) invitations;; rest) t
  = rest (t ++ (DeleteInvitation <$> invitations)).
Proof.
  revert t. induction invitations as [|i l IH]; intros t.
  - cbn. by rewrite app_nil_r.
  - specialize (IH (t ++ [DeleteInvitation i])).
    rewrite fmap_cons, cons_middle, app_assoc, <- IH.
    reflexivity.
Qed.

Lemma create_affiliation_cases (ctx : AuthContext) dir (org_id : Z)
    (pass_code_ certified_by_name : option string) (skip_membership_check : bool) t :
  match create_affiliation validate_passcode _validate_firms_party ctx dir org_id
          pass_code_ certified_by_name skip_membership_check t with
  | (Returns ids, t') =>
      exists entity,
        (skip_membership_check = true \/ dir_org dir <> None)
        /\ dir_entity dir = Some entity
        /\ is_authorized validate_passcode _validate_firms_party ctx (ent_model entity)
             pass_code_ = Ok true
        /\ dir_affiliation dir = None
        /\ ids = (org_id, ent_id entity)
        /\ t' = t ++ create_calls org_id certified_by_name entity
  | (Fails f, t') =>
      t' = t
      /\ ((skip_membership_check = false /\ dir_org dir = None
           /\ f = Business DATA_NOT_FOUND)
          \/ (dir_entity dir = None /\ f = Business DATA_NOT_FOUND)
          \/ exists entity,
               dir_entity dir = Some entity
               /\ ((exists x, is_authorized validate_passcode _validate_firms_party ctx
                                (ent_model entity) pass_code_ = Raise x
                              /\ f = Python x)
                   \/ (is_authorized validate_passcode _validate_firms_party ctx
                         (ent_model entity) pass_code_ = Ok false
                       /\ f = Business INVALID_USER_CREDENTIALS)
                   \/ (is_authorized validate_passcode _validate_firms_party ctx
                         (ent_model entity) pass_code_ = Ok true
                       /\ dir_affiliation dir <> None
                       /\ f = Business DATA_ALREADY_EXISTS)))
  end.
Proof.
  unfold create_affiliation.
  assert (Hskip : forall (k : Act (Z * Z)),
    (unless skip_membership_check
       (match dir_org dir with
        | None => fail (Business DATA_NOT_FOUND)
        | Some _ => mret tt
        end);; k) t
    = if negb skip_membership_check && bool_decide (dir_org dir = None)
      then (Fails (Business DATA_NOT_FOUND), t) else k t).
  { intros k. destruct skip_membership_check; [done|]. by destruct (dir_org dir). }
  rewrite Hskip. clear Hskip.
  destruct (negb skip_membership_check && bool_decide (dir_org dir = None)) eqn:Horg.
  { apply andb_true_iff in Horg as [Hs Ho]. apply negb_true_iff in Hs.
    apply bool_decide_eq_true in Ho. split; [done|]. by left. }
  assert (Horg' : skip_membership_check = true \/ dir_org dir <> None).
  { apply andb_false_iff in Horg as [Hs|Ho].
    - left. by apply negb_false_iff in Hs.
    - right. by apply bool_decide_eq_false in Ho. }
  clear Horg.
  destruct (dir_entity dir) as [entity|] eqn:Hent.
  2:{ split; [done|]. right. by left. }
  unfold mbind at 1, Act_bind at 1, act.
  destruct (is_authorized validate_passcode _validate_firms_party ctx (ent_model entity)
              pass_code_) as [[|]|x] eqn:Hauth; cbn [python negb].
  - destruct (dir_affiliation dir) as [a|] eqn:Haff.
    + split; [done|]. right. right. exists entity. split; [done|].
      right. right. by repeat split.
    + destruct (bool_decide (corp_type (ent_model entity) ∈ ["SP"; "GP"])) eqn:Hfirm;
        destruct (bool_decide (corp_type (ent_model entity) ∈ temp_corp_types)) eqn:Htemp;
        cbn; exists entity; unfold create_calls; cbv zeta; rewrite Hfirm, Htemp;
        repeat split; try done; cbn; by rewrite <- ?app_assoc.
  - split; [done|]. right. right. exists entity. split; [done|]. right. by left.
  - split; [done|]. right. right. exists entity. split; [done|]. left. by exists x.
Qed.

(** [create_affiliation] (affiliation.py, lines 154-199) is all or nothing.
    When it returns, the organisation was found (or the membership check
    skipped), the entity exists, the caller is authorized and no
    affiliation of the pair existed; it has saved the affiliation, claimed
    the passcode unless the entity is an SP or GP firm, logged the activity
    unless the entity has a temporary type, and published
    BUSINESS_AFFILIATED last.  When it fails, no call has been issued, and
    the failure is DATA_NOT_FOUND for a missing organisation or entity, the
    exception of the authorization check, INVALID_USER_CREDENTIALS for an
    unauthorized caller (also when the affiliation exists), and
    DATA_ALREADY_EXISTS for an authorized one whose affiliation exists. *)
Theorem create_affiliation_all_or_nothing (ctx : AuthContext) dir (org_id : Z)
    (pass_code_ certified_by_name : option string) (skip_membership_check : bool) t :
  match create_affiliation validate_passcode _validate_firms_party ctx dir org_id
          pass_code_ certified_by_name skip_membership_check t with
  | (Returns ids, t') =>
      exists entity,
        (skip_membership_check = true \/ dir_org dir <> None)
        /\ dir_entity dir = Some entity
        /\ is_authorized validate_passcode _validate_firms_party ctx (ent_model entity)
             pass_code_ = Ok true
        /\ dir_affiliation dir = None
        /\ ids = (org_id, ent_id entity)
        /\ t' = t ++ create_calls org_id certified_by_name entity
  | (Fails f, t') =>
      t' = t
      /\ ((skip_membership_check = false /\ dir_org dir = None
           /\ f = Business DATA_NOT_FOUND)
          \/ (dir_entity dir = None /\ f = Business DATA_NOT_FOUND)
          \/ exists entity,
               dir_entity dir = Some entity
               /\ ((exists x, is_authorized validate_passcode _validate_firms_party ctx
                                (ent_model entity) pass_code_ = Raise x
                              /\ f = Python x)
                   \/ (is_authorized validate_passcode _validate_firms_party ctx
                         (ent_model entity) pass_code_ = Ok false
                       /\ f = Business INVALID_USER_CREDENTIALS)
                   \/ (is_authorized validate_passcode _validate_firms_party ctx
                         (ent_model entity) pass_code_ = Ok true
                       /\ dir_affiliation dir <> None
                       /\ f = Business DATA_ALREADY_EXISTS)))
  end.
Proof. apply create_affiliation_cases. Qed.

Lemma delete_affiliation_cases dir da t :
  match delete_affiliation dir da t with
  | (Returns _, t') =>
      exists entity affiliation_id,
        dir_org dir <> None
        /\ dir_entity dir = Some entity
        /\ dir_affiliation dir = Some affiliation_id
        /\ t' = t ++ delete_calls da entity affiliation_id (dir_invitations dir)
  | (Fails f, t') =>
      t' = t /\ f = Business DATA_NOT_FOUND
      /\ (dir_org dir = None \/ dir_entity dir = None \/ dir_affiliation dir = None)
  end.
Proof.
  unfold delete_affiliation.
  destruct (dir_org dir) as [o|] eqn:Horg; [|by repeat split; auto].
  destruct (dir_entity dir) as [entity|] eqn:Hent; [|by repeat split; auto].
  destruct (dir_affiliation dir) as [a|] eqn:Haff; [|by repeat split; auto].
  rewrite delete_invitations_calls.
  destruct (da_reset_passcode da) eqn:Hreset;
    destruct (bool_decide (corp_type (ent_model entity) ∈ temp_corp_types)) eqn:Htemp;
    destruct (da_log_delete_draft da
              || negb (bool_decide (ent_status entity ∈ [Some DRAFT; Some CONSUMED])
                       && String.eqb (corp_type (ent_model entity)) NR
                       || str_contains (business_identifier (ent_model entity)) "NR ")) eqn:Hpub;
    cbn; rewrite ?Hpub; cbn;
    exists entity, a; unfold delete_calls, unaffiliated_calls, is_name_request; cbv zeta;
    rewrite Hreset, Htemp, ?Hpub; repeat split; try done; cbn;
    by rewrite <- ?app_assoc.
Qed.

(** [delete_affiliation] (affiliation.py, lines 358-413) fails with
    DATA_NOT_FOUND, having issued no call, exactly when the organisation,
    the entity or the affiliation is missing.  Otherwise it returns after
    deleting every invitation of the affiliation, resetting the passcode
    when asked, deleting the affiliation and releasing the passcode claim,
    in this order; then it publishes nothing for an entity of a temporary
    type, and otherwise BUSINESS_UNAFFILIATED, preceded by the activity
    record unless the entity is a name request whose deletion the request
    does not ask to log. *)
Theorem delete_affiliation_outcome dir da t :
  match delete_affiliation dir da t with
  | (Returns _, t') =>
      exists entity affiliation_id,
        dir_org dir <> None
        /\ dir_entity dir = Some entity
        /\ dir_affiliation dir = Some affiliation_id
        /\ t' = t ++ delete_calls da entity affiliation_id (dir_invitations dir)
  | (Fails f, t') =>
      t' = t /\ f = Business DATA_NOT_FOUND
      /\ (dir_org dir = None \/ dir_entity dir = None \/ dir_affiliation dir = None)
  end.
Proof. apply delete_affiliation_cases. Qed.

(** An entity of a temporary type (RTMP, TMP, ATMP, CTMP) is announced when
    it is affiliated and never when it is unaffiliated: a
    [create_affiliation] that returns has published BUSINESS_AFFILIATED for
    it, a [delete_affiliation] that returns has published no event at all,
    and neither has logged an activity (affiliation.py, lines 190-198 and
    393-394). *)
Theorem temporary_entity_events (ctx : AuthContext) dir dir' (entity : EntityRow)
    (org_id : Z) (pass_code_ certified_by_name : option string)
    (skip_membership_check : bool) da (ids : Z * Z) (u : unit)
    (created deleted : list AffiliationCall) :
  corp_type (ent_model entity) ∈ temp_corp_types ->
  dir_entity dir = Some entity ->
  dir_entity dir' = Some entity ->
  create_affiliation validate_passcode _validate_firms_party ctx dir org_id
    pass_code_ certified_by_name skip_membership_check [] = (Returns ids, created) ->
  delete_affiliation dir' da [] = (Returns u, deleted) ->
  filter is_event created
    = [PublishAffiliationEvent BUSINESS_AFFILIATED org_id
         (business_identifier (ent_model entity))]
  /\ filter is_event deleted = []
  /\ filter is_logged (created ++ deleted) = [].
Proof.
  intros Htemp Hent Hent' Hcreate Hdelete.
  pose proof (create_affiliation_cases ctx dir org_id pass_code_
                certified_by_name skip_membership_check []) as Hc.
  rewrite Hcreate in Hc. destruct Hc as (e1 & _ & He1 & _ & _ & _ & ->).
  pose proof (delete_affiliation_cases dir' da []) as Hd.
  rewrite Hdelete in Hd. destruct Hd as (e2 & a & _ & He2 & _ & ->).
  assert (e1 = entity) as -> by congruence.
  assert (e2 = entity) as -> by congruence.
  unfold create_calls, delete_calls, unaffiliated_calls. cbv zeta.
  rewrite (bool_decide_eq_true_2 _ Htemp).
  assert (Hinv : forall l : list Z,
            filter is_event (DeleteInvitation <$> l) = []
            /\ filter is_logged (DeleteInvitation <$> l) = []).
  { induction l as [|i l [IH1 IH2]]; [done|]. by rewrite fmap_cons, !filter_cons. }
  destruct (Hinv (dir_invitations dir')) as [Hi1 Hi2].
  rewrite !filter_app, Hi1, Hi2.
  by destruct (bool_decide (corp_type (ent_model entity) ∈ ["SP"; "GP"]));
    destruct (da_reset_passcode da).
Qed.
End affiliation_calls.

Section affiliation_call_examples.
Import Py Affiliation.

Lemma temporary_entity_events_witness :
  filter is_event
    [SaveAffiliation 3 12 None; SetPassCodeClaimed 12 true;
     PublishAffiliationEvent BUSINESS_AFFILIATED 3 "Tb31yQIuBw"]
    = [PublishAffiliationEvent BUSINESS_AFFILIATED 3 "Tb31yQIuBw"]
  /\ filter is_event
       [DeleteInvitation 5; DeleteAffiliation 40; SetPassCodeClaimed 12 false] = []
  /\ filter is_logged
       ([SaveAffiliation 3 12 None; SetPassCodeClaimed 12 true;
         PublishAffiliationEvent BUSINESS_AFFILIATED 3 "Tb31yQIuBw"]
        ++ [DeleteInvitation 5; DeleteAffiliation 40; SetPassCodeClaimed 12 false]) = [].
Proof.
  apply (temporary_entity_events validate_passcode (fun _ _ => Ok false) a_staff_caller
           (a_directory None) (a_directory (Some 40%Z)) a_registration 3%Z None None
           false a_delete_request (3%Z, 12%Z) tt).
  - vm_compute. apply list_elem_of_In. cbn. tauto.
  - reflexivity.
  - reflexivity.
  - reflexivity.
  - reflexivity.
Defined.
End affiliation_call_examples.

(** * Matching a party of a firm *)

Section firms_party_proofs.
Import Py Affiliation.
Variable is_space : Ascii.ascii -> bool.
Variable upper : string -> string.
Hypothesis space_is_space :
  is_space (Ascii.Ascii false false false false false true false false) = true.
Implicit Types (w s t p q : string) (ws : list string) (parties : list Party).

Lemma split_cons (c : Ascii.ascii) s :
  split is_space (String c s)
  = if is_space c then split is_space s
    else match s with
         | EmptyString => [String c EmptyString]
         | String c' _ =>
             if is_space c' then String c EmptyString :: split is_space s
             else match split is_space s with
                  | w :: ws => String c w :: ws
                  | [] => [String c EmptyString]
                  end
         end.
Proof. reflexivity. Qed.

Lemma split_word_app w t :
  is_word is_space w -> starts_blank is_space t = true ->
  split is_space (w ++ t) = w :: split is_space t.
Proof.
  intros [Hne Hw] Ht. induction w as [|c w' IH]; [done|]. clear Hne.
  cbn [no_space] in Hw. apply andb_true_iff in Hw as [Hc Hw']. apply negb_true_iff in Hc.
  change (String c w' ++ t)%string with (String c (w' ++ t)%string).
  rewrite split_cons, Hc.
  destruct w' as [|c' w''].
  - change ("" ++ t)%string with t.
    destruct t as [|c' t']; [done|]. cbn in Ht. by rewrite Ht.
  - specialize (IH ltac:(done) Hw').
    cbn [no_space] in Hw'. apply andb_true_iff in Hw' as [Hc' _].
    apply negb_true_iff in Hc'.
    rewrite IH.
    change (String c' w'' ++ t)%string with (String c' (w'' ++ t)%string).
    cbv iota. by rewrite Hc'.
Qed.

Lemma split_words s : Forall (is_word is_space) (split is_space s).
Proof.
  induction s as [|c s' IH]; [constructor|].
  rewrite split_cons. destruct (is_space c) eqn:Hc; [done|].
  destruct s' as [|c' s''].
  - constructor; [|constructor]. split; [done|]. cbn. by rewrite Hc.
  - destruct (is_space c') eqn:Hc'.
    + constructor; [|done]. split; [done|]. cbn. by rewrite Hc.
    + destruct (split is_space (String c' s'')) as [|w ws] eqn:Hs.
      * constructor; [|constructor]. split; [done|]. cbn. by rewrite Hc.
      * apply Forall_cons in IH as [[_ Hw] Hws].
        constructor; [|done]. split; [done|]. cbn. by rewrite Hc, Hw.
Qed.

Lemma string_app_nil_r s : (s ++ "")%string = s.
Proof.
  induction s as [|c s IH]; [done|].
  change (String c (s ++ "")%string = String c s). by rewrite IH.
Qed.

Lemma split_join ws :
  Forall (is_word is_space) ws -> split is_space (join " " ws) = ws.
Proof.
  induction 1 as [|w ws Hw Hws IH]; [done|].
  destruct ws as [|w' ws'].
  - cbn [join]. rewrite <- (string_app_nil_r w) at 1.
    by rewrite split_word_app.
  - change (join " " (w :: w' :: ws')) with (w ++ " " ++ join " " (w' :: ws'))%string.
    rewrite split_word_app; [|done|by cbn].
    f_equal. change (" " ++ join " " (w' :: ws'))%string
      with (String (Ascii.Ascii false false false false false true false false)
                   (join " " (w' :: ws'))).
    by rewrite split_cons, space_is_space.
Qed.

Lemma single_spaced_idemp s :
  single_spaced is_space (single_spaced is_space s) = single_spaced is_space s.
Proof. unfold single_spaced. by rewrite split_join by apply split_words. Qed.

Lemma match_parties_cons p party parties :
  match_parties is_space upper p (party :: parties)
  = party_matches is_space upper p party
    ≫= (fun b : bool =>
          if b then Returns true
          else match_parties is_space upper (single_spaced is_space p) parties).
Proof.
  cbn [match_parties]. unfold party_matches.
  destruct (officer party) as [o|]; [|done].
  by destruct (party_name o).
Qed.

Lemma party_matches_name p q party :
  upper (single_spaced is_space p) = upper (single_spaced is_space q) ->
  party_matches is_space upper p party = party_matches is_space upper q party.
Proof. unfold party_matches. by intros ->. Qed.

Lemma match_parties_name p q parties :
  upper (single_spaced is_space p) = upper (single_spaced is_space q) ->
  match_parties is_space upper p parties = match_parties is_space upper q parties.
Proof.
  revert p q. induction parties as [|party parties IH]; intros p q Hpq; [done|].
  rewrite !match_parties_cons, (party_matches_name p q party Hpq).
  destruct (party_matches is_space upper q party) as [[|]|]; try done.
  cbn. apply IH. by rewrite !single_spaced_idemp.
Qed.

Lemma match_parties_true p parties :
  match_parties is_space upper p parties = Returns true
  <-> exists i party,
        parties !! i = Some party
        /\ party_matches is_space upper p party = Returns true
        /\ forall j party', j < i -> parties !! j = Some party' ->
             party_matches is_space upper p party' = Returns false.
Proof.
  revert p. induction parties as [|party parties IH]; intros p.
  - split; [done|]. by intros (i & party & Hi & _).
  - rewrite match_parties_cons.
    destruct (party_matches is_space upper p party) as [[|]|f] eqn:Hparty; cbn.
    + split; [|done]. intros _. exists 0, party. repeat split; [done|]. lia.
    + rewrite (match_parties_name (single_spaced is_space p) p)
        by by rewrite single_spaced_idemp.
      rewrite IH. split.
      * intros (i & party' & Hi & Hm & Hbefore). exists (S i), party'.
        repeat split; [done..|]. intros [|j] party'' Hj Hlook.
        -- cbn in Hlook. by simplify_eq.
        -- apply (Hbefore j); [lia|done].
      * intros ([|i] & party' & Hi & Hm & Hbefore).
        -- cbn in Hi. simplify_eq. congruence.
        -- exists i, party'. repeat split; [done..|].
           intros j party'' Hj Hlook. apply (Hbefore (S j)); [lia|done].
    + split; [done|]. intros ([|i] & party' & Hi & Hm & Hbefore).
      * cbn in Hi. simplify_eq. congruence.
      * specialize (Hbefore 0 party ltac:(lia) eq_refl). congruence.
Qed.

Lemma match_parties_false p parties :
  match_parties is_space upper p parties = Returns false
  <-> Forall (fun party => party_matches is_space upper p party = Returns false) parties.
Proof.
  revert p. induction parties as [|party parties IH]; intros p.
  - split; [constructor|done].
  - rewrite match_parties_cons, Forall_cons.
    destruct (party_matches is_space upper p party) as [[|]|f] eqn:Hparty; cbn.
    + split; [done|]. by intros [? _].
    + rewrite (match_parties_name (single_spaced is_space p) p)
        by by rewrite single_spaced_idemp.
      rewrite IH. tauto.
    + split; [done|]. by intros [? _].
Qed.

(** [_validate_firms_party] (affiliation.py, lines 635-662) compares the
    supplied name with the names of the parties up to case and to
    whitespace: two supplied names that are equal once single-spaced and
    put in upper case get the same answer, whatever the registry
    answered. *)
Theorem validate_firms_party_spacing lear_response p q :
  upper (single_spaced is_space p) = upper (single_spaced is_space q) ->
  _validate_firms_party is_space upper lear_response p
  = _validate_firms_party is_space upper lear_response q.
Proof.
  intros Hpq. destruct lear_response as [[parties|]|]; [|done..].
  by apply match_parties_name.
Qed.

(** [_validate_firms_party] (affiliation.py, lines 647-662) answers by the
    first party that decides: it returns True exactly when some party
    matches the supplied name and every party before it has a name and
    does not match, so a malformed party after the match is never looked
    at; it returns False exactly when every party has a name and none
    matches. *)
Theorem validate_firms_party_first_match parties p :
  (_validate_firms_party is_space upper (Some (Some parties)) p = Returns true
   <-> exists i party,
         parties !! i = Some party
         /\ party_matches is_space upper p party = Returns true
         /\ forall j party', j < i -> parties !! j = Some party' ->
              party_matches is_space upper p party' = Returns false)
  /\ (_validate_firms_party is_space upper (Some (Some parties)) p = Returns false
      <-> Forall (fun party => party_matches is_space upper p party = Returns false)
                 parties).
Proof. split; [apply match_parties_true|apply match_parties_false]. Qed.
End firms_party_proofs.

Section firms_party_examples.
Import Py Affiliation.

Lemma validate_firms_party_spacing_witness :
  _validate_firms_party ascii_space ascii_upper (Some (Some firm_parties)) " doe,  jane q"
  = _validate_firms_party ascii_space ascii_upper (Some (Some firm_parties)) "DOE, JANE Q".
Proof.
  apply (validate_firms_party_spacing ascii_space ascii_upper eq_refl
           (Some (Some firm_parties)) " doe,  jane q" "DOE, JANE Q").
  vm_compute. reflexivity.
Defined.

Lemma validate_firms_party_first_match_witness :
  _validate_firms_party ascii_space ascii_upper (Some (Some firm_parties)) "doe, jane  q"
  = Returns true.
Proof.
  apply (proj1 (validate_firms_party_first_match ascii_space ascii_upper eq_refl
                  firm_parties "doe, jane  q")).
  exists 1, {| officer := Some {| partyType := Some "person"; organizationName := None;
                                 lastName := Some "Doe"; firstName := Some "Jane";
                                 middleInitial := Some "Q" |} |}.
  split; [reflexivity|]. split; [vm_compute; reflexivity|].
  intros [|j] party' Hj Hlook; [|lia].
  cbn in Hlook. injection Hlook as <-. vm_compute. reflexivity.
Defined.
End firms_party_examples.

(** * Listing the members of an org *)

Section members_listing.
Import Py Membership.
Variable ALLOWED_READ_ROLES : list string.
Variable Status_named : string -> option Status.
Implicit Types (env : Listing) (l : list Member) (x : Member).

(** [get_members_for_org] (membership.py, lines 105-153): who sees which
    members.  When the call returns a list holding a member, the status
    asked for is a member of [Status] and the list is the query's answer
    for that status and the roles asked for (the default roles when
    none), shown to a staff or external-staff caller, or to a caller whose
    own membership in the org is ACTIVE and who is an ADMIN or COORDINATOR
    or asks for the ACTIVE members; or else the caller's membership is
    pending approval, the caller asked for the pending members, and the
    list is that membership alone.  So a caller with no membership, or an
    inactive or rejected one, is shown nobody, and a plain ACTIVE user
    never sees who is pending. *)
Theorem get_members_for_org_visibility env (org_id : Z) (status_ : option string)
    (membership_roles : option (list string)) l x :
  get_members_for_org ALLOWED_READ_ROLES Status_named env org_id status_ membership_roles
  = Ok (Some l) ->
  x ∈ l ->
  exists asked,
    status_asked Status_named status_ = Some asked
    /\ ((l = find_members_by_org_id_by_status_by_roles env org_id
               (default ALLOWED_READ_ROLES membership_roles) asked
         /\ (caller_is_staff env = true \/ caller_is_external_staff env = true
             \/ exists uid own,
                  jwt_user env = Ok uid
                  /\ find_membership_by_user_and_org env uid org_id = Some own
                  /\ status (member_row own) = ACTIVE
                  /\ (membership_type_code (member_row own) ∈ [ADMIN; COORDINATOR]
                      \/ asked = ACTIVE)))
        \/ (exists uid,
              jwt_user env = Ok uid
              /\ find_membership_by_user_and_org env uid org_id = Some x
              /\ status (member_row x) = PENDING_APPROVAL
              /\ asked = PENDING_APPROVAL
              /\ l = [x])).
Proof.
  unfold get_members_for_org, status_asked. intros Hrun Hx.
  destruct (org_found env); [|done]. cbn [negb] in Hrun.
  assert (Hasked : exists asked,
            match status_ with
            | Some name => subscript (Status_named name)
            | None => Ok ACTIVE
            end = Ok asked
            /\ match status_ with
               | Some name => Status_named name
               | None => Some ACTIVE
               end = Some asked).
  { destruct status_ as [name|]; [|by eexists].
    destruct (Status_named name) as [st|]; [by eexists|done]. }
  destruct Hasked as (asked & Hr & Hasked). rewrite Hr in Hrun. cbn in Hrun.
  exists asked. split; [done|].
  destruct (caller_is_staff env || caller_is_external_staff env) eqn:Hstaff.
  { left. simplify_eq. split; [done|].
    apply orb_true_iff in Hstaff as [?|?]; auto. }
  destruct (jwt_user env) as [uid|] eqn:Huid; [|done]. cbn in Hrun.
  destruct (find_membership_by_user_and_org env uid org_id) as [own|] eqn:Hown.
  2:{ simplify_eq. by apply elem_of_nil in Hx. }
  destruct (bool_decide (status (member_row own) = INACTIVE)
            || bool_decide (status (member_row own) = REJECTED)).
  { simplify_eq. by apply elem_of_nil in Hx. }
  case_bool_decide as Hpending.
  { case_bool_decide as Hasks; simplify_eq; [|by apply elem_of_nil in Hx].
    apply list_elem_of_singleton in Hx as ->.
    right. by exists uid. }
  case_bool_decide as Hactive; [|simplify_eq; by apply elem_of_nil in Hx].
  case_bool_decide as Hrole.
  { simplify_eq. left. split; [done|]. right. right. exists uid, own. auto. }
  case_bool_decide as Hasks; simplify_eq; [|by apply elem_of_nil in Hx].
  left. split; [done|]. right. right. exists uid, own. auto.
Qed.
End members_listing.

Section members_listing_examples.
Import Py Membership.

Lemma get_members_for_org_visibility_witness :
  exists asked,
    status_asked status_names (Some "PENDING_APPROVAL") = Some asked
    /\ (([the_applicant]
         = find_members_by_org_id_by_status_by_roles applicant_listing 1
             (default [ADMIN; COORDINATOR; USER] None) asked
         /\ (caller_is_staff applicant_listing = true
             \/ caller_is_external_staff applicant_listing = true
             \/ exists uid own,
                  jwt_user applicant_listing = Ok uid
                  /\ find_membership_by_user_and_org applicant_listing uid 1 = Some own
                  /\ status (member_row own) = ACTIVE
                  /\ (membership_type_code (member_row own) ∈ [ADMIN; COORDINATOR]
                      \/ asked = ACTIVE)))
        \/ (exists uid,
              jwt_user applicant_listing = Ok uid
              /\ find_membership_by_user_and_org applicant_listing uid 1 = Some the_applicant
              /\ status (member_row the_applicant) = PENDING_APPROVAL
              /\ asked = PENDING_APPROVAL
              /\ [the_applicant] = [the_applicant])).
Proof.
  apply (get_members_for_org_visibility [ADMIN; COORDINATOR; USER] status_names
           applicant_listing 1%Z (Some "PENDING_APPROVAL") None
           [the_applicant] the_applicant).
  - vm_compute. reflexivity.
  - apply list_elem_of_singleton. reflexivity.
Defined.
End members_listing_examples.

(** * A new business affiliation *)

Section new_business_affiliation.
Import Py Affiliation.
Variable digits : string -> string.
Variable casefold : string -> string.
Context {Org : Type}.
Implicit Types (reg : Registry Org) (store : EntityStore) (data : AffiliationData)
  (nr_json : NrJson) (t : list AffiliationCall) (names : list NrName).

Lemma find_first {A} (f : A -> bool) (l : list A) :
  match List.find f l with
  | Some a =>
      exists i, l !! i = Some a /\ f a = true
                /\ forall j b, j < i -> l !! j = Some b -> f b = false
  | None => forall b, b ∈ l -> f b = false
  end.
Proof.
  induction l as [|a l IH]; cbn.
  - by intros b ?%elem_of_nil.
  - destruct (f a) eqn:Hfa.
    + exists 0. repeat split; [done|]. lia.
    + destruct (List.find f l) as [a'|].
      * destruct IH as (i & Hi & Hfa' & Hbefore). exists (S i).
        repeat split; [done..|]. intros [|j] b Hj Hlook.
        -- cbn in Hlook. by simplify_eq.
        -- apply (Hbefore j); [lia|done].
      * intros b [->|Hb]%elem_of_cons; [done|by apply IH].
Qed.

(** [create_new_business_affiliation] (affiliation.py, lines 229-248): the
    name of the entity it creates.  When the name is chosen, the name
    request has names, and the entity is named by the first of them whose
    state is APPROVED if the name request is APPROVED, and CONDITION for
    every other state; when there is no such name, or the first has no
    name or an empty one, the entity is named by the business identifier.
    Names in another state, and later names of the right state, are
    never used. *)
Theorem new_entity_name_choice nr_json (identifier name : string) :
  new_entity_name nr_json identifier = Returns name ->
  exists names,
    nr_json_names nr_json = Some names
    /\ ((exists i entry,
           names !! i = Some entry
           /\ name_state entry = Some (naming_state nr_json)
           /\ (forall j other, j < i -> names !! j = Some other ->
                 name_state other <> Some (naming_state nr_json))
           /\ name = (if supplied (name_name entry) then default "" (name_name entry)
                      else identifier))
        \/ ((forall other, other ∈ names ->
               name_state other <> Some (naming_state nr_json))
            /\ name = identifier)).
Proof.
  unfold new_entity_name, next_name. fold (naming_state nr_json).
  destruct (nr_json_names nr_json) as [names|]; [|done].
  cbn. intros [= <-]. exists names. split; [done|].
  pose proof (find_first
    (fun entry => bool_decide (name_state entry = Some (naming_state nr_json))) names) as Hfind.
  destruct (List.find _ names) as [entry|].
  - destruct Hfind as (i & Hi & Hstate & Hbefore). left. exists i, entry.
    apply bool_decide_eq_true in Hstate. split; [done|]. split; [done|]. split; [|reflexivity].
    intros j other Hj Hlook. eapply bool_decide_eq_false_1, (Hbefore j); done.
  - right. split; [|done]. intros other Hother.
    by eapply bool_decide_eq_false_1, Hfind.
Qed.

(** [create_new_business_affiliation] (affiliation.py, lines 219-274) is
    all or nothing.  It fails, having issued no call, when the validation
    fails or when the entity is to be created and the name request has no
    names.  Otherwise it returns: an entity that was not found is saved
    first, as a name request under the chosen name; then an affiliation
    that exists is only given the new certifier, and a new one is saved
    after the activity is logged, which is skipped for an entity of a
    temporary type; and the passcode is claimed last. *)
Theorem create_new_business_affiliation_all_or_nothing reg store data t :
  match create_new_business_affiliation digits casefold reg store data t with
  | (Returns ids, t') =>
      exists found nr_json entity,
        validate_new_business_affiliation digits casefold reg data
        = Returns (found, nr_json)
        /\ ids = (data_org_id data, ent_id entity)
        /\ ((found = Some entity /\ t' = t ++ affiliate_calls store data entity)
            \/ (found = None
                /\ exists name,
                     new_entity_name nr_json (data_business_identifier data) = Returns name
                     /\ entity = save_entity store (data_business_identifier data) name
                     /\ t' = t ++ SaveEntity (data_business_identifier data) name NR true
                                 :: affiliate_calls store data entity))
  | (Fails f, t') =>
      t' = t
      /\ (validate_new_business_affiliation digits casefold reg data = Fails f
          \/ exists nr_json,
               validate_new_business_affiliation digits casefold reg data
               = Returns (None, nr_json)
               /\ new_entity_name nr_json (data_business_identifier data) = Fails f)
  end.
Proof.
  unfold create_new_business_affiliation.
  unfold mbind at 1, Act_bind at 1, act.
  destruct (validate_new_business_affiliation digits casefold reg data)
    as [[found nr_json]|f] eqn:Hvalid; [|by split; [|left]].
  assert (Htail : forall entity t0,
    (match find_affiliation_by_org_and_entity_ids store (data_org_id data) (ent_id entity) with
     | Some affiliation_id =>
         call (UpdateAffiliation affiliation_id (data_certified_by_name data))
     | None =>
         unless (bool_decide (corp_type (ent_model entity) ∈ temp_corp_types))
           (call (PublishAffiliationActivity (data_org_id data) CREATE_AFFILIATION
                    (ent_name entity) (business_identifier (ent_model entity))));;
         call (SaveAffiliation (data_org_id data) (ent_id entity)
                 (data_certified_by_name data))
     end;;
     call (SetPassCodeClaimed (ent_id entity) true);;
     mret (data_org_id data, ent_id entity)) t0
    = (Returns (data_org_id data, ent_id entity), t0 ++ affiliate_calls store data entity)).
  { intros entity t0. unfold affiliate_calls.
    destruct (find_affiliation_by_org_and_entity_ids store _ _) as [a|].
    - unfold mbind, Act_bind, call, mret, Act_ret. cbn. by rewrite <- app_assoc.
    - destruct (bool_decide (corp_type (ent_model entity) ∈ temp_corp_types));
        unfold mbind, Act_bind, call, unless, mret, Act_ret; cbn;
        by rewrite <- ?app_assoc. }
  destruct found as [entity|].
  - unfold mbind at 1, Act_bind at 1, mret at 1, Act_ret at 1. cbv beta iota.
    rewrite Htail. exists (Some entity), nr_json, entity. repeat split. by left.
  - unfold mbind at 1, Act_bind at 1.
    unfold mbind at 1, Act_bind at 1, act.
    destruct (new_entity_name nr_json (data_business_identifier data)) as [name|f] eqn:Hname.
    + unfold mbind at 1, Act_bind at 1, call at 1, mret at 1, Act_ret at 1.
      cbv beta iota. rewrite Htail.
      exists None, nr_json, (save_entity store (data_business_identifier data) name).
      repeat split. right. split; [done|]. exists name.
      split; [done|]. split; [done|]. by rewrite <- app_assoc.
    + split; [done|]. right. by exists nr_json.
Qed.
End new_business_affiliation.

Section new_business_examples.
Import Py Affiliation.

Lemma new_entity_name_choice_witness :
  exists names,
    nr_json_names a_name_request = Some names
    /\ ((exists i entry,
           names !! i = Some entry
           /\ name_state entry = Some (naming_state a_name_request)
           /\ (forall j other, j < i -> names !! j = Some other ->
                 name_state other <> Some (naming_state a_name_request))
           /\ "ACME THREE LTD."
              = (if supplied (name_name entry) then default "" (name_name entry)
                 else "NR 1234567"))
        \/ ((forall other, other ∈ names ->
               name_state other <> Some (naming_state a_name_request))
            /\ "ACME THREE LTD." = "NR 1234567")).
Proof.
  apply (new_entity_name_choice a_name_request "NR 1234567" "ACME THREE LTD.").
  vm_compute. reflexivity.
Defined.
End new_business_examples.
